(** * Express Chocolatey Server: the metadata normaliser, the filter
    interpreter, the feed renderer and the route handlers of
    [chocolatey-server.js], embedded as Rocq functions.

    The model starts from the records that [readPackageMetadata] returns;
    opening the archive and parsing its XML are the work of the libraries
    adm-zip and xmldoc and stay outside.

    JavaScript strings are modelled as [string], one [ascii] per code unit
    (so the code units 0..255).  The regular-expression atom [.] refuses the
    line terminators LF, CR, U+2028 and U+2029; within the modelled range
    these are LF and CR.  Calls to
    [console.log] and [console.error] are left out: they do not change what a
    handler answers. *)

From Stdlib Require Import Ascii String List Lia Bool Arith.
From stdpp Require Import base option list gmap strings.

Local Open Scope stdpp_scope.

(** ** JavaScript string primitives *)

Module JsString.

Definition len (s : string) : nat := String.length s.

(** [s.startsWith(p)] *)
Fixpoint startsWith (s p : string) {struct p} : bool :=
  match p with
  | EmptyString => true
  | String a p' =>
      match s with
      | EmptyString => false
      | String b s' => if Ascii.eqb a b then startsWith s' p' else false
      end
  end.

(** [s.includes(n)]: [n] occurs in [s] at some position. *)
Fixpoint includes (s n : string) : bool :=
  startsWith s n ||
  match s with
  | EmptyString => false
  | String _ s' => includes s' n
  end.

(** [s.endsWith(p)] *)
Fixpoint endsWith (s p : string) : bool :=
  String.eqb s p ||
  match s with
  | EmptyString => false
  | String _ s' => endsWith s' p
  end.

(** [s.substring(0, n)] and [s.substring(n)] *)
Fixpoint take (n : nat) (s : string) : string :=
  match n, s with
  | S n', String c s' => String c (take n' s')
  | _, _ => EmptyString
  end.

Fixpoint drop (n : nat) (s : string) : string :=
  match n, s with
  | S n', String _ s' => drop n' s'
  | _, _ => s
  end.

(** [Array.prototype.join]: the accumulator [R] starts empty; from the
    second element on the separator is appended before the element. *)
Definition join (sep : string) (l : list string) : string :=
  snd (fold_left
         (fun (st : bool * string) (x : string) =>
            let '(first, R) := st in
            (false, (if first then R else R +:+ sep) +:+ x))
         l (true, EmptyString)).

End JsString.

(** ** Regular expressions

    A regular expression is embedded as a backtracking matcher in
    continuation-passing style: a matcher is run at one position of the
    subject (the suffix that starts there) and answers the capture groups and
    the suffix left after the match, or [None].  The combinators below are
    the constructs the source's six literals use. *)

Module RegExp.
Import JsString.

(** What a match attempt at one position yields: the captures, in group
    order, and what is left of the subject after the match. *)
Definition result : Type := list string * string.
Definition matcher : Type := string -> option result.

Definition accept : matcher := fun s => Some ([], s).

Definition isLineTerminator (c : ascii) : bool :=
  Ascii.eqb c "010"%char || Ascii.eqb c "013"%char.

(** Canonicalize of a case-insensitive match: the upper-case form of an
    ASCII letter.  The patterns hold ASCII characters only, and a code unit
    above 127 never canonicalizes to one, so its own upper-case form does
    not matter. *)
Definition canonicalize (c : ascii) : ascii :=
  let n := nat_of_ascii c in
  if (97 <=? n) && (n <=? 122) then ascii_of_nat (n - 32) else c.

(** A run of literal pattern characters. *)
Fixpoint lit (p : string) (k : matcher) (s : string) {struct p}
  : option result :=
  match p with
  | EmptyString => k s
  | String a p' =>
      match s with
      | String b s' => if Ascii.eqb a b then lit p' k s' else None
      | EmptyString => None
      end
  end.

(** The same under the [i] flag. *)
Fixpoint litI (p : string) (k : matcher) (s : string) {struct p}
  : option result :=
  match p with
  | EmptyString => k s
  | String a p' =>
      match s with
      | String b s' =>
          if Ascii.eqb (canonicalize a) (canonicalize b)
          then litI p' k s' else None
      | EmptyString => None
      end
  end.

(** [.*]: takes as many characters of the line as it can and gives them
    back one at a time until the continuation succeeds.  Answers what it
    kept together with the continuation's result. *)
Fixpoint dotStarGreedy (k : matcher) (s : string) : option (string * result) :=
  match s with
  | String c s' =>
      if isLineTerminator c then pair EmptyString <$> k s
      else match dotStarGreedy k s' with
           | Some (kept, r) => Some (String c kept, r)
           | None => pair EmptyString <$> k s
           end
  | EmptyString => pair EmptyString <$> k s
  end.

(** [.*?]: tries the continuation first and takes one more character of
    the line each time it fails. *)
Fixpoint dotStarLazy (k : matcher) (s : string) : option (string * result) :=
  match k s with
  | Some r => Some (EmptyString, r)
  | None =>
      match s with
      | String c s' =>
          if isLineTerminator c then None
          else match dotStarLazy k s' with
               | Some (kept, r) => Some (String c kept, r)
               | None => None
               end
      | EmptyString => None
      end
  end.

(** A capture group around a starred atom, and the same atom outside any
    group. *)
Definition group (star : matcher -> string -> option (string * result))
    (k : matcher) : matcher :=
  fun s => match star k s with
           | Some (kept, (caps, rest)) => Some (kept :: caps, rest)
           | None => None
           end.

Definition nogroup (star : matcher -> string -> option (string * result))
    (k : matcher) : matcher :=
  fun s => snd <$> star k s.

(** The first position, from the left, at which the matcher succeeds:
    answers the text before it, the suffix that starts at it and the
    matcher's result there. *)
Fixpoint search (m : matcher) (s : string) : option (string * string * result) :=
  match m s with
  | Some r => Some (EmptyString, s, r)
  | None =>
      match s with
      | String c s' =>
          match search m s' with
          | Some (before, at_, r) => Some (String c before, at_, r)
          | None => None
          end
      | EmptyString => None
      end
  end.

(** The text a match covers, from the suffix it starts at and the suffix
    left after it. *)
Definition matchedText (at_ rest : string) : string :=
  take (len at_ - len rest) at_.

(** [s.match(re)] for a regular expression without the [g] flag, reduced
    to what the source reads from it: the capture groups. *)
Definition exec (m : matcher) (s : string) : option (list string) :=
  match search m s with
  | Some (_, _, (caps, _)) => Some caps
  | None => None
  end.

Definition isDigit (c : ascii) : bool :=
  let n := nat_of_ascii c in (48 <=? n) && (n <=? 57).

Definition digitValue (c : ascii) : nat := nat_of_ascii c - 48.

Definition capture (captures : list string) (index : nat) : option string :=
  match index with
  | O => None
  | S i => nth_error captures i
  end.

(** GetSubstitution of ECMA-262 for a regular expression without named
    groups: expands [$$], [$&], [$`], [$'], [$n] and [$nn] in a replacement
    string; any other [$] stands for itself. *)
Fixpoint getSubstitution (matched str : string) (position : nat)
    (captures : list string) (replacement : string) : string :=
  match replacement with
  | EmptyString => EmptyString
  | String c r1 =>
      if negb (Ascii.eqb c "$"%char)
      then String c (getSubstitution matched str position captures r1)
      else
        match r1 with
        | EmptyString => String c EmptyString
        | String d1 r2 =>
            if Ascii.eqb d1 "$"%char then
              String "$"%char (getSubstitution matched str position captures r2)
            else if Ascii.eqb d1 "&"%char then
              matched +:+ getSubstitution matched str position captures r2
            else if Ascii.eqb d1 "`"%char then
              take position str
                +:+ getSubstitution matched str position captures r2
            else if Ascii.eqb d1 "'"%char then
              drop (position + len matched) str
                +:+ getSubstitution matched str position captures r2
            else if isDigit d1 then
              let one :=
                match capture captures (digitValue d1) with
                | Some cap =>
                    cap +:+ getSubstitution matched str position captures r2
                | None =>
                    String c (String d1
                      (getSubstitution matched str position captures r2))
                end in
              match r2 with
              | String d2 r3 =>
                  if isDigit d2 then
                    let index := 10 * digitValue d1 + digitValue d2 in
                    if (List.length captures <? index) then one
                    else match capture captures index with
                         | Some cap =>
                             cap +:+ getSubstitution matched str position
                                       captures r3
                         | None =>
                             String c (String d1 (String d2
                               (getSubstitution matched str position
                                  captures r3)))
                         end
                  else one
              | EmptyString => one
              end
            else String c (getSubstitution matched str position captures r1)
        end
  end.

(** What stands in for a match when the second argument of [replace] is a
    string: the string expanded by [getSubstitution]. *)
Inductive replacement : Type :=
| ReplaceString (template : string).

Definition replaceValue (r : replacement) (matched str : string)
    (position : nat) (captures : list string) : string :=
  match r with
  | ReplaceString template =>
      getSubstitution matched str position captures template
  end.

(** [s.replace(re, r)] without the [g] flag: the first match only. *)
Definition replaceFirst (m : matcher) (r : replacement) (s : string) : string :=
  match search m s with
  | Some (before, at_, (caps, rest)) =>
      before +:+ replaceValue r (matchedText at_ rest) s (len before) caps
             +:+ rest
  | None => s
  end.

(** [s.replace(re, r)] with the [g] flag: every match, left to right, the
    search resuming where the previous match ended (one character further
    after an empty match).  [skip] counts the characters of the current
    match still to be passed over; [position] is the index of [s] in
    [str]. *)
Fixpoint replaceAllFrom (m : matcher) (r : replacement) (str : string)
    (skip position : nat) (s : string) : string :=
  match skip with
  | S skip' =>
      match s with
      | String _ s' => replaceAllFrom m r str skip' (S position) s'
      | EmptyString => EmptyString
      end
  | O =>
      match m s with
      | Some (caps, rest) =>
          let n := len s - len rest in
          replaceValue r (take n s) str position caps +:+
          match s with
          | String c s' =>
              match n with
              | O => String c (replaceAllFrom m r str 0 (S position) s')
              | S n' => replaceAllFrom m r str n' (S position) s'
              end
          | EmptyString => EmptyString
          end
      | None =>
          match s with
          | String c s' => String c (replaceAllFrom m r str 0 (S position) s')
          | EmptyString => EmptyString
          end
      end
  end.

Definition replaceAll (m : matcher) (r : replacement) (s : string) : string :=
  replaceAllFrom m r s 0 0 s.

(** [s.replace(re, f)] with the [g] flag and a replacer function [f],
    called with the matched text and the captures of every match, left to
    right.  The call, or the ToString of what it returns, can throw
    ([None]): the first exception ends the [replace]. *)
Definition replacer : Type := string -> list string -> option string.

Fixpoint replaceAllWithFrom (m : matcher) (f : replacer)
    (skip : nat) (s : string) : option string :=
  match skip with
  | S skip' =>
      match s with
      | String _ s' => replaceAllWithFrom m f skip' s'
      | EmptyString => Some EmptyString
      end
  | O =>
      match m s with
      | Some (caps, rest) =>
          let n := len s - len rest in
          value ← f (take n s) caps;
          following ←
            match s with
            | String c s' =>
                match n with
                | O => String c <$> replaceAllWithFrom m f 0 s'
                | S n' => replaceAllWithFrom m f n' s'
                end
            | EmptyString => Some EmptyString
            end;
          Some (value +:+ following)
      | None =>
          match s with
          | String c s' => String c <$> replaceAllWithFrom m f 0 s'
          | EmptyString => Some EmptyString
          end
      end
  end.

Definition replaceAllWith (m : matcher) (f : replacer) (s : string)
  : option string :=
  replaceAllWithFrom m f 0 s.

End RegExp.

(** ** Package metadata

    A record as [readPackageMetadata] builds it: under every key but
    [nupkgData] the text of a manifest element or, for an element with
    children, their attribute maps in document order; under [nupkgData] the
    bytes of the archive ([zipReader.toBuffer()]), absent for a package that
    is hosted elsewhere.  The derived keys [_flat_deps], [_flat_tags] and
    [url] are ordinary keys of [fields]. *)

Inductive value : Type :=
| VText (s : string)
| VList (children : list (gmap string string)).

Record PackageMetadata : Type := mkPackageMetadata {
  fields : gmap string value;
  nupkgData : option (list Byte.byte)
}.

(** What reading a property can give. *)
Inductive jsval : Type :=
| JUndefined
| JString (s : string)
| JArray (children : list (gmap string string))
| JBuffer (bytes : list Byte.byte)
| JInherited (source : string).

Module Js.
Import JsString.

(** ToString of a plain object of attributes.  The object inherits
    [toString] from Object.prototype and prints as [[object Object]], unless
    it has an attribute named [toString]: that own property is a string, not
    a method, [valueOf] gives no primitive either, and the conversion throws
    a TypeError ([None]). *)
Definition toStringObject (o : gmap string string) : option string :=
  match o !! "toString" with
  | Some _ => None
  | None => Some "[object Object]"
  end.

(** ToString of an array of such objects: [join] converts the elements in
    order and puts commas between them. *)
Definition toStringArray (children : list (gmap string string))
  : option string :=
  join "," <$> mapM toStringObject children.

(** ToString of an own field: a string is itself. *)
Definition toStringValue (v : value) : option string :=
  match v with
  | VText s => Some s
  | VList children => toStringArray children
  end.

(** ToString of a field read ([undefined] when the key is absent), as
    string concatenation and template literals apply it. *)
Definition toStringField (o : option value) : option string :=
  match o with
  | Some v => toStringValue v
  | None => Some "undefined"
  end.

(** ToBoolean of a field read: [undefined] and the empty string are
    falsy, arrays are truthy. *)
Definition truthyField (o : option value) : bool :=
  match o with
  | Some (VText EmptyString) => false
  | Some _ => true
  | None => false
  end.

Definition truthyString (o : option string) : bool :=
  match o with
  | Some (String _ _) => true
  | _ => false
  end.

(** [x == s] for a field read [x] and a string [s]: an array is compared
    through its ToString, which can throw; [undefined] equals no string. *)
Definition looseEq (o : option value) (s : string) : option bool :=
  match o with
  | Some v => t ← toStringValue v; Some (String.eqb t s)
  | None => Some false
  end.

(** [x.includes(s)]: String.prototype.includes on a string,
    Array.prototype.includes on an array (no element, an object, is a
    string), a TypeError ([None]) on [undefined]. *)
Definition includesMethod (o : option value) (s : string) : option bool :=
  match o with
  | Some (VText t) => Some (includes t s)
  | Some (VList _) => Some false
  | None => None
  end.

(** The properties every plain object inherits from Object.prototype, with
    the text V8 gives for each under ToString. *)
Definition objectPrototype (key : string) : option string :=
  if String.eqb key "__proto__" then Some "[object Object]"
  else if String.eqb key "constructor"
  then Some "function Object() { [native code] }"
  else if existsb (String.eqb key)
            ["__defineGetter__"; "__defineSetter__"; "hasOwnProperty";
             "__lookupGetter__"; "__lookupSetter__"; "isPrototypeOf";
             "propertyIsEnumerable"; "toString"; "valueOf";
             "toLocaleString"]
  then Some ("function " +:+ key +:+ "() { [native code] }")
  else None.

(** [entry[key]] for a computed key. *)
Definition getProperty (entry : PackageMetadata) (key : string) : jsval :=
  if String.eqb key "nupkgData" then
    match nupkgData entry with
    | Some bytes => JBuffer bytes
    | None => JUndefined
    end
  else
    match fields entry !! key with
    | Some (VText s) => JString s
    | Some (VList children) => JArray children
    | None =>
        match objectPrototype key with
        | Some source => JInherited source
        | None => JUndefined
        end
    end.

Definition truthy (v : jsval) : bool :=
  match v with
  | JUndefined => false
  | JString EmptyString => false
  | _ => true
  end.

End Js.

(** ** The metadata normaliser *)

Module Normalizer.
Import JsString Js.

(** [dep.id + ':' + (dep.version || '') + ':'] *)
Definition flattenDependency (dep : gmap string string) : string :=
  (match dep !! "id" with Some id => id | None => "undefined" end)
    +:+ ":"
    +:+ (if truthyString (dep !! "version")
         then default EmptyString (dep !! "version") else EmptyString)
    +:+ ":".

Definition setField (key : string) (v : value) (entry : PackageMetadata)
  : PackageMetadata :=
  mkPackageMetadata (<[key := v]> (fields entry)) (nupkgData entry).

(** The value assigned to [entry._flat_deps].  [None] is the TypeError of
    calling [map] on a string. *)
Definition flatDeps (entry : PackageMetadata) : option string :=
  if truthyField (fields entry !! "dependencies") then
    match fields entry !! "dependencies" with
    | Some (VList deps) => Some (join "|" (map flattenDependency deps))
    | _ => None
    end
  else Some EmptyString.

(** The value assigned to [entry._flat_tags].  [None] is the TypeError of
    the concatenation when the tags cannot be converted to a string. *)
Definition flatTags (entry : PackageMetadata) : option string :=
  if truthyField (fields entry !! "tags") then
    tags ← toStringField (fields entry !! "tags");
    Some (" " +:+ tags +:+ " ")
  else Some EmptyString.

(** The value assigned to [entry.url] when the entry has its archive.
    [None] is the TypeError of the template literal when the id cannot be
    converted to a string. *)
Definition downloadUrl (prefix : string) (entry : PackageMetadata)
  : option string :=
  id ← toStringField (fields entry !! "id");
  Some ("{EXPRESS_URL_ROOT}" +:+ prefix +:+ "download/" +:+ id).

(** The body of the loop of [preprocessPackageMetadata], for one entry:
    the three assignments in the order of the source. *)
Definition preprocessEntry (prefix : string) (entry : PackageMetadata)
  : option PackageMetadata :=
  flat_deps ← flatDeps entry;
  let entry := setField "_flat_deps" (VText flat_deps) entry in
  flat_tags ← flatTags entry;
  let entry := setField "_flat_tags" (VText flat_tags) entry in
  match nupkgData entry with
  | Some _ =>
      url ← downloadUrl prefix entry;
      Some (setField "url" (VText url) entry)
  | None => Some entry
  end.

(** [preprocessPackageMetadata]: the entries in order; the first
    exception ends the loop. *)
Definition preprocessPackageMetadata (prefix : string)
    (packageMetadataList : list PackageMetadata)
  : option (list PackageMetadata) :=
  mapM (preprocessEntry prefix) packageMetadataList.

End Normalizer.

(** ** The Express request and response, as far as the handlers use them *)

(** A value of [req.query]: a string, or an array or nested object (which
    the query parser produces for repeated or bracketed parameters). *)
Inductive queryValue : Type :=
| QString (s : string)
| QOther.

Record request : Type := mkRequest {
  protocol : string;            (* req.protocol *)
  host : option string;         (* req.get('host') *)
  query : gmap string queryValue;
  params : gmap string string
}.

Inductive payload : Type :=
| Text (s : string)
| Binary (bytes : list Byte.byte)
| Empty.                        (* res.send(undefined) *)

(** The response object: the status (200 until set), the headers that the
    handlers set themselves (what Express adds on its own, such as the
    default content type of a string body, is left out) and what was sent. *)
Record response : Type := mkResponse {
  status : nat;
  headers : gmap string string;
  body : option payload
}.

(** A handler runs on the response object and either returns or throws;
    what it did to the response before throwing stays done. *)
Definition Res (A : Type) : Type := response -> option A * response.

#[export] Instance Res_ret : MRet Res := fun A a res => (Some a, res).

#[export] Instance Res_bind : MBind Res := fun A B f m res =>
  match m res with
  | (Some a, res') => f a res'
  | (None, res') => (None, res')
  end.

Module Express.

Definition throw {A : Type} : Res A := fun res => (None, res).

Definition orThrow {A : Type} (o : option A) : Res A :=
  match o with
  | Some a => mret a
  | None => throw
  end.

Definition res_status (code : nat) : Res unit := fun res =>
  (Some tt, mkResponse code (headers res) (body res)).

Definition res_set (name v : string) : Res unit := fun res =>
  (Some tt, mkResponse (status res) (<[name := v]> (headers res)) (body res)).

Definition res_send (p : payload) : Res unit := fun res =>
  (Some tt, mkResponse (status res) (headers res) (Some p)).

Definition freshResponse : response := mkResponse 200 ∅ None.

(** The receiver of a String.prototype method call: anything but a
    string has no such method and the call throws. *)
Definition stringReceiver (v : option queryValue) : Res string :=
  match v with
  | Some (QString s) => mret s
  | _ => throw
  end.

(** [xs.filter(f)] with a callback that can throw. *)
Fixpoint filterThrowing {A : Type} (f : A -> option bool) (xs : list A)
  : option (list A) :=
  match xs with
  | [] => Some []
  | x :: xs' =>
      keep ← f x;
      kept ← filterThrowing f xs';
      Some (if keep : bool then x :: kept else kept)
  end.

(** [xs.find(f)] with a callback that can throw: the elements after the
    first match are not looked at. *)
Fixpoint findThrowing {A : Type} (f : A -> option bool) (xs : list A)
  : option (option A) :=
  match xs with
  | [] => Some None
  | x :: xs' =>
      found ← f x;
      if found : bool then Some (Some x) else findThrowing f xs'
  end.

End Express.

(** ** [configureRoutes] *)

Definition CONTENT_TYPE : string := "Content-Type".
Definition ATOM_MIME_TYPE : string := "application/atom+xml; charset=utf-8".
Definition BINARY_MIME_TYPE : string := "application/octet-stream".

Definition LF : string := String "010"%char EmptyString.

Inductive route : Type :=
| ServiceRoot
| MetadataDocument
| Packages
| FindPackagesById
| Download.

(** The five templates that [configureRoutes] reads from [static/]. *)
Record StaticFiles : Type := mkStaticFiles {
  rootAtom : string;
  metadataAtom : string;
  errorAtom : string;
  entryTemplate : string;
  packagesTemplate : string
}.

Section ConfigureRoutes.
Import JsString RegExp Js Express.

(** The templates, and Buffer's [toString] (the UTF-8 decoding of the
    bytes). *)
Variable static : StaticFiles.
Variable Buffer_toString : list Byte.byte -> string.

(** The prefix and the package list after [preprocessPackageMetadata]. *)
Variable prefix : string.
Variable packageMetadataList : list PackageMetadata.

(** The pattern of [filterForOnePackage], under the [i] flag: the text
    [tolower(Id) eq], a space and a quote, a group of a greedy starred
    dot, and a closing quote. *)
Definition reOnePackage : matcher :=
  litI "tolower(Id) eq '" (group dotStarGreedy (lit "'" accept)).

(** The pattern of [filterForManyPackages]: the text [substringof(] and a
    quote, a group of a lazy starred dot, a quote and [,tolower(], a lazy
    starred dot outside any group, and two closing parentheses. *)
Definition reManyPackages : matcher :=
  lit "substringof('"
    (group dotStarLazy
       (lit "',tolower(" (nogroup dotStarLazy (lit "))" accept)))).

(** The patterns of [formatPackages]: an opening brace, a group of a
    greedy starred dot and a closing brace (flag [g]); [{entries}] and a
    line feed (flag [g]); [{EXPRESS_URL_ROOT}] (no flag).  The pattern of
    the quote stripping: a quote, a group of a greedy starred dot, a
    quote. *)
Definition reField : matcher := lit "{" (group dotStarGreedy (lit "}" accept)).
Definition reEntries : matcher := lit ("{entries}" +:+ LF) accept.
Definition reUrlRoot : matcher := lit "{EXPRESS_URL_ROOT}" accept.
Definition reQuoted : matcher := lit "'" (group dotStarGreedy (lit "'" accept)).

(** [match ? match[1] : null] *)
Definition firstGroup (m : matcher) (s : string) : option string :=
  caps ← exec m s; head caps.

Definition matchOnePackage (filter : string) : option string :=
  firstGroup reOnePackage filter.

Definition matchManyPackages (filter : string) : option string :=
  firstGroup reManyPackages filter.

Definition filterForOnePackage (filter : option queryValue)
  : Res (option string) :=
  s ← stringReceiver filter; mret (matchOnePackage s).

Definition filterForManyPackages (filter : option queryValue)
  : Res (option string) :=
  s ← stringReceiver filter; mret (matchManyPackages s).

(** ToString of what a replacer function returns; [replace] applies it
    to the result of every call. *)
Definition toStringJs (v : jsval) : option string :=
  match v with
  | JUndefined => Some "undefined"
  | JString s => Some s
  | JArray children => toStringArray children
  | JBuffer bytes => Some (Buffer_toString bytes)
  | JInherited source => Some source
  end.

(** [(match, key) => entry[key] || ''], with the ToString of its result. *)
Definition fieldReplacer (entry : PackageMetadata) : replacer :=
  fun matched captures =>
    let key := default "undefined" (head captures) in
    if truthy (getProperty entry key)
    then toStringJs (getProperty entry key)
    else Some EmptyString.

(** The [replace] call on the entry template, for any template. *)
Definition substituteFields (template : string) (entry : PackageMetadata)
  : option string :=
  replaceAllWith reField (fieldReplacer entry) template.

Definition urlRoot (req : request) : string :=
  protocol req +:+ "://" +:+ default "undefined" (host req).

(** [None] is the exception of the first entry whose rendering throws. *)
Definition formatPackages (matchedPackages : list PackageMetadata)
    (req : request) : option string :=
  entries ← mapM (substituteFields (entryTemplate static)) matchedPackages;
  let url_root := urlRoot req in
  Some (replaceFirst reUrlRoot (ReplaceString url_root)
          (replaceAll reEntries (ReplaceString (join EmptyString entries))
             (packagesTemplate static))).

(** The last two statements of the three feed handlers: the content type
    is set before the feed is rendered. *)
Definition sendFeed (matchedPackages : list PackageMetadata) (req : request)
  : Res unit :=
  res_set CONTENT_TYPE ATOM_MIME_TYPE;;
  feed ← orThrow (formatPackages matchedPackages req);
  res_send (Text feed).

(** The callback of the search filter: [||] stops at the first operand
    that is true. *)
Definition searchCallback (substring : string) (entry : PackageMetadata)
  : option bool :=
  inId ← includesMethod (fields entry !! "id") substring;
  if inId : bool then Some true else
  inSummary ← includesMethod (fields entry !! "summary") substring;
  if inSummary : bool then Some true else
  includesMethod (fields entry !! "_flat_tags") (" " +:+ substring +:+ " ").

Definition serviceRootHandler (req : request) : Res unit :=
  res_set CONTENT_TYPE ATOM_MIME_TYPE;; res_send (Text (rootAtom static)).

Definition metadataHandler (req : request) : Res unit :=
  res_set CONTENT_TYPE ATOM_MIME_TYPE;; res_send (Text (metadataAtom static)).

Definition packagesHandler (req : request) : Res unit :=
  let filter := query req !! "$filter" in
  name ← filterForOnePackage filter;
  substring ← filterForManyPackages filter;
  if truthyString name then
    matchedPackages ←
      orThrow (filterThrowing
                 (fun entry =>
                    looseEq (fields entry !! "id") (default EmptyString name))
                 packageMetadataList);
    sendFeed matchedPackages req
  else if truthyString substring then
    matchedPackages ←
      orThrow (filterThrowing
                 (searchCallback (default EmptyString substring))
                 packageMetadataList);
    sendFeed matchedPackages req
  else
    res_status 400;;
    res_set CONTENT_TYPE ATOM_MIME_TYPE;;
    res_send (Text (errorAtom static)).

(** [(req.query['id'] || '')]: a falsy parameter becomes the empty
    string; [replace] is then called on what is left. *)
Definition idParameter (v : option queryValue) : option queryValue :=
  match v with
  | None | Some (QString EmptyString) => Some (QString EmptyString)
  | other => other
  end.

Definition stripQuotes (s : string) : string :=
  replaceFirst reQuoted (ReplaceString "$1") s.

Definition findPackagesByIdHandler (req : request) : Res unit :=
  raw ← stringReceiver (idParameter (query req !! "id"));
  let id := stripQuotes raw in
  matchedPackages ←
    orThrow (filterThrowing
               (fun entry => looseEq (fields entry !! "id") id)
               packageMetadataList);
  sendFeed matchedPackages req.

(** [entry.id == name] where [name] is [req.params.name]; nothing is
    converted when the parameter is [undefined]. *)
Definition idIsParam (name : option string) (entry : PackageMetadata)
  : option bool :=
  match name with
  | Some s => looseEq (fields entry !! "id") s
  | None =>
      Some (match fields entry !! "id" with None => true | Some _ => false end)
  end.

Definition downloadHandler (req : request) : Res unit :=
  let name := params req !! "name" in
  matchedPackage ←
    orThrow (findThrowing (idIsParam name) packageMetadataList);
  match matchedPackage with
  | Some matchedPackage =>
      res_set CONTENT_TYPE BINARY_MIME_TYPE;;
      res_send (match nupkgData matchedPackage with
                | Some bytes => Binary bytes
                | None => Empty
                end)
  | None =>
      res_status 404;;
      res_send (Text "Not found")
  end.

(** [get]: the handler wrapped in the per-request error handler. *)
Definition get (handler : request -> Res unit) (req : request) : response :=
  match handler req freshResponse with
  | (Some _, res) => res
  | (None, res) =>
      snd ((res_status 500;; res_send (Text "Exception!")) res)
  end.

Definition routePath (r : route) : string :=
  match r with
  | ServiceRoot => prefix
  | MetadataDocument => prefix +:+ "[$]metadata"
  | Packages => prefix +:+ "Packages[(][)]"
  | FindPackagesById => prefix +:+ "FindPackagesById[(][)]"
  | Download => prefix +:+ "download/:name"
  end.

Definition serve (r : route) : request -> response :=
  get match r with
      | ServiceRoot => serviceRootHandler
      | MetadataDocument => metadataHandler
      | Packages => packagesHandler
      | FindPackagesById => findPackagesByIdHandler
      | Download => downloadHandler
      end.

End ConfigureRoutes.

(** ** [static/entry-template.atom]

    The file's 31 lines, each ended by a line feed.  [DQ] is the double
    quote. *)

Definition DQ : string := String "034"%char EmptyString.

Definition unlines (ls : list string) : string :=
  fold_right (fun l rest => l +:+ LF +:+ rest) EmptyString ls.

Definition entryTemplateAtom : string :=
  unlines [
    "  <entry>";
    "    <id>https://choco-js-fake-data/package/{name}/{version}</id>";
    "    <title type=" +:+ DQ +:+ "text" +:+ DQ +:+ ">{id}</title>";
    "    <summary type=" +:+ DQ +:+ "text" +:+ DQ +:+ ">{summary}</summary>";
    "    <author>";
    "      <name>{authors}</name>";
    "    </author>";
    "    <content type=" +:+ DQ +:+ "application/zip" +:+ DQ +:+ " src=" +:+ DQ +:+ "{url}" +:+ DQ +:+ " />";
    "    <summary type=" +:+ DQ +:+ "text" +:+ DQ +:+ ">{summary}</summary>";
    "    <m:properties>";
    "      <d:Version>{version}</d:Version>";
    "      <d:Title>{title}</d:Title>";
    "      <d:Description>{description}</d:Description>";
    "      <d:Tags xml:space=" +:+ DQ +:+ "preserve" +:+ DQ +:+ ">{_flat_tags}</d:Tags>";
    "      <d:Copyright>{copyright}</d:Copyright>";
    "      <d:Dependencies>{_flat_deps}</d:Dependencies>";
    "      <d:IconUrl>{iconUrl}</d:IconUrl>";
    "      <d:IsLatestVersion m:type=" +:+ DQ +:+ "Edm.Boolean" +:+ DQ +:+ ">true</d:IsLatestVersion>";
    "      <d:IsAbsoluteLatestVersion m:type=" +:+ DQ +:+ "Edm.Boolean" +:+ DQ +:+ ">true</d:IsAbsoluteLatestVersion>";
    "      <d:IsPrerelease m:type=" +:+ DQ +:+ "Edm.Boolean" +:+ DQ +:+ ">false</d:IsPrerelease>";
    "      <d:LicenseUrl>{licenseUrl}</d:LicenseUrl>";
    "      <d:RequireLicenseAcceptance m:type=" +:+ DQ +:+ "Edm.Boolean" +:+ DQ +:+ ">{requireLicenseAcceptance}</d:RequireLicenseAcceptance>";
    "      <d:ProjectUrl>{projectUrl}</d:ProjectUrl>";
    "      <d:ReleaseNotes>{releaseNotes}</d:ReleaseNotes>";
    "      <d:ProjectSourceUrl>{projectSourceUrl}</d:ProjectSourceUrl>";
    "      <d:PackageSourceUrl>{packageSourceUrl}</d:PackageSourceUrl>";
    "      <d:DocsUrl>{docsUrl}</d:DocsUrl>";
    "      <d:MailingListUrl>{mailingListUrl}</d:MailingListUrl>";
    "      <d:BugTrackerUrl>{bugTrackerUrl}</d:BugTrackerUrl>";
    "    </m:properties>";
    "  </entry>"
  ].

(** ** [configureRoutes]: the prefix made to start and end with a slash,
    the list normalised once, the routes closed over both.  [None] is the
    rejection of the promise when normalisation throws. *)

Definition normalizePrefix (prefix : string) : string :=
  let prefix1 :=
    if JsString.startsWith prefix "/" then prefix else "/" +:+ prefix in
  if JsString.endsWith prefix1 "/" then prefix1 else prefix1 +:+ "/".

Definition configureRoutes (static : StaticFiles)
    (Buffer_toString : list Byte.byte -> string)
    (prefix : string) (packageMetadataList : list PackageMetadata)
  : option (route -> request -> response) :=
  normalized ←
    Normalizer.preprocessPackageMetadata (normalizePrefix prefix)
      packageMetadataList;
  Some (serve static Buffer_toString normalized).

(** ** Specification-side definitions *)

Module Spec.
Import JsString RegExp Js.

(** A dependency as the data model has it: an id and an optional
    version. *)
Record dependency : Type := mkDependency {
  dep_id : string;
  dep_version : option string
}.

(** The attribute map [readPackageMetadata] stores for it. *)
Definition attributes (d : dependency) : gmap string string :=
  match dep_version d with
  | Some v => <["version" := v]> {["id" := dep_id d]}
  | None => {["id" := dep_id d]}
  end.

(** One [id:version:] segment; the version part is empty when absent. *)
Definition segment (d : dependency) : string :=
  dep_id d +:+ ":" +:+ default EmptyString (dep_version d) +:+ ":".

(** The segments in order with a [|] between neighbours. *)
Fixpoint flattened (ds : list dependency) : string :=
  match ds with
  | [] => EmptyString
  | [d] => segment d
  | d :: ds' => segment d +:+ "|" +:+ flattened ds'
  end.

(** [dependencies] is not a non-empty string: it has a [map] method or is
    falsy. *)
Definition dependenciesMappable (entry : PackageMetadata) : bool :=
  match fields entry !! "dependencies" with
  | Some (VText (String _ _)) => false
  | _ => true
  end.

(** The field can be converted to a string: it is absent, a string, or a
    sequence of attribute maps none of which has an attribute named
    [toString]. *)
Definition printableValue (v : value) : bool :=
  match v with
  | VText _ => true
  | VList children =>
      forallb (fun o : gmap string string => bool_decide (o !! "toString" = None))
        children
  end.

Definition printable (o : option value) : bool :=
  match o with
  | Some v => printableValue v
  | None => true
  end.

(** The id of the record can be converted to a string, and [entry.id ==
    name] for such a record. *)
Definition idPrintable (entry : PackageMetadata) : bool :=
  printable (fields entry !! "id").

Definition idEquals (name : string) (entry : PackageMetadata) : bool :=
  default false (looseEq (fields entry !! "id") name).

(** The records that normalisation accepts: mappable dependencies, tags
    that can be converted to a string and, for a record with its archive, an
    id that can be. *)
Definition normalizable (entry : PackageMetadata) : bool :=
  dependenciesMappable entry
  && printable (fields entry !! "tags")
  && match nupkgData entry with
     | Some _ => printable (fields entry !! "id")
     | None => true
     end.

(** No character of the string is a line terminator. *)
Fixpoint singleLine (s : string) : bool :=
  match s with
  | EmptyString => true
  | String c s' => negb (isLineTerminator c) && singleLine s'
  end.

(** [s] occurs in [t]. *)
Definition occursIn (s t : string) : Prop :=
  exists before after, t = before +:+ s +:+ after.

Definition textField (key : string) (entry : PackageMetadata) : option string :=
  match fields entry !! key with
  | Some (VText t) => Some t
  | _ => None
  end.

(** The search callback's three tests, on text fields. *)
Definition fieldContains (key s : string) (entry : PackageMetadata) : bool :=
  match textField key entry with
  | Some t => includes t s
  | None => false
  end.

Definition matchesSearch (s : string) (entry : PackageMetadata) : bool :=
  fieldContains "id" s entry
  || fieldContains "summary" s entry
  || fieldContains "_flat_tags" (" " +:+ s +:+ " ") entry.

(** The search as the specification words it: the operand anywhere in the
    padded tags. *)
Definition plainSearch (s : string) (entry : PackageMetadata) : bool :=
  fieldContains "id" s entry
  || fieldContains "summary" s entry
  || fieldContains "_flat_tags" s entry.

(** The three fields the search reads are text. *)
Definition searchable (entry : PackageMetadata) : bool :=
  bool_decide (is_Some (textField "id" entry))
  && bool_decide (is_Some (textField "summary" entry))
  && bool_decide (is_Some (textField "_flat_tags" entry)).

(** The responses the routes give. *)
Definition feedResponse (feed : string) : response :=
  mkResponse 200 {[CONTENT_TYPE := ATOM_MIME_TYPE]} (Some (Text feed)).

Definition errorFeedResponse (errorAtom : string) : response :=
  mkResponse 400 {[CONTENT_TYPE := ATOM_MIME_TYPE]} (Some (Text errorAtom)).

Definition exceptionResponse : response :=
  mkResponse 500 ∅ (Some (Text "Exception!")).

(** The answer of the wrapper when the rendering of the feed throws: the
    content type was set before. *)
Definition renderingExceptionResponse : response :=
  mkResponse 500 {[CONTENT_TYPE := ATOM_MIME_TYPE]} (Some (Text "Exception!")).

(** The answer of a feed handler that has selected its records, from what
    the rendering gives. *)
Definition feedOutcome (feed : option string) : response :=
  match feed with
  | Some feed => feedResponse feed
  | None => renderingExceptionResponse
  end.

(** The answer of a feed handler from what the selection of the records
    gives: an exception there comes before any header is set. *)
Definition selectionOutcome (render : list PackageMetadata -> option string)
    (selected : option (list PackageMetadata)) : response :=
  match selected with
  | Some matchedPackages => feedOutcome (render matchedPackages)
  | None => exceptionResponse
  end.

Definition notFoundResponse : response :=
  mkResponse 404 ∅ (Some (Text "Not found")).

Definition archiveResponse (bytes : list Byte.byte) : response :=
  mkResponse 200 {[CONTENT_TYPE := BINARY_MIME_TYPE]} (Some (Binary bytes)).

(** The text after the first occurrence of [p] in [s], and whether [p]
    occurs at least twice (the second time after the first has ended). *)
Definition afterFirst (p s : string) : option string :=
  match search (lit p accept) s with
  | Some (_, _, (_, rest)) => Some rest
  | None => None
  end.

Definition occursTwice (p s : string) : bool :=
  match afterFirst p s with
  | Some rest => includes rest p
  | None => false
  end.

(** A replacement string without [$]: it stands for itself. *)
Fixpoint plain (replacement : string) : bool :=
  match replacement with
  | EmptyString => true
  | String c r => negb (Ascii.eqb c "$"%char) && plain r
  end.

End Spec.

(** ** Example data *)

Module Example.
Import JsString Js.

(** Modelled from the spec: the four templates of [static/] that are not
    among the sources (service document, metadata document, error document
    and the entries-collection wrapper, which holds the [{entries}]
    placeholder on a line of its own).  The entry template is the
    repository's. *)
Definition static : StaticFiles :=
  mkStaticFiles "<service/>" "<edmx/>" "<error/>" entryTemplateAtom
    ("<feed>" +:+ LF +:+ "{entries}" +:+ LF +:+ "</feed>" +:+ LF).

(** A stand-in for Buffer's [toString]: one character per byte. *)
Definition Buffer_toString (bytes : list Byte.byte) : string :=
  String.string_of_list_byte bytes.

Definition text (l : list (string * string)) : gmap string value :=
  list_to_map (map (fun kv => (fst kv, VText (snd kv))) l).

(** Two packages hosted by this server. *)
Definition foo : PackageMetadata :=
  mkPackageMetadata
    (text [("id", "foo"); ("name", "foo"); ("version", "1.0");
           ("summary", "a tool"); ("tags", "cli tools")])
    (Some [Byte.x50; Byte.x4b; Byte.x03; Byte.x04]).

Definition bar : PackageMetadata :=
  mkPackageMetadata
    (<["dependencies" :=
         VList [ {["id" := "foo"; "version" := "1.0"]}; {["id" := "baz"]} ]]>
       (text [("id", "bar"); ("version", "2.0"); ("summary", "a library")]))
    (Some [Byte.x50; Byte.x4b; Byte.x05; Byte.x06]).

(** A package hosted elsewhere whose only tag is [foobar]; a package whose
    id has two lines; a package with nothing but an id. *)
Definition twoLinesId : string := "a" +:+ LF +:+ "b".

Definition editor : PackageMetadata :=
  mkPackageMetadata
    (text [("id", "editor"); ("summary", "an editor"); ("tags", "foobar");
           ("url", "https://example.org/editor.nupkg")])
    None.

Definition twoLines : PackageMetadata :=
  mkPackageMetadata (text [("id", twoLinesId); ("summary", "odd")]) None.

Definition bare : PackageMetadata :=
  mkPackageMetadata (text [("id", "foo")]) None.

(** A list after [preprocessPackageMetadata] with the prefix [/]. *)
Definition normalized (l : list PackageMetadata) : list PackageMetadata :=
  default [] (Normalizer.preprocessPackageMetadata "/" l).

Definition localPackages : list PackageMetadata := normalized [foo; bar].

Definition barNormalized : PackageMetadata :=
  default bar (localPackages !! 1).

(** The filters the client sends, as the source quotes them. *)
Definition exactFilter (name : string) : string :=
  "(tolower(Id) eq '" +:+ name +:+ "') and IsLatestVersion".

Definition searchFilter (s : string) : string :=
  "(((Id ne null) and substringof('" +:+ s +:+ "',tolower(Id))) or "
  +:+ "((Description ne null) and substringof('" +:+ s
  +:+ "',tolower(Description)))) or "
  +:+ "((Tags ne null) and substringof(' " +:+ s +:+ " ',tolower(Tags)))".

Definition localhost (q : gmap string queryValue) (p : gmap string string)
  : request :=
  mkRequest "http" (Some "localhost:8000") q p.

Definition searchRequest (s : string) : request :=
  localhost {["$filter" := QString (searchFilter s)]} ∅.

Definition byIdRequest (id : string) : request :=
  localhost {["id" := QString id]} ∅.

Definition downloadRequest (name : string) : request :=
  localhost ∅ {["name" := name]}.

(** The request for the id of two lines between quotes. *)
Definition twoLinesRequest : request :=
  byIdRequest ("'" +:+ twoLinesId +:+ "'").

End Example.

(** ** Shapes of strings, for the statements about the patterns *)

Module Shape.
Import JsString RegExp Js Spec.

(** No character of the string is [c]. *)
Fixpoint lacks (c : ascii) (s : string) : bool :=
  match s with
  | EmptyString => true
  | String d s' => negb (Ascii.eqb d c) && lacks c s'
  end.

(** No character of the string is [c], up to its first line terminator. *)
Fixpoint lineLacks (c : ascii) (s : string) : bool :=
  match s with
  | EmptyString => true
  | String d s' =>
      negb (Ascii.eqb d c) && (isLineTerminator d || lineLacks c s')
  end.

(** No character of the string is the letter [c] in either case. *)
Fixpoint lacksLetter (c : ascii) (s : string) : bool :=
  match s with
  | EmptyString => true
  | String d s' =>
      negb (Ascii.eqb (canonicalize c) (canonicalize d)) && lacksLetter c s'
  end.

(** The two strings are equal up to the case of their ASCII letters. *)
Fixpoint sameLetters (a b : string) : bool :=
  match a, b with
  | EmptyString, EmptyString => true
  | String x a', String y b' =>
      Ascii.eqb (canonicalize y) (canonicalize x) && sameLetters a' b'
  | _, _ => false
  end.

(** A template cut at its placeholders: the text before each match of the
    field pattern with the key the match captures, and the text after the
    last match. *)
Fixpoint holesSource (holes : list (string * string)) (tail : string)
  : string :=
  match holes with
  | [] => tail
  | (pre, key) :: holes' =>
      pre +:+ "{" +:+ key +:+ "}" +:+ holesSource holes' tail
  end.

Fixpoint holesRendered (v : string -> option string)
    (holes : list (string * string)) (tail : string) : option string :=
  match holes with
  | [] => Some tail
  | (pre, key) :: holes' =>
      text ← v key;
      rest ← holesRendered v holes' tail;
      Some (pre +:+ text +:+ rest)
  end.

(** The cut is the one the pattern makes: no opening brace before a
    placeholder or in the tail, a key of one line, and no closing brace on
    the rest of the key's line. *)
Fixpoint holesShaped (holes : list (string * string)) (tail : string) : bool :=
  match holes with
  | [] => lacks "{" tail
  | (pre, key) :: holes' =>
      lacks "{" pre && singleLine key
      && lineLacks "}" (holesSource holes' tail)
      && holesShaped holes' tail
  end.

(** What a placeholder with the key [key] is replaced by; [None] when the
    property cannot be converted to a string. *)
Definition propertyText (Buffer_toString : list Byte.byte -> string)
    (entry : PackageMetadata) (key : string) : option string :=
  if truthy (getProperty entry key)
  then toStringJs Buffer_toString (getProperty entry key)
  else Some EmptyString.

(** The entry template of the repository, cut at its placeholders. *)
Definition entryTemplateHoles : list (string * string) :=
  [
   ("  <entry>" +:+ LF +:+ "    <id>https://choco-js-fake-data/package/",
    "name}/{version");
   ("</id>" +:+ LF +:+ "    <title type=" +:+ DQ +:+ "text" +:+ DQ +:+ ">",
    "id");
   ("</title>" +:+ LF +:+ "    <summary type=" +:+ DQ +:+ "text" +:+ DQ
    +:+ ">",
    "summary");
   ("</summary>" +:+ LF +:+ "    <author>" +:+ LF +:+ "      <name>",
    "authors");
   ("</name>" +:+ LF +:+ "    </author>" +:+ LF +:+ "    <content type="
    +:+ DQ +:+ "application/zip" +:+ DQ +:+ " src=" +:+ DQ,
    "url");
   (DQ +:+ " />" +:+ LF +:+ "    <summary type=" +:+ DQ +:+ "text" +:+ DQ
    +:+ ">",
    "summary");
   ("</summary>" +:+ LF +:+ "    <m:properties>" +:+ LF
    +:+ "      <d:Version>",
    "version");
   ("</d:Version>" +:+ LF +:+ "      <d:Title>",
    "title");
   ("</d:Title>" +:+ LF +:+ "      <d:Description>",
    "description");
   ("</d:Description>" +:+ LF +:+ "      <d:Tags xml:space=" +:+ DQ
    +:+ "preserve" +:+ DQ +:+ ">",
    "_flat_tags");
   ("</d:Tags>" +:+ LF +:+ "      <d:Copyright>",
    "copyright");
   ("</d:Copyright>" +:+ LF +:+ "      <d:Dependencies>",
    "_flat_deps");
   ("</d:Dependencies>" +:+ LF +:+ "      <d:IconUrl>",
    "iconUrl");
   ("</d:IconUrl>" +:+ LF +:+ "      <d:IsLatestVersion m:type=" +:+ DQ
    +:+ "Edm.Boolean" +:+ DQ +:+ ">true</d:IsLatestVersion>" +:+ LF
    +:+ "      <d:IsAbsoluteLatestVersion m:type=" +:+ DQ +:+ "Edm.Boolean"
    +:+ DQ +:+ ">true</d:IsAbsoluteLatestVersion>" +:+ LF
    +:+ "      <d:IsPrerelease m:type=" +:+ DQ +:+ "Edm.Boolean" +:+ DQ
    +:+ ">false</d:IsPrerelease>" +:+ LF +:+ "      <d:LicenseUrl>",
    "licenseUrl");
   ("</d:LicenseUrl>" +:+ LF +:+ "      <d:RequireLicenseAcceptance m:type="
    +:+ DQ +:+ "Edm.Boolean" +:+ DQ +:+ ">",
    "requireLicenseAcceptance");
   ("</d:RequireLicenseAcceptance>" +:+ LF +:+ "      <d:ProjectUrl>",
    "projectUrl");
   ("</d:ProjectUrl>" +:+ LF +:+ "      <d:ReleaseNotes>",
    "releaseNotes");
   ("</d:ReleaseNotes>" +:+ LF +:+ "      <d:ProjectSourceUrl>",
    "projectSourceUrl");
   ("</d:ProjectSourceUrl>" +:+ LF +:+ "      <d:PackageSourceUrl>",
    "packageSourceUrl");
   ("</d:PackageSourceUrl>" +:+ LF +:+ "      <d:DocsUrl>",
    "docsUrl");
   ("</d:DocsUrl>" +:+ LF +:+ "      <d:MailingListUrl>",
    "mailingListUrl");
   ("</d:MailingListUrl>" +:+ LF +:+ "      <d:BugTrackerUrl>",
    "bugTrackerUrl")
  ].

Definition entryTemplateTail : string :=
  "</d:BugTrackerUrl>" +:+ LF +:+ "    </m:properties>" +:+ LF
  +:+ "  </entry>" +:+ LF.

End Shape.

(** ** [readPackageMetadata]

    The archive reader (adm-zip) and the XML parser (xmldoc) are libraries:
    opening an archive, parsing a document and the two child queries are
    parameters of the model, and a parsed document is the tree xmldoc
    builds, with its element and text nodes.  Comment and CDATA nodes are
    outside the model. *)

Inductive XmlNode : Type :=
| XmlElementNode (element : XmlElement)
| XmlTextNode (text : string)
with XmlElement : Type :=
| mkXmlElement (name : string) (attr : gmap string string) (val : string)
    (children : list XmlNode).

(** What [new AdmZip(path)] gives: [readAsText] and [toBuffer]. *)
Record Archive : Type := mkArchive {
  readAsText : string -> string;
  toBuffer : list Byte.byte
}.

(** What a call can throw: an [Error] with its message, a TypeError, or
    whatever one of the two libraries throws. *)
Inductive exception : Type :=
| Error (message : string)
| TypeError
| LibraryError.

Inductive outcome (A : Type) : Type :=
| Return (a : A)
| Throw (e : exception).
Arguments Return {A} a.
Arguments Throw {A} e.

#[export] Instance outcome_ret : MRet outcome := fun A a => Return a.

#[export] Instance outcome_bind : MBind outcome := fun A B f m =>
  match m with
  | Return a => f a
  | Throw e => Throw e
  end.

Module Extractor.
Import JsString RegExp Js.

Definition name (e : XmlElement) : string :=
  match e with mkXmlElement n _ _ _ => n end.
Definition attr (e : XmlElement) : gmap string string :=
  match e with mkXmlElement _ a _ _ => a end.
Definition val (e : XmlElement) : string :=
  match e with mkXmlElement _ _ v _ => v end.
Definition children (e : XmlElement) : list XmlNode :=
  match e with mkXmlElement _ _ _ c => c end.

(** The nodes for which ['text' in element] is false, as elements. *)
Definition elementsOf (nodes : list XmlNode) : list XmlElement :=
  omap (fun node => match node with
                    | XmlElementNode e => Some e
                    | XmlTextNode _ => None
                    end) nodes.

Definition orThrow {A : Type} (e : exception) (o : option A) : outcome A :=
  match o with
  | Some a => Return a
  | None => Throw e
  end.

(** [xs.find(f)] with a callback that can throw. *)
Fixpoint findThrowing {A : Type} (f : A -> outcome bool) (xs : list A)
  : outcome (option A) :=
  match xs with
  | [] => Return None
  | x :: xs' =>
      found ← f x;
      if found : bool then Return (Some x) else findThrowing f xs'
  end.

(** [s.replace(re, '')] for a pattern anchored at the start of the subject:
    it is tried at index 0 only. *)
Definition replaceAtStart (m : matcher) (r : replacement) (s : string)
  : string :=
  match m s with
  | Some (caps, rest) => replaceValue r (matchedText s rest) s 0 caps +:+ rest
  | None => s
  end.

(** [metadata[element.name] = v] on a plain object.  The key [__proto__]
    names the prototype accessor: the assignment creates no property (with
    a list for [v] it replaces the object's prototype; the map holds the
    object's own properties, which are the same either way). *)
Definition assign (key : string) (v : value) (metadata : gmap string value)
  : gmap string value :=
  if String.eqb key "__proto__" then metadata else <[key := v]> metadata.

(** The body of the loop over the children of the metadata element. *)
Definition convertElement (element : XmlElement) : value :=
  match elementsOf (children element) with
  | [] => VText (val element)
  | child :: more => VList (map attr (child :: more))
  end.

Definition convertMetadata (metadataElements : list XmlNode)
  : gmap string value :=
  fold_left
    (fun metadata element =>
       assign (name element) (convertElement element) metadata)
    (elementsOf metadataElements) ∅.

Section ReadPackageMetadata.

Variable AdmZip : string -> option Archive.
Variable XmlDocument : string -> option XmlElement.
Variable childrenNamed : XmlElement -> string -> list XmlElement.
Variable childNamed : XmlElement -> string -> option XmlElement.

(** [(element) => element.attr.Type.endsWith('/manifest')] *)
Definition isManifest (element : XmlElement) : outcome bool :=
  type ← orThrow TypeError (attr element !! "Type");
  mret (endsWith type "/manifest").

Definition readPackageMetadata (path : string) : outcome PackageMetadata :=
  zipReader ← orThrow LibraryError (AdmZip path);
  let relData := readAsText zipReader "_rels/.rels" in
  relDoc ← orThrow LibraryError (XmlDocument relData);
  found ← findThrowing isManifest (childrenNamed relDoc "Relationship");
  match found with
  | None => Throw (Error ("Unable to locate nupkg manifest in " +:+ path))
  | Some manifestElement =>
      target ← orThrow TypeError (attr manifestElement !! "Target");
      let nuspecPath :=
        replaceAtStart (lit "/" accept) (ReplaceString EmptyString) target in
      let nuspecData := readAsText zipReader nuspecPath in
      nuspecDoc ← orThrow LibraryError (XmlDocument nuspecData);
      metadataElement ← orThrow TypeError (childNamed nuspecDoc "metadata");
      let metadata := convertMetadata (children metadataElement) in
      (* [metadata.nupkgData = zipReader.toBuffer()] replaces what the loop
         stored under that key. *)
      mret (mkPackageMetadata (delete "nupkgData" metadata)
              (Some (toBuffer zipReader)))
  end.

End ReadPackageMetadata.

End Extractor.

(** ** The standalone server

    The script that loads the archives named on the command line and
    starts the server.  [Exit 1] is the call [process.exit(1)] after the
    usage message, when no archive is named; [Rejected] is the rejection of
    the promise of the async function, when a read or [configureRoutes]
    throws (Node then ends the process as well, with an exit code of its
    own); otherwise the server listens.  The logging middleware only writes
    to the console. *)

Inductive portValue : Type :=
| PortText (s : string)
| PortNumber (n : N).

Inductive started : Type :=
| Exit (code : nat)
| Rejected
| Listening (port : portValue) (routes : route -> request -> response).

Module Cli.
Import Extractor.

Section Main.

Variable AdmZip : string -> option Archive.
Variable XmlDocument : string -> option XmlElement.
Variable childrenNamed : XmlElement -> string -> list XmlElement.
Variable childNamed : XmlElement -> string -> option XmlElement.
Variable static : StaticFiles.
Variable Buffer_toString : list Byte.byte -> string.
Variable env : gmap string string.

(** [process.env['PORT'] || 8000] *)
Definition port : portValue :=
  match env !! "PORT" with
  | Some (String c s) => PortText (String c s)
  | _ => PortNumber 8000%N
  end.

(** [packagePaths.map((path) => readPackageMetadata(path))]: the paths in
    order; the first exception ends the map. *)
Fixpoint readAll (packagePaths : list string) : outcome (list PackageMetadata) :=
  match packagePaths with
  | [] => Return []
  | path :: paths =>
      metadata ←
        readPackageMetadata AdmZip XmlDocument childrenNamed childNamed path;
      rest ← readAll paths;
      Return (metadata :: rest)
  end.

Definition main (argv : list string) : started :=
  let packagePaths := drop 2 argv in
  match packagePaths with
  | [] => Exit 1
  | _ =>
      match readAll packagePaths with
      | Throw _ => Rejected
      | Return packageMetadataList =>
          match configureRoutes static Buffer_toString "/"
                  packageMetadataList with
          | None => Rejected
          | Some routes => Listening port routes
          end
      end
  end.

End Main.

End Cli.

(** ** Example archives *)

Module ExampleArchive.
Import Extractor.

(** xmldoc's two child queries: the element children of the given name,
    and the first of them. *)
Definition childrenNamed (e : XmlElement) (n : string) : list XmlElement :=
  List.filter (fun child => String.eqb (name child) n)
    (elementsOf (children e)).

Definition childNamed (e : XmlElement) (n : string) : option XmlElement :=
  head (childrenNamed e n).

Definition leaf (n v : string) : XmlNode :=
  XmlElementNode (mkXmlElement n ∅ v [XmlTextNode v]).

Definition relationship (attributes : gmap string string) : XmlElement :=
  mkXmlElement "Relationship" attributes EmptyString [].

Definition relationships (l : list XmlElement) : XmlElement :=
  mkXmlElement "Relationships" ∅ EmptyString (map XmlElementNode l).

Definition coreProperties : XmlElement :=
  relationship
    {["Type" := "http://schemas.openxmlformats.org/package/2006/"
                +:+ "relationships/metadata/core-properties";
      "Target" := "/package/services/metadata/core-properties/1.psmdcp"]}.

Definition manifest : XmlElement :=
  relationship
    {["Type" := "http://schemas.microsoft.com/packaging/2010/07/manifest";
      "Target" := "/foo.nuspec"]}.

Definition untyped : XmlElement := relationship {["Target" := "/foo.nuspec"]}.

(** The metadata of a package [foo] that gives its version twice and
    depends on [baz]. *)
Definition metadataElement : XmlElement :=
  mkXmlElement "metadata" ∅ EmptyString
    [XmlTextNode " "; leaf "id" "foo"; leaf "version" "1.0";
     leaf "summary" "a tool"; leaf "tags" "cli tools";
     leaf "url" "https://example.org/foo";
     XmlElementNode
       (mkXmlElement "dependencies" ∅ EmptyString
          [XmlTextNode " ";
           XmlElementNode
             (mkXmlElement "dependency"
                {["id" := "baz"; "version" := "2.0"]} EmptyString [])]);
     leaf "version" "1.1"].

Definition nuspec : XmlElement :=
  mkXmlElement "package" ∅ EmptyString [XmlElementNode metadataElement].

(** Metadata whose dependencies are text. *)
Definition textDependencies : list XmlNode :=
  [leaf "id" "odd"; leaf "dependencies" "none"].

(** An archive is given by the text of its relationships entry; every
    archive holds the same [foo.nuspec] and the same bytes. *)
Definition archive (relData : string) : Archive :=
  mkArchive
    (fun entry =>
       if String.eqb entry "_rels/.rels" then relData
       else if String.eqb entry "foo.nuspec" then "nuspec"
       else EmptyString)
    [Byte.x50; Byte.x4b; Byte.x03; Byte.x04].

Definition AdmZip (path : string) : option Archive :=
  if String.eqb path "foo.1.1.nupkg" then Some (archive "rels")
  else if String.eqb path "plain.zip" then Some (archive "no manifest")
  else if String.eqb path "untyped.zip" then Some (archive "untyped")
  else None.

Definition XmlDocument (data : string) : option XmlElement :=
  if String.eqb data "rels" then Some (relationships [coreProperties; manifest])
  else if String.eqb data "no manifest" then
    Some (relationships [coreProperties])
  else if String.eqb data "untyped" then
    Some (relationships [coreProperties; untyped; manifest])
  else if String.eqb data "nuspec" then Some nuspec
  else None.

Definition read (path : string) : outcome PackageMetadata :=
  readPackageMetadata AdmZip XmlDocument childrenNamed childNamed path.

(** What the extractor returns for [foo.1.1.nupkg]. *)
Definition fooMetadata : PackageMetadata :=
  mkPackageMetadata
    (delete "nupkgData" (convertMetadata (children metadataElement)))
    (Some (toBuffer (archive "rels"))).

Definition argv : list string := ["node"; "server.js"; "foo.1.1.nupkg"].

Definition main (argv : list string) : started :=
  Cli.main AdmZip XmlDocument childrenNamed childNamed Example.static
    Example.Buffer_toString ∅ argv.

End ExampleArchive.

(** ** Example templates and records *)

Module Samples.

(** Modelled from the spec: an entry template of one placeholder, in the
    collection wrapper of [Example.static]. *)
Definition static (entryTemplate : string) : StaticFiles :=
  mkStaticFiles "<service/>" "<edmx/>" "<error/>" entryTemplate
    ("<feed>" +:+ LF +:+ "{entries}" +:+ LF +:+ "</feed>" +:+ LF).

Definition fooNormalized : PackageMetadata :=
  default Example.foo (Example.localPackages !! 0).

(** A record whose summary holds two dollar signs, and a record whose
    dependencies are text. *)
Definition priced : PackageMetadata :=
  mkPackageMetadata
    (Example.text [("id", "priced"); ("summary", "costs $$5")]) None.

Definition textDependencies : PackageMetadata :=
  mkPackageMetadata
    (Example.text [("id", "odd"); ("dependencies", "none")]) None.

(** Records with a field that cannot be converted to a string: an id, the
    authors and the tags that are lists of one element with an attribute
    named [toString]. *)
Definition oddId : PackageMetadata :=
  mkPackageMetadata {["id" := VList [ {["toString" := "x"]} ]]} None.

Definition oddAuthors : PackageMetadata :=
  mkPackageMetadata
    (<["authors" := VList [ {["toString" := "x"]} ]]>
       (Example.text [("id", "odd"); ("summary", "an odd tool")]))
    None.

Definition oddTags : PackageMetadata :=
  mkPackageMetadata
    (<["tags" := VList [ {["toString" := "x"]} ]]>
       (Example.text [("id", "odd")]))
    None.

End Samples.

(** ** Facts on strings *)

Section StringFacts.
Import JsString.

Lemma app_cons (c : ascii) (s t : string) :
  String c s +:+ t = String c (s +:+ t).
Proof. reflexivity. Qed.

Lemma app_nil_l (t : string) : EmptyString +:+ t = t.
Proof. reflexivity. Qed.

Lemma app_nil_r (s : string) : s +:+ EmptyString = s.
Proof. induction s as [|c s IH]; [done|]. by rewrite app_cons, IH. Qed.

Lemma app_assoc (s t u : string) : (s +:+ t) +:+ u = s +:+ (t +:+ u).
Proof. induction s as [|c s IH]; [done|]. by rewrite !app_cons, IH. Qed.

Lemma len_app (s t : string) : len (s +:+ t) = len s + len t.
Proof.
  unfold len. induction s as [|c s IH]; [done|].
  rewrite app_cons. cbn. by rewrite IH.
Qed.

Lemma app_inv_head (s t u : string) : s +:+ t = s +:+ u -> t = u.
Proof.
  induction s as [|c s IH]; [done|].
  rewrite !app_cons. intros [= H]. auto.
Qed.

(** Two ways of cutting one string: the shorter head is a prefix of the
    longer. *)
Lemma app_eq_app_le (x y u v : string) :
  x +:+ y = u +:+ v -> len x <= len u ->
  exists z, u = x +:+ z /\ y = z +:+ v.
Proof.
  revert u. induction x as [|c x IH]; intros u H Hlen.
  - exists u. by rewrite !app_nil_l in *.
  - unfold len in *. destruct u as [|d u]; [cbn in Hlen; lia|].
    rewrite !app_cons in H. injection H as -> H.
    destruct (IH u H) as (z & -> & ->); [cbn in Hlen; lia|].
    by exists z.
Qed.

Lemma startsWith_app (p t : string) : startsWith (p +:+ t) p = true.
Proof.
  induction p as [|c p IH]; [done|].
  rewrite app_cons. cbn. by rewrite Ascii.eqb_refl.
Qed.

Lemma startsWith_inv (s p : string) :
  startsWith s p = true -> exists t, s = p +:+ t.
Proof.
  revert s. induction p as [|c p IH]; intros s H.
  - by exists s.
  - destruct s as [|d s]; [done|]. cbn in H.
    destruct (Ascii.eqb_spec c d) as [->|]; [|done].
    destruct (IH s H) as [t ->]. by exists t.
Qed.

(** [includes] finds an occurrence exactly when there is one. *)
Lemma includes_correct (s n : string) :
  includes s n = true <-> exists a b, s = a +:+ n +:+ b.
Proof.
  split.
  - induction s as [|c s IH]; cbn; intros H.
    + apply orb_true_iff in H as [H|H]; [|done].
      apply startsWith_inv in H as [t ->]. by exists EmptyString, t.
    + apply orb_true_iff in H as [H|H].
      * apply startsWith_inv in H as [t ->]. by exists EmptyString, t.
      * destruct (IH H) as (a & b & ->). by exists (String c a), b.
  - intros (a & b & ->). induction a as [|c a IH].
    + rewrite app_nil_l.
      destruct (n +:+ b) eqn:E; cbn; rewrite <- E, startsWith_app; done.
    + rewrite app_cons. cbn. rewrite IH. apply orb_true_r.
Qed.

Lemma includes_app_r (a s n : string) :
  includes s n = true -> includes (a +:+ s) n = true.
Proof.
  rewrite !includes_correct. intros (x & y & ->).
  exists (a +:+ x), y. by rewrite app_assoc.
Qed.

Lemma includes_app_l (s b n : string) :
  includes s n = true -> includes (s +:+ b) n = true.
Proof.
  rewrite !includes_correct. intros (x & y & ->).
  exists x, (y +:+ b). by rewrite !app_assoc.
Qed.

End StringFacts.

(** ** Facts on the regular-expression engine *)

Section RegExpFacts.
Import JsString RegExp Spec.

Lemma lit_app (p : string) (k : matcher) (s : string) :
  lit p k (p +:+ s) = k s.
Proof.
  induction p as [|c p IH]; [done|].
  rewrite app_cons. cbn. by rewrite Ascii.eqb_refl.
Qed.

Lemma lit_inv (p : string) (k : matcher) (s : string) (r : result) :
  lit p k s = Some r -> exists t, s = p +:+ t /\ k t = Some r.
Proof.
  revert s. induction p as [|c p IH]; intros s H.
  - by exists s.
  - destruct s as [|d s]; [done|]. cbn in H.
    destruct (Ascii.eqb_spec c d) as [->|]; [|done].
    destruct (IH s H) as (t & -> & ?). by exists t.
Qed.

(** On a line that ends with the closing character, the greedy star keeps
    the whole line before it. *)
Lemma dotStarGreedy_to_closing (q : ascii) (v : string) :
  singleLine v = true ->
  dotStarGreedy (lit (String q EmptyString) accept) (v +:+ String q EmptyString)
  = Some (v, ([], EmptyString)).
Proof.
  induction v as [|c v IH]; intros Hv.
  - rewrite app_nil_l. cbn. rewrite Ascii.eqb_refl.
    by destruct (isLineTerminator q).
  - cbn in Hv. apply andb_true_iff in Hv as [Hc Hv].
    rewrite app_cons. cbn -[lit]. apply negb_true_iff in Hc. rewrite Hc.
    by rewrite (IH Hv).
Qed.

Lemma search_here (m : matcher) (s : string) (r : result) :
  m s = Some r -> search m s = Some (EmptyString, s, r).
Proof. intros H. destruct s; cbn; by rewrite H. Qed.

Lemma search_inv (m : matcher) (s before at_ : string) (r : result) :
  search m s = Some (before, at_, r) ->
  s = before +:+ at_ /\ m at_ = Some r.
Proof.
  revert before. induction s as [|c s IH]; intros before; cbn.
  - destruct (m EmptyString) eqn:E; [|done]. by intros [= <- <- <-].
  - destruct (m (String c s)) eqn:E; [by intros [= <- <- <-]|].
    destruct (search m s) as [[[b a] r']|]; [|done].
    intros [= <- <- <-]. destruct (IH b eq_refl) as [-> ?]. done.
Qed.

(** A match at the end of [a] bounds the position of the first match. *)
Lemma search_app_le (m : matcher) (a t : string) (r0 : result) :
  m t = Some r0 ->
  exists before at_ r,
    search m (a +:+ t) = Some (before, at_, r) /\ len before <= len a.
Proof.
  intros Ht. induction a as [|c a IH].
  - rewrite app_nil_l, (search_here _ _ _ Ht). eexists _, _, _. split; [done|].
    cbn. lia.
  - rewrite app_cons. cbn. destruct (m (String c (a +:+ t))) as [r|].
    + eexists _, _, _. split; [done|]. cbn. lia.
    + destruct IH as (before & at_ & r & -> & Hle).
      eexists _, _, _. split; [done|]. unfold len in *. cbn. lia.
Qed.

(** Without the [g] flag a second occurrence of a literal pattern
    survives the replacement. *)
Lemma replaceFirst_lit_second_occurrence
    (p : string) (r : replacement) (a b : string) :
  includes b p = true ->
  includes (replaceFirst (lit p accept) r (a +:+ p +:+ b)) p = true.
Proof.
  intros Hb. unfold replaceFirst.
  assert (Hp : lit p accept (p +:+ b) = Some ([], b)) by apply lit_app.
  destruct (search_app_le _ a _ _ Hp) as (before & at_ & [caps rest] & Hs & Hle).
  rewrite Hs. apply search_inv in Hs as [Hsplit Hat].
  apply lit_inv in Hat as (t & -> & [= <- <-]).
  destruct (app_eq_app_le _ _ _ _ (eq_sym Hsplit) Hle) as (d & -> & Hd).
  assert (Hlen : len p <= len (d +:+ p)) by (rewrite len_app; lia).
  rewrite <- app_assoc in Hd.
  destruct (app_eq_app_le _ _ _ _ Hd Hlen) as (z & _ & ->).
  apply includes_app_r, includes_app_r, includes_app_r. done.
Qed.

End RegExpFacts.

(** ** Facts on the normaliser *)

Section NormalizerFacts.
Import JsString Js Normalizer Spec.

Lemma join_nil (sep : string) : join sep [] = EmptyString.
Proof. reflexivity. Qed.

Lemma join_one (sep x : string) : join sep [x] = x.
Proof. reflexivity. Qed.

(** The accumulator of [join] can be pulled out of the loop. *)
Lemma join_loop_shift (sep a b : string) (l : list string) :
  snd (fold_left
         (fun (st : bool * string) (x : string) =>
            let '(first, R) := st in
            (false, (if first then R else R +:+ sep) +:+ x))
         l (false, a +:+ b))
  = a +:+ snd (fold_left
         (fun (st : bool * string) (x : string) =>
            let '(first, R) := st in
            (false, (if first then R else R +:+ sep) +:+ x))
         l (false, b)).
Proof.
  revert b. induction l as [|y l IH]; intros b; [done|].
  cbn. rewrite <- IH. by rewrite !app_assoc.
Qed.

Lemma join_cons_cons (sep x y : string) (l : list string) :
  join sep (x :: y :: l) = x +:+ sep +:+ join sep (y :: l).
Proof.
  unfold join. cbn. rewrite <- app_assoc. by rewrite join_loop_shift.
Qed.

Lemma flattenDependency_attributes (d : dependency) :
  flattenDependency (attributes d) = segment d.
Proof.
  destruct d as [id [v|]]; unfold flattenDependency, attributes, segment; cbn.
  - rewrite lookup_insert_ne by done. rewrite lookup_singleton_eq.
    rewrite lookup_insert_eq. by destruct v.
  - rewrite lookup_singleton_eq. by rewrite lookup_singleton_ne.
Qed.

Lemma join_flattened (ds : list dependency) :
  join "|" (map flattenDependency (map attributes ds)) = flattened ds.
Proof.
  induction ds as [|d ds IH]; [done|].
  destruct ds as [|d' ds].
  - cbn [map]. by rewrite join_one, flattenDependency_attributes.
  - cbn [map] in *.
    rewrite join_cons_cons, IH. by rewrite flattenDependency_attributes.
Qed.

Lemma endsWith_after_colon (x : string) : endsWith (x +:+ ":") "|" = false.
Proof.
  induction x as [|c x IH]; [done|].
  rewrite app_cons. cbn. rewrite IH.
  destruct (Ascii.eqb c "|"); [|done]. by destruct x.
Qed.

Lemma segment_ends_with_colon (d : dependency) :
  exists x, segment d = x +:+ ":".
Proof.
  exists (dep_id d +:+ ":" +:+ default EmptyString (dep_version d)).
  unfold segment. by rewrite !app_assoc.
Qed.

Lemma flattened_ends_with_colon (d : dependency) (ds : list dependency) :
  exists x, flattened (d :: ds) = x +:+ ":".
Proof.
  revert d. induction ds as [|d' ds IH]; intros d.
  - apply segment_ends_with_colon.
  - destruct (IH d') as [x E]. exists (segment d +:+ "|" +:+ x).
    change (flattened (d :: d' :: ds))
      with (segment d +:+ "|" +:+ flattened (d' :: ds)).
    rewrite E. by rewrite !app_assoc.
Qed.

Lemma flattened_no_trailing_bar (ds : list dependency) :
  endsWith (flattened ds) "|" = false.
Proof.
  destruct ds as [|d ds]; [done|].
  destruct (flattened_ends_with_colon d ds) as [x ->].
  apply endsWith_after_colon.
Qed.

End NormalizerFacts.

Section PreprocessFacts.
Import JsString Js Normalizer Spec.

Lemma flatDeps_mappable (entry : PackageMetadata) :
  dependenciesMappable entry = true <-> is_Some (flatDeps entry).
Proof.
  unfold dependenciesMappable, flatDeps.
  destruct (fields entry !! "dependencies") as [[[|c s]|deps]|]; cbn;
    (split; [try done; by eauto|try done; by intros [? ?]]).
Qed.

Lemma toStringArray_printable (children : list (gmap string string)) :
  is_Some (toStringArray children) <-> printableValue (VList children) = true.
Proof.
  unfold toStringArray. rewrite fmap_is_Some, mapM_is_Some, Forall_forall.
  cbn [printableValue]. rewrite forallb_forall. split.
  - intros H o Ho. apply bool_decide_eq_true.
    apply list_elem_of_In in Ho. specialize (H o Ho). cbn in H.
    unfold toStringObject in H.
    destruct (o !! "toString"); [by destruct H|done].
  - intros H o Ho. apply list_elem_of_In in Ho. specialize (H o Ho).
    apply bool_decide_eq_true in H. cbn. unfold toStringObject.
    rewrite H. by eexists.
Qed.

Lemma toStringField_printable (o : option value) :
  is_Some (toStringField o) <-> printable o = true.
Proof.
  destruct o as [[t|children]|]; cbn [toStringField toStringValue printable].
  - split; [done|by eauto].
  - apply toStringArray_printable.
  - split; [done|by eauto].
Qed.

Lemma toStringField_text (t : string) :
  toStringField (Some (VText t)) = Some t.
Proof. done. Qed.

Lemma looseEq_printable (o : option value) (s : string) :
  is_Some (looseEq o s) <-> printable o = true.
Proof.
  rewrite <- toStringField_printable. destruct o as [v|]; cbn.
  - destruct (toStringValue v); cbn;
      (split; [try done; by eauto|try done; by intros [? ?]]).
  - split; by eauto.
Qed.

Lemma flatTags_printable (entry : PackageMetadata) :
  is_Some (flatTags entry) <-> printable (fields entry !! "tags") = true.
Proof.
  rewrite <- toStringField_printable. unfold flatTags.
  destruct (fields entry !! "tags") as [[[|c t]|children]|]; cbn;
    try (split; by eauto).
  destruct (toStringArray children); cbn;
    (split; [try done; by eauto|try done; by intros [? ?]]).
Qed.

Lemma downloadUrl_printable (prefix : string) (entry : PackageMetadata) :
  is_Some (downloadUrl prefix entry)
  <-> printable (fields entry !! "id") = true.
Proof.
  rewrite <- toStringField_printable. unfold downloadUrl.
  destruct (toStringField (fields entry !! "id")); cbn;
    (split; [try done; by eauto|try done; by intros [? ?]]).
Qed.

(** What [preprocessEntry] leaves in the entry, when it does not throw. *)
Lemma preprocessEntry_Some (prefix : string) (entry entry' : PackageMetadata) :
  preprocessEntry prefix entry = Some entry' ->
  exists flat_deps flat_tags,
    flatDeps entry = Some flat_deps /\
    flatTags entry = Some flat_tags /\
    fields entry' !! "_flat_deps" = Some (VText flat_deps) /\
    fields entry' !! "_flat_tags" = Some (VText flat_tags) /\
    nupkgData entry' = nupkgData entry /\
    (forall key, key <> "_flat_deps" -> key <> "_flat_tags" -> key <> "url" ->
                 fields entry' !! key = fields entry !! key).
Proof.
  unfold preprocessEntry. destruct (flatDeps entry) as [flat_deps|]; [|done].
  cbn.
  assert (Htags : flatTags (setField "_flat_deps" (VText flat_deps) entry)
                  = flatTags entry).
  { unfold flatTags, setField. cbn. by rewrite lookup_insert_ne. }
  rewrite Htags. destruct (flatTags entry) as [flat_tags|]; [|done]. cbn.
  destruct (nupkgData entry) eqn:Hdata; cbn.
  - destruct (downloadUrl _ _) as [url|]; [|done]. cbn. intros [= <-].
    exists flat_deps, flat_tags. cbn.
    repeat split; intros; try done;
      repeat (rewrite lookup_insert_eq || rewrite lookup_insert_ne by done);
      done.
  - intros [= <-]. exists flat_deps, flat_tags. cbn.
    repeat split; intros; try done;
      repeat (rewrite lookup_insert_eq || rewrite lookup_insert_ne by done);
      done.
Qed.

(** The entries on which the body of the loop does not throw. *)
Lemma preprocessEntry_normalizable (prefix : string) (entry : PackageMetadata) :
  is_Some (preprocessEntry prefix entry) <-> normalizable entry = true.
Proof.
  unfold normalizable. rewrite !andb_true_iff.
  rewrite flatDeps_mappable, <- flatTags_printable.
  unfold preprocessEntry. destruct (flatDeps entry) as [flat_deps|]; cbn.
  2:{ split; [by intros [? ?]|]. by intros [[[? ?] _] _]. }
  assert (Htags : flatTags (setField "_flat_deps" (VText flat_deps) entry)
                  = flatTags entry).
  { unfold flatTags, setField. cbn. by rewrite lookup_insert_ne. }
  rewrite Htags. destruct (flatTags entry) as [flat_tags|]; cbn.
  2:{ split; [by intros [? ?]|]. by intros [[_ [? ?]] _]. }
  destruct (nupkgData entry) eqn:Hdata; cbn.
  - rewrite <- (downloadUrl_printable prefix entry).
    assert (Hurl : downloadUrl prefix
                     (setField "_flat_tags" (VText flat_tags)
                        (setField "_flat_deps" (VText flat_deps) entry))
                   = downloadUrl prefix entry).
    { unfold downloadUrl, setField. cbn. by rewrite !lookup_insert_ne. }
    rewrite Hurl. destruct (downloadUrl prefix entry); cbn.
    + split; by eauto.
    + split; [by intros [? ?]|]. by intros [_ [? ?]].
  - split; by eauto.
Qed.

(** The loop over the list: it ends normally when no entry throws, and
    then holds, at each index, the normalised entry of that index. *)
Lemma preprocessPackageMetadata_Some (prefix : string)
    (packageMetadataList : list PackageMetadata) :
  forallb normalizable packageMetadataList = true ->
  exists normalized,
    preprocessPackageMetadata prefix packageMetadataList = Some normalized /\
    forall i entry, packageMetadataList !! i = Some entry ->
      exists entry', normalized !! i = Some entry' /\
                     preprocessEntry prefix entry = Some entry'.
Proof.
  intros H. unfold preprocessPackageMetadata.
  assert (Hall : Forall (fun e => is_Some (preprocessEntry prefix e))
                   packageMetadataList).
  { apply Forall_forall. intros e He.
    rewrite forallb_forall in H. apply list_elem_of_In in He.
    by apply preprocessEntry_normalizable, H. }
  apply mapM_is_Some in Hall as [normalized Hn].
  exists normalized. split; [done|].
  intros i entry Hi. apply mapM_Some in Hn.
  destruct (Forall2_lookup_l _ _ _ _ _ Hn Hi) as (entry' & ? & ?). eauto.
Qed.

End PreprocessFacts.

(** ** Facts on the renderer and the handlers *)

Section RenderFacts.
Import JsString RegExp Js Express Spec.


Lemma singleLine_app (s t : string) :
  singleLine (s +:+ t) = singleLine s && singleLine t.
Proof.
  induction s as [|c s IH]; [done|].
  rewrite app_cons. cbn. rewrite IH. by rewrite andb_assoc.
Qed.

Lemma getSubstitution_plain (matched str : string) (position : nat)
    (captures : list string) (replacement : string) :
  plain replacement = true ->
  getSubstitution matched str position captures replacement = replacement.
Proof.
  induction replacement as [|c r IH]; [done|]. cbn.
  intros H. apply andb_true_iff in H as [Hc Hr]. rewrite Hc.
  by rewrite (IH Hr).
Qed.

Lemma stripQuotes_quoted (v : string) :
  singleLine v = true -> stripQuotes ("'" +:+ v +:+ "'") = v.
Proof.
  intros Hv. unfold stripQuotes, replaceFirst.
  assert (Hm : reQuoted ("'" +:+ v +:+ "'") = Some ([v], EmptyString)).
  { unfold reQuoted. rewrite lit_app. unfold group.
    by rewrite dotStarGreedy_to_closing. }
  rewrite (search_here _ _ _ Hm). cbn.
  change (isDigit "1") with true. change (digitValue "1") with 1. cbn.
  by rewrite !app_nil_r.
Qed.

(** Passing over the rest of the subject, when nothing matches at its
    end. *)
Lemma replaceAllFrom_skip_rest (m : matcher) (r : replacement) (str s : string)
    (position : nat) :
  m EmptyString = None ->
  replaceAllFrom m r str (len s) position s = EmptyString.
Proof.
  intros Hm. revert position. induction s as [|c s IH]; intros position.
  - cbn. by rewrite Hm.
  - cbn. apply IH.
Qed.

Lemma replaceAllWithFrom_skip_rest (m : matcher) (f : replacer) (s : string) :
  m EmptyString = None ->
  replaceAllWithFrom m f (len s) s = Some EmptyString.
Proof.
  intros Hm. induction s as [|c s IH].
  - cbn. by rewrite Hm.
  - cbn. apply IH.
Qed.

(** The pattern [{entries}] with its line feed has its opening brace at
    the front only: a match that starts before an occurrence ends before
    it. *)
Lemma entries_pattern_no_overlap (c : ascii) (pre post t : string) :
  String c (pre +:+ ("{entries}" +:+ LF) +:+ post) = ("{entries}" +:+ LF) +:+ t ->
  9 <= len pre.
Proof.
  intros H. vm_compute in H. injection H as _ H.
  do 9 (destruct pre as [|? pre]; [by vm_compute in H|];
        vm_compute in H; injection H as _ H).
  unfold len. cbn. lia.
Qed.

(** Every occurrence of [{entries}] and a line feed is replaced: the
    replacement text is part of what the global pass returns. *)
Lemma replaceAllFrom_entries (R str pre post : string) :
  plain R = true ->
  forall skip position, skip <= len pre ->
  exists X Y,
    replaceAllFrom reEntries (ReplaceString R) str skip position
      (pre +:+ ("{entries}" +:+ LF) +:+ post)
    = X +:+ R +:+ Y.
Proof.
  intros HR. induction pre as [|c pre IH]; intros skip position Hskip.
  - assert (skip = 0) as -> by (cbn in Hskip; lia).
    rewrite app_nil_l.
    assert (Hm : reEntries (("{entries}" +:+ LF) +:+ post) = Some ([], post))
      by apply lit_app.
    exists EmptyString.
    change (("{entries}" +:+ LF) +:+ post)
      with (String "{" (("entries}" +:+ LF) +:+ post)) in *.
    cbn [replaceAllFrom]. rewrite Hm. cbn [replaceValue].
    rewrite getSubstitution_plain by done. eexists. by rewrite app_nil_l.
  - rewrite app_cons. destruct skip as [|skip].
    + cbn [replaceAllFrom].
      destruct (reEntries (String c (pre +:+ ("{entries}" +:+ LF) +:+ post)))
        as [[caps rest]|] eqn:Hm.
      * apply lit_inv in Hm as (t & Ht & [= <- <-]).
        pose proof (entries_pattern_no_overlap _ _ _ _ Ht) as Hle.
        assert (Hn : len (String c (pre +:+ ("{entries}" +:+ LF) +:+ post))
                     - len t = 10).
        { rewrite Ht, len_app. change (len ("{entries}" +:+ LF)) with 10. lia. }
        rewrite Hn. cbv beta iota.
        destruct (IH 9 (S position) Hle) as (X & Y & ->).
        cbn [replaceValue]. rewrite getSubstitution_plain by done.
        exists (R +:+ X), Y. by rewrite !app_assoc.
      * destruct (IH 0 (S position)) as (X & Y & ->); [lia|].
        by exists (String c X), Y.
    + cbn [replaceAllFrom]. apply IH. unfold len in *. cbn in Hskip. lia.
Qed.

Lemma occursTwice_correct (p s : string) :
  occursTwice p s = true ->
  exists a b, s = a +:+ p +:+ b /\ includes b p = true.
Proof.
  unfold occursTwice, afterFirst.
  destruct (search (lit p accept) s) as [[[before at_] [caps rest]]|] eqn:Hs;
    [|done].
  intros Hrest. apply search_inv in Hs as [-> Hat].
  apply lit_inv in Hat as (t & -> & [= <- <-]). by exists before, t.
Qed.

Variable static : StaticFiles.
Variable Buffer_toString : list Byte.byte -> string.

(** Only the first [{EXPRESS_URL_ROOT}] is replaced: when the text that
    the entries pass leaves holds the placeholder twice, the feed still
    holds it. *)
Lemma url_root_replaced_once
    (matchedPackages : list PackageMetadata) (req : request)
    (entries : list string) :
  mapM (substituteFields Buffer_toString (entryTemplate static))
    matchedPackages = Some entries ->
  occursTwice "{EXPRESS_URL_ROOT}"
    (replaceAll reEntries (ReplaceString (join EmptyString entries))
       (packagesTemplate static)) = true ->
  exists feed,
    formatPackages static Buffer_toString matchedPackages req = Some feed /\
    includes feed "{EXPRESS_URL_ROOT}" = true.
Proof.
  intros Hentries H. apply occursTwice_correct in H as (a & b & H & Hb).
  unfold formatPackages. rewrite Hentries. cbn [mbind option_bind].
  eexists. split; [done|].
  rewrite H. by apply replaceFirst_lit_second_occurrence.
Qed.

(** The same from the rendered entries alone, for every packages template
    that holds [{entries}] and a line feed: when the entries, free of [$],
    hold the placeholder twice, so does the feed. *)
Lemma url_root_left_in_second_entry
    (root metadata error template before after : string)
    (matchedPackages : list PackageMetadata) (req : request)
    (entries : list string) :
  mapM (substituteFields Buffer_toString template) matchedPackages
    = Some entries ->
  plain (join EmptyString entries) = true ->
  occursTwice "{EXPRESS_URL_ROOT}" (join EmptyString entries) = true ->
  exists feed,
    formatPackages
      (mkStaticFiles root metadata error template
         (before +:+ ("{entries}" +:+ LF) +:+ after))
      Buffer_toString matchedPackages req = Some feed /\
    includes feed "{EXPRESS_URL_ROOT}" = true.
Proof.
  intros Hentries Hplain Htwice. unfold formatPackages.
  cbn [entryTemplate packagesTemplate]. rewrite Hentries.
  cbn [mbind option_bind]. eexists. split; [done|].
  destruct (replaceAllFrom_entries _
              (before +:+ ("{entries}" +:+ LF) +:+ after) before after
              Hplain 0 0) as (X & Y & E); [lia|].
  unfold replaceAll. rewrite E.
  apply occursTwice_correct in Htwice as (a & b & -> & Hb).
  replace (X +:+ (a +:+ "{EXPRESS_URL_ROOT}" +:+ b) +:+ Y)
    with ((X +:+ a) +:+ "{EXPRESS_URL_ROOT}" +:+ (b +:+ Y))
    by (by rewrite !app_assoc).
  apply replaceFirst_lit_second_occurrence. by apply includes_app_l.
Qed.

End RenderFacts.

Section HandlerFacts.
Import JsString RegExp Js Express Spec.

Variable static : StaticFiles.
Variable Buffer_toString : list Byte.byte -> string.
Variable packageMetadataList : list PackageMetadata.

Lemma filterThrowing_throws {A : Type} (f : A -> option bool) (x : A)
    (xs : list A) :
  In x xs -> f x = None -> filterThrowing f xs = None.
Proof.
  intros Hin Hx. induction xs as [|y xs IH]; [done|]. cbn.
  destruct Hin as [->|Hin]; [by rewrite Hx|].
  destruct (f y); [|done]. cbn. by rewrite (IH Hin).
Qed.

Lemma filterThrowing_returns {A : Type} (f : A -> option bool) (g : A -> bool)
    (xs : list A) :
  (forall x, In x xs -> f x = Some (g x)) ->
  filterThrowing f xs = Some (List.filter g xs).
Proof.
  induction xs as [|y xs IH]; intros H; [done|]. cbn.
  rewrite (H y) by (by left). cbn. rewrite IH by (intros; apply H; by right).
  done.
Qed.

Lemma fieldContains_correct (key s : string) (entry : PackageMetadata) :
  fieldContains key s entry = true <->
  exists t, textField key entry = Some t /\ occursIn s t.
Proof.
  unfold fieldContains, occursIn. destruct (textField key entry) as [t|].
  - rewrite includes_correct. split; [by eauto|]. by intros (? & [= <-] & ?).
  - split; [done|]. by intros (? & ? & ?).
Qed.

Lemma searchCallback_searchable (s : string) (entry : PackageMetadata) :
  searchable entry = true ->
  searchCallback s entry = Some (matchesSearch s entry).
Proof.
  unfold searchable, searchCallback, matchesSearch, fieldContains, textField.
  intros H. apply andb_true_iff in H as [H H3]. apply andb_true_iff in H as [H1 H2].
  apply bool_decide_eq_true in H1 as [t1 H1], H2 as [t2 H2], H3 as [t3 H3].
  destruct (fields entry !! "id") as [[?|?]|]; try done.
  destruct (fields entry !! "summary") as [[?|?]|]; try done.
  destruct (fields entry !! "_flat_tags") as [[?|?]|]; try done.
  cbn. destruct (includes _ s); [done|]. cbn. by destruct (includes _ s).
Qed.

(** What the wrapper answers for a handler that selects records and then
    sends their feed. *)
Lemma get_selection (selected : option (list PackageMetadata))
    (req : request) :
  get (fun req =>
         matchedPackages ← orThrow selected;
         sendFeed static Buffer_toString matchedPackages req) req
  = selectionOutcome
      (fun matchedPackages =>
         formatPackages static Buffer_toString matchedPackages req)
      selected.
Proof.
  unfold get, sendFeed, mbind, Res_bind, orThrow, mret, Res_ret, throw.
  destruct selected as [matchedPackages|]; [|done]. cbn.
  by destruct (formatPackages _ _ _ _).
Qed.

(** The package query on a string filter that takes the search branch:
    the feed of what the search keeps, or the wrapper's answer when the
    search or the rendering throws. *)
Lemma packagesHandler_substring (req : request) (filter s : string) :
  query req !! "$filter" = Some (QString filter) ->
  truthyString (matchOnePackage filter) = false ->
  matchManyPackages filter = Some s -> s <> EmptyString ->
  serve static Buffer_toString packageMetadataList Packages req =
    selectionOutcome
      (fun matchedPackages =>
         formatPackages static Buffer_toString matchedPackages req)
      (filterThrowing (searchCallback s) packageMetadataList).
Proof.
  intros H Hone Hmany Hs. rewrite <- get_selection.
  unfold serve, get, packagesHandler, filterForOnePackage,
    filterForManyPackages.
  rewrite H. unfold stringReceiver, mbind, Res_bind, mret, Res_ret.
  rewrite Hone, Hmany. by destruct s as [|c s].
Qed.

(** The selection by id: it throws when the id of some record cannot be
    converted to a string, and keeps the records of equal id otherwise. *)
Lemma selection_by_id (name : string) (l : list PackageMetadata) :
  filterThrowing (fun entry => looseEq (fields entry !! "id") name) l
  = if forallb idPrintable l then Some (List.filter (idEquals name) l)
    else None.
Proof.
  induction l as [|entry l IH]; [done|].
  cbn [filterThrowing forallb List.filter]. rewrite IH.
  change (idPrintable entry) with (printable (fields entry !! "id")).
  change (idEquals name entry)
    with (default false (looseEq (fields entry !! "id") name)).
  pose proof (looseEq_printable (fields entry !! "id") name) as Hp.
  destruct (looseEq (fields entry !! "id") name) as [keep|];
    cbn [mbind option_bind default].
  - rewrite (proj1 Hp) by by eexists. cbn [andb].
    by destruct (forallb idPrintable l).
  - destruct (printable (fields entry !! "id")); [|done].
    by destruct (proj2 Hp eq_refl).
Qed.


Lemma Express_findThrowing_first {A : Type} (f : A -> option bool)
    (l1 l2 : list A) (x : A) :
  (forall y, In y l1 -> f y = Some false) -> f x = Some true ->
  findThrowing f (l1 ++ x :: l2) = Some (Some x).
Proof.
  intros H Hx. induction l1 as [|y l1 IH]; cbn.
  - by rewrite Hx.
  - rewrite (H y) by (by left). cbn. apply IH. intros z Hz. apply H. by right.
Qed.


Lemma filterThrowing_In {A : Type} (f : A -> option bool) (xs kept : list A) :
  filterThrowing f xs = Some kept ->
  forall x, In x kept <-> In x xs /\ f x = Some true.
Proof.
  revert kept. induction xs as [|y xs IH]; intros kept; cbn.
  - intros [= <-] x. cbn. tauto.
  - destruct (f y) as [keep|] eqn:Hy; [|done]. cbn.
    destruct (filterThrowing f xs) as [kept'|]; [|done]. cbn.
    intros [= <-] x. specialize (IH kept' eq_refl x).
    destruct keep; cbn; rewrite IH; split.
    + intros [<-|[? ?]]; [by split; [left|]|by split; [right|]].
    + intros [[<-|?] ?]; [by left|by right].
    + intros [? ?]. by split; [right|].
    + intros [[<-|?] Hx]; [by rewrite Hy in Hx|done].
Qed.

End HandlerFacts.

(** [configureRoutes] serves the list as normalised with the prefix made to
    start and end with a slash, and is rejected exactly when normalisation
    throws. *)
Lemma configureRoutes_Some (static : StaticFiles)
    (Buffer_toString : list Byte.byte -> string) (prefix : string)
    (packageMetadataList : list PackageMetadata)
    (routes : route -> request -> response) :
  configureRoutes static Buffer_toString prefix packageMetadataList
    = Some routes <->
  exists normalized,
    Normalizer.preprocessPackageMetadata (normalizePrefix prefix)
      packageMetadataList = Some normalized /\
    routes = serve static Buffer_toString normalized.
Proof.
  unfold configureRoutes.
  destruct (Normalizer.preprocessPackageMetadata _ _) as [normalized|]; cbn.
  - split; [intros [= <-]; by eexists|]. by intros (? & [= <-] & ->).
  - split; [done|]. by intros (? & ? & ?).
Qed.

Example normalizePrefix_examples :
  normalizePrefix "/" = "/" /\
  normalizePrefix "choco" = "/choco/" /\
  normalizePrefix "/feed" = "/feed/" /\
  normalizePrefix EmptyString = "/".
Proof. repeat split; vm_compute; reflexivity. Qed.

(** ** The claims about the normaliser *)

Section NormalizerClaims.
Import JsString Js Normalizer Spec.

(** C7.  For every package list that normalisation accepts (in every
    record the dependencies are not a non-empty text, the tags can be
    converted to a string and so can the id when the record holds its
    archive) normalisation returns, and for every record in the list: when
    the record's dependencies are the attribute maps of a
    sequence of dependencies, [_flat_deps] is one [id:version:] segment per
    dependency, in order, with the colon after an absent version still
    there, and a [|] between neighbours but none at the end; when the record
    has no dependencies ([dependencies] absent or empty text), [_flat_deps]
    is the empty string. *)
Theorem flat_deps_format (prefix : string)
    (packageMetadataList : list PackageMetadata) :
  forallb normalizable packageMetadataList = true ->
  exists normalized,
    preprocessPackageMetadata prefix packageMetadataList = Some normalized /\
    forall i entry, packageMetadataList !! i = Some entry ->
      exists entry', normalized !! i = Some entry' /\
        (forall ds,
           fields entry !! "dependencies" = Some (VList (map attributes ds)) ->
           fields entry' !! "_flat_deps" = Some (VText (flattened ds)) /\
           endsWith (flattened ds) "|" = false) /\
        (fields entry !! "dependencies" = None \/
         fields entry !! "dependencies" = Some (VText EmptyString) ->
           fields entry' !! "_flat_deps" = Some (VText EmptyString)).
Proof.
  intros H.
  destruct (preprocessPackageMetadata_Some prefix _ H) as (normalized & Hn & Hi).
  exists normalized. split; [done|]. intros i entry Hentry.
  destruct (Hi i entry Hentry) as (entry' & Hlook & Hpre).
  exists entry'. split; [done|].
  apply preprocessEntry_Some in Hpre as (fd & ft & Hfd & _ & Hdeps & _).
  rewrite Hdeps. unfold flatDeps in Hfd. split.
  - intros ds E. rewrite E in Hfd. cbn in Hfd. injection Hfd as <-.
    by rewrite join_flattened, flattened_no_trailing_bar.
  - intros [E|E]; rewrite E in Hfd; cbn in Hfd; by injection Hfd as <-.
Qed.

Lemma flat_deps_format_witness :
  exists entry',
    Example.localPackages !! 1 = Some entry' /\
    fields entry' !! "_flat_deps" = Some (VText "foo:1.0:|baz::").
Proof.
  destruct (flat_deps_format "/" [Example.foo; Example.bar]
              ltac:(vm_compute; reflexivity))
    as (normalized & Hn & Hi).
  destruct (Hi 1 Example.bar eq_refl) as (entry' & Hlook & Hdeps & _).
  exists entry'. split.
  - unfold Example.localPackages, Example.normalized. rewrite Hn. exact Hlook.
  - apply (Hdeps [mkDependency "foo" (Some "1.0"); mkDependency "baz" None]).
    vm_compute. reflexivity.
Defined.

(** C8.  For every package list that normalisation accepts (in every
    record the dependencies are not a non-empty text, the tags can be
    converted to a string and so can the id when the record holds its
    archive) normalisation returns, and for every record in the list: when
    the record's tags are a non-empty string [T], [_flat_tags]
    is [T] between one leading and one trailing space; when the tags are the
    empty string or absent, [_flat_tags] is the empty string. *)
Theorem flat_tags_padding (prefix : string)
    (packageMetadataList : list PackageMetadata) :
  forallb normalizable packageMetadataList = true ->
  exists normalized,
    preprocessPackageMetadata prefix packageMetadataList = Some normalized /\
    forall i entry, packageMetadataList !! i = Some entry ->
      exists entry', normalized !! i = Some entry' /\
        (forall T, fields entry !! "tags" = Some (VText T) -> T <> EmptyString ->
           fields entry' !! "_flat_tags" = Some (VText (" " +:+ T +:+ " "))) /\
        (fields entry !! "tags" = Some (VText EmptyString) \/
         fields entry !! "tags" = None ->
           fields entry' !! "_flat_tags" = Some (VText EmptyString)).
Proof.
  intros H.
  destruct (preprocessPackageMetadata_Some prefix _ H) as (normalized & Hn & Hi).
  exists normalized. split; [done|]. intros i entry Hentry.
  destruct (Hi i entry Hentry) as (entry' & Hlook & Hpre).
  exists entry'. split; [done|].
  apply preprocessEntry_Some in Hpre as (fd & ft & _ & Hft & _ & Htags & _).
  rewrite Htags. unfold flatTags in Hft. split.
  - intros T E HT. rewrite E in Hft. destruct T; [done|].
    cbn in Hft. by injection Hft as <-.
  - intros [E|E]; rewrite E in Hft; cbn in Hft; by injection Hft as <-.
Qed.

Lemma flat_tags_padding_witness :
  exists entry',
    Example.localPackages !! 0 = Some entry' /\
    fields entry' !! "_flat_tags" = Some (VText " cli tools ").
Proof.
  destruct (flat_tags_padding "/" [Example.foo; Example.bar]
              ltac:(vm_compute; reflexivity))
    as (normalized & Hn & Hi).
  destruct (Hi 0 Example.foo eq_refl) as (entry' & Hlook & Htags & _).
  exists entry'. split.
  - unfold Example.localPackages, Example.normalized. rewrite Hn. exact Hlook.
  - apply (Htags "cli tools"); [vm_compute; reflexivity | discriminate].
Defined.

End NormalizerClaims.

(** ** The claims about the routes *)

Section RouteClaims.
Import JsString RegExp Js Express Spec.

Variable static : StaticFiles.
Variable Buffer_toString : list Byte.byte -> string.
Variable packageMetadataList : list PackageMetadata.

(** C9.  For every request to the package query that carries no [$filter]
    parameter, the pattern match is called on [undefined] and throws, and the
    wrapper answers the status 500 with the body [Exception!], not the error
    feed with the status 400. *)
Theorem missing_filter_is_server_error (req : request) :
  query req !! "$filter" = None ->
  packagesHandler static Buffer_toString packageMetadataList req freshResponse
    = (None, freshResponse) /\
  serve static Buffer_toString packageMetadataList Packages req
    = exceptionResponse /\
  serve static Buffer_toString packageMetadataList Packages req
    <> errorFeedResponse (errorAtom static).
Proof.
  intros H.
  assert (E : packagesHandler static Buffer_toString packageMetadataList req
                freshResponse = (None, freshResponse)).
  { unfold packagesHandler. by rewrite H. }
  split; [done|].
  assert (E' : serve static Buffer_toString packageMetadataList Packages req
               = exceptionResponse).
  { unfold serve, get. by rewrite E. }
  split; [done|]. by rewrite E'.
Qed.

(** C4.  For every filter string in which neither pattern finds a match, the
    package query returns normally with the status 400, the feed content
    type and the error feed as its body, whatever the package list is. *)
Theorem unrecognized_filter_is_bad_request (req : request) (filter : string) :
  query req !! "$filter" = Some (QString filter) ->
  matchOnePackage filter = None ->
  matchManyPackages filter = None ->
  packagesHandler static Buffer_toString packageMetadataList req freshResponse
    = (Some tt, errorFeedResponse (errorAtom static)) /\
  serve static Buffer_toString packageMetadataList Packages req
    = errorFeedResponse (errorAtom static).
Proof.
  intros H Hone Hmany.
  assert (E : packagesHandler static Buffer_toString packageMetadataList req
                freshResponse
              = (Some tt, errorFeedResponse (errorAtom static))).
  { unfold packagesHandler, filterForOnePackage, filterForManyPackages.
    rewrite H. unfold stringReceiver, mbind, Res_bind, mret, Res_ret.
    by rewrite Hone, Hmany. }
  split; [done|]. unfold serve, get. by rewrite E.
Qed.


(** C3, amended.  For every package list whose records have text under
    [id], [summary] and [_flat_tags], and every filter that takes the search
    branch with the operand [s], the package query selects exactly the
    records, in list order, whose id contains [s], or whose summary contains
    [s], or whose [_flat_tags] contains [s] between two spaces; it answers
    the feed rendered from them, or the wrapper's answer 500 when rendering
    one of them throws. *)
Theorem substring_filter_matches (req : request) (filter s : string) :
  query req !! "$filter" = Some (QString filter) ->
  truthyString (matchOnePackage filter) = false ->
  matchManyPackages filter = Some s -> s <> EmptyString ->
  forallb searchable packageMetadataList = true ->
  serve static Buffer_toString packageMetadataList Packages req =
    feedOutcome
      (formatPackages static Buffer_toString
         (List.filter (matchesSearch s) packageMetadataList) req)
  /\ forall entry,
       In entry (List.filter (matchesSearch s) packageMetadataList) <->
       In entry packageMetadataList /\
       ((exists t, textField "id" entry = Some t /\ occursIn s t) \/
        (exists t, textField "summary" entry = Some t /\ occursIn s t) \/
        (exists t, textField "_flat_tags" entry = Some t /\
                   occursIn (" " +:+ s +:+ " ") t)).
Proof.
  intros H Hone Hmany Hs Hall. split.
  - rewrite (packagesHandler_substring static Buffer_toString
               packageMetadataList req filter s) by done.
    rewrite (filterThrowing_returns _ (matchesSearch s)); [done|].
    intros x Hx. apply searchCallback_searchable.
    rewrite forallb_forall in Hall. by apply Hall.
  - intros entry. rewrite filter_In. unfold matchesSearch.
    rewrite !orb_true_iff, !fieldContains_correct. tauto.
Qed.

(** C10, amended.  For every filter that takes the search branch with the
    operand [s]: the search reads [summary] only of a record whose id does
    not contain [s].  When some record whose id does not contain [s] has no
    summary, the query throws and the answer is the status 500 with the body
    [Exception!], so no match is returned.  When every record has text under
    [id] and [_flat_tags] and either an id that contains [s] or a summary,
    the search does not throw: the query answers the feed of the records it
    selects (or the wrapper's answer 500 when rendering one of them throws),
    and the selected records include every record whose id contains [s],
    with or without a summary. *)
Theorem summary_read_only_when_id_misses (req : request) (filter s : string) :
  query req !! "$filter" = Some (QString filter) ->
  truthyString (matchOnePackage filter) = false ->
  matchManyPackages filter = Some s -> s <> EmptyString ->
  ((exists entry,
      In entry packageMetadataList /\
      fieldContains "id" s entry = false /\
      fields entry !! "summary" = None) ->
   serve static Buffer_toString packageMetadataList Packages req
     = exceptionResponse)
  /\
  ((forall entry, In entry packageMetadataList ->
      is_Some (textField "id" entry) /\
      is_Some (textField "_flat_tags" entry) /\
      (fieldContains "id" s entry = true \/
       is_Some (fields entry !! "summary"))) ->
   exists matchedPackages,
     filterThrowing (searchCallback s) packageMetadataList
       = Some matchedPackages /\
     serve static Buffer_toString packageMetadataList Packages req
       = feedOutcome
           (formatPackages static Buffer_toString matchedPackages req) /\
     forall entry, In entry packageMetadataList ->
       fieldContains "id" s entry = true -> In entry matchedPackages).
Proof.
  intros H Hone Hmany Hs.
  rewrite (packagesHandler_substring static Buffer_toString
             packageMetadataList req filter s) by done.
  split.
  - intros (entry & Hin & Hid & Hsum).
    rewrite (filterThrowing_throws _ entry); [done..|].
    unfold searchCallback, fieldContains, textField in *.
    destruct (fields entry !! "id") as [[?|?]|]; [|by rewrite Hsum|done].
    cbn. rewrite Hid. by rewrite Hsum.
  - intros Hall.
    set (g := fun entry => default false (searchCallback s entry)).
    rewrite (filterThrowing_returns _ g).
    + eexists. split; [done|]. split; [done|]. intros entry Hin Hid.
      apply filter_In. split; [done|]. unfold g, searchCallback.
      unfold fieldContains, textField in Hid.
      destruct (fields entry !! "id") as [[?|?]|]; try done.
      cbn. by rewrite Hid.
    + intros entry Hin. unfold g.
      destruct (Hall entry Hin) as ([t Ht] & [u Hu] & Hsum).
      unfold searchCallback, fieldContains, textField in *.
      destruct (fields entry !! "id") as [[?|?]|]; try done.
      destruct (fields entry !! "_flat_tags") as [[?|?]|]; try done.
      cbn. destruct (includes _ s); [done|].
      destruct Hsum as [?|[v Hv]]; [done|]. rewrite Hv.
      destruct v; cbn; [by destruct (includes _ s)|done].
Qed.

End RouteClaims.

(** ** The route claims at the example data *)

Section RouteExamples.
Import JsString RegExp Js Express Spec.

Lemma missing_filter_is_server_error_witness :
  serve Example.static Example.Buffer_toString Example.localPackages Packages
    (Example.localhost ∅ ∅)
  = exceptionResponse.
Proof.
  apply (missing_filter_is_server_error Example.static Example.Buffer_toString
           Example.localPackages (Example.localhost ∅ ∅)).
  reflexivity.
Defined.

(** The empty filter and a filter of arbitrary text. *)
Lemma unrecognized_filter_is_bad_request_witness :
  serve Example.static Example.Buffer_toString Example.localPackages Packages
    (Example.localhost {["$filter" := QString EmptyString]} ∅)
  = errorFeedResponse "<error/>" /\
  serve Example.static Example.Buffer_toString Example.localPackages Packages
    (Example.localhost {["$filter" := QString "Id eq foo or anything"]} ∅)
  = errorFeedResponse "<error/>".
Proof.
  split.
  - apply (unrecognized_filter_is_bad_request Example.static
             Example.Buffer_toString Example.localPackages
             (Example.localhost {["$filter" := QString EmptyString]} ∅)
             EmptyString);
      vm_compute; reflexivity.
  - apply (unrecognized_filter_is_bad_request Example.static
             Example.Buffer_toString Example.localPackages
             (Example.localhost {["$filter" := QString "Id eq foo or anything"]} ∅)
             "Id eq foo or anything");
      vm_compute; reflexivity.
Defined.


(** C6, at a quoted id of two lines.  The dot of the pattern refuses the
    line feed, so the pattern finds no match and the quotes stay, against
    the comment above the statement, which says that the quotes are
    stripped: the parameter with its quotes equals no id, and the record
    whose id is the unquoted value is not returned. *)
Theorem quoted_id_with_line_feed_keeps_quotes :
  stripQuotes ("'" +:+ Example.twoLinesId +:+ "'")
    = "'" +:+ Example.twoLinesId +:+ "'" /\
  List.filter (idEquals Example.twoLinesId)
    (Example.normalized [Example.twoLines])
    = Example.normalized [Example.twoLines] /\
  length (Example.normalized [Example.twoLines]) = 1 /\
  serve Example.static Example.Buffer_toString
    (Example.normalized [Example.twoLines]) FindPackagesById
    Example.twoLinesRequest
    = feedOutcome
        (formatPackages Example.static Example.Buffer_toString []
           Example.twoLinesRequest) /\
  serve Example.static Example.Buffer_toString
    (Example.normalized [Example.twoLines]) FindPackagesById
    Example.twoLinesRequest
    <> feedOutcome
         (formatPackages Example.static Example.Buffer_toString
            (List.filter (idEquals Example.twoLinesId)
               (Example.normalized [Example.twoLines]))
            Example.twoLinesRequest).
Proof.
  repeat split; try (vm_compute; reflexivity).
  intros H. apply (f_equal body) in H. vm_compute in H. discriminate H.
Qed.

Lemma substring_filter_matches_witness :
  serve Example.static Example.Buffer_toString Example.localPackages Packages
    (Example.searchRequest "tool")
  = feedOutcome
      (formatPackages Example.static Example.Buffer_toString
         (List.filter (matchesSearch "tool") Example.localPackages)
         (Example.searchRequest "tool")).
Proof.
  apply (substring_filter_matches Example.static Example.Buffer_toString
           Example.localPackages (Example.searchRequest "tool")
           (Example.searchFilter "tool") "tool");
    try (vm_compute; reflexivity).
  discriminate.
Defined.

(** C3, as stated, fails for a tag that only contains the operand: [foo]
    occurs in the padded tags of the record, and the record is not
    returned. *)
Lemma plain_tag_substring_is_not_matched :
  List.filter (plainSearch "foo") (Example.normalized [Example.editor])
    = Example.normalized [Example.editor] /\
  length (Example.normalized [Example.editor]) = 1 /\
  filterThrowing (searchCallback "foo") (Example.normalized [Example.editor])
    = Some [] /\
  serve Example.static Example.Buffer_toString
    (Example.normalized [Example.editor]) Packages (Example.searchRequest "foo")
    = feedOutcome
        (formatPackages Example.static Example.Buffer_toString []
           (Example.searchRequest "foo")) /\
  serve Example.static Example.Buffer_toString
    (Example.normalized [Example.editor]) Packages (Example.searchRequest "foo")
    <> feedOutcome
         (formatPackages Example.static Example.Buffer_toString
            (List.filter (plainSearch "foo")
               (Example.normalized [Example.editor]))
            (Example.searchRequest "foo")).
Proof.
  repeat split; try (vm_compute; reflexivity).
  intros H. apply (f_equal body) in H. vm_compute in H. discriminate H.
Qed.

Lemma summary_read_only_when_id_misses_witness :
  serve Example.static Example.Buffer_toString
    (Example.normalized [Example.foo; Example.bare]) Packages
    (Example.searchRequest "tool")
  = exceptionResponse.
Proof.
  apply (proj1 (summary_read_only_when_id_misses Example.static
                  Example.Buffer_toString
                  (Example.normalized [Example.foo; Example.bare])
                  (Example.searchRequest "tool")
                  (Example.searchFilter "tool") "tool"
                  ltac:(vm_compute; reflexivity) ltac:(vm_compute; reflexivity)
                  ltac:(vm_compute; reflexivity) ltac:(discriminate))).
  exists (default Example.bare
            (Example.normalized [Example.foo; Example.bare] !! 1)).
  repeat split; try (vm_compute; reflexivity).
  vm_compute. right. left. reflexivity.
Defined.

(** C10, as stated, fails for a record without summary whose id contains
    the operand: the query does not throw and returns the record. *)
Lemma missing_summary_does_not_fail_an_id_match :
  Forall (fun entry => fields entry !! "summary" = None)
    (Example.normalized [Example.bare]) /\
  length (Example.normalized [Example.bare]) = 1 /\
  filterThrowing (searchCallback "foo") (Example.normalized [Example.bare])
    = Some (Example.normalized [Example.bare]) /\
  serve Example.static Example.Buffer_toString
    (Example.normalized [Example.bare]) Packages (Example.searchRequest "foo")
    = feedOutcome
        (formatPackages Example.static Example.Buffer_toString
           (Example.normalized [Example.bare]) (Example.searchRequest "foo")) /\
  status
    (serve Example.static Example.Buffer_toString
       (Example.normalized [Example.bare]) Packages
       (Example.searchRequest "foo")) = 200 /\
  serve Example.static Example.Buffer_toString
    (Example.normalized [Example.bare]) Packages (Example.searchRequest "foo")
    <> exceptionResponse.
Proof.
  repeat split; try (vm_compute; reflexivity).
  - vm_compute. repeat constructor.
  - intros H. apply (f_equal status) in H. vm_compute in H. discriminate H.
Qed.

End RouteExamples.

(** ** The filter interpreter on the client's two filters *)

Section FilterExamples.
Import Js.

Example exact_filter_extracts_id :
  matchOnePackage "(tolower(Id) eq 'foo') and IsLatestVersion" = Some "foo".
Proof. vm_compute. reflexivity. Qed.

Example search_filter_extracts_operand :
  matchOnePackage (Example.searchFilter "bar") = None /\
  matchManyPackages (Example.searchFilter "bar") = Some "bar".
Proof. split; vm_compute; reflexivity. Qed.

(** An exact-id filter with the empty id takes neither branch. *)
Example empty_exact_id_is_not_recognized :
  matchOnePackage "tolower(Id) eq ''" = Some EmptyString /\
  truthyString (matchOnePackage "tolower(Id) eq ''") = false.
Proof. split; vm_compute; reflexivity. Qed.

End FilterExamples.

(** ** The claims about the renderer *)

Section RenderClaims.
Import JsString RegExp Js Express Spec.

Variable Buffer_toString : list Byte.byte -> string.

(** C2, at the line of the entry template that holds two placeholders.
    For every record and every two field names [f] and [g] without line
    terminator, the line [{f}/{g}] is one match of the field pattern, whose
    key is the text from the first opening brace to the last closing brace:
    it renders as the record's property of that key (the empty string when
    there is none), and the values of [f] and [g] do not appear. *)
Theorem adjacent_placeholders_render_as_one_key
    (entry : PackageMetadata) (f g : string) :
  singleLine f = true -> singleLine g = true ->
  substituteFields Buffer_toString ("{" +:+ f +:+ "}/{" +:+ g +:+ "}") entry
  = if truthy (getProperty entry (f +:+ "}/{" +:+ g))
    then toStringJs Buffer_toString (getProperty entry (f +:+ "}/{" +:+ g))
    else Some EmptyString.
Proof.
  intros Hf Hg.
  set (key := f +:+ "}/{" +:+ g).
  assert (Hkey : singleLine key = true).
  { unfold key. rewrite !singleLine_app, Hf, Hg. done. }
  assert (Hs : "{" +:+ f +:+ "}/{" +:+ g +:+ "}" = String "{" (key +:+ "}")).
  { unfold key. by rewrite !app_assoc. }
  rewrite Hs. clear Hs.
  assert (Hm : reField (String "{" (key +:+ "}")) = Some ([key], EmptyString)).
  { unfold reField. change (String "{" (key +:+ "}")) with ("{" +:+ key +:+ "}").
    rewrite lit_app. unfold group.
    by rewrite (dotStarGreedy_to_closing "}" key Hkey). }
  unfold substituteFields, replaceAllWith.
  cbn [replaceAllWithFrom]. rewrite Hm.
  change (len (String "{" (key +:+ "}")) - len EmptyString)
    with (S (len (key +:+ "}"))).
  cbv beta iota zeta. rewrite replaceAllWithFrom_skip_rest by done.
  unfold fieldReplacer.
  change (default "undefined" (head [key])) with key.
  destruct (truthy (getProperty entry key)); cbn [mbind option_bind].
  - destruct (toStringJs Buffer_toString (getProperty entry key));
      cbn [mbind option_bind]; [|done].
    by rewrite app_nil_r.
  - done.
Qed.

(** C1, at two packages hosted by this server.  For every packages
    template that holds [{entries}] and a line feed, and every request, the
    feed rendered for the two example packages still holds the text
    [{EXPRESS_URL_ROOT}]: the download URL of the second package is left
    unresolved. *)
Theorem placeholder_left_for_second_local_package
    (root metadata error before after : string) (req : request) :
  exists feed,
    formatPackages
      (mkStaticFiles root metadata error entryTemplateAtom
         (before +:+ ("{entries}" +:+ LF) +:+ after))
      Buffer_toString Example.localPackages req = Some feed /\
    includes feed "{EXPRESS_URL_ROOT}" = true.
Proof.
  eapply url_root_left_in_second_entry; vm_compute; reflexivity.
Qed.

End RenderClaims.

Section RenderExamples.
Import JsString RegExp Js Express Spec.

(** The record has a name and a version, and the line renders as nothing. *)
Lemma adjacent_placeholders_render_as_one_key_witness :
  fields Example.foo !! "name" = Some (VText "foo") /\
  fields Example.foo !! "version" = Some (VText "1.0") /\
  substituteFields Example.Buffer_toString
    ("{" +:+ "name" +:+ "}/{" +:+ "version" +:+ "}") Example.foo
  = Some EmptyString.
Proof.
  split; [vm_compute; reflexivity|]. split; [vm_compute; reflexivity|].
  rewrite (adjacent_placeholders_render_as_one_key Example.Buffer_toString
             Example.foo "name" "version" eq_refl eq_refl).
  vm_compute. reflexivity.
Defined.

(** The second line of the entry template, rendered for the same record. *)
Example entry_template_id_line :
  (fun entry =>
     (includes entry "<id>https://choco-js-fake-data/package/</id>",
      includes entry "foo/1.0"))
    <$> substituteFields Example.Buffer_toString entryTemplateAtom Example.foo
  = Some (true, false).
Proof. vm_compute. reflexivity. Qed.

(** With one hosted package the placeholder is resolved; with two it is
    not. *)
Example one_local_package_is_resolved :
  (fun feed => includes feed "{EXPRESS_URL_ROOT}")
    <$> formatPackages Example.static Example.Buffer_toString
          (Example.normalized [Example.foo]) (Example.localhost ∅ ∅)
  = Some false /\
  (fun feed =>
     (includes feed "http://localhost:8000/download/foo",
      includes feed "{EXPRESS_URL_ROOT}/download/bar"))
    <$> formatPackages Example.static Example.Buffer_toString
          Example.localPackages (Example.localhost ∅ ∅)
  = Some (true, true).
Proof. split; vm_compute; reflexivity. Qed.

End RenderExamples.

(** * Further properties of the code *)

(** ** Facts on the patterns *)

Section PatternFacts.
Import JsString RegExp Js Spec Shape.

Lemma lit_first_differs (c d : ascii) (p : string) (k : matcher) (s : string) :
  Ascii.eqb c d = false -> lit (String c p) k (String d s) = None.
Proof. intros H. cbn. by rewrite H. Qed.

(** The greedy star gives up when the closing character is not on the
    line. *)
Lemma dotStarGreedy_lineLacks (q : ascii) (t : string) :
  lineLacks q t = true ->
  dotStarGreedy (lit (String q EmptyString) accept) t = None.
Proof.
  induction t as [|d t IH]; [done|]. cbn -[lit].
  intros H. apply andb_true_iff in H as [Hd H]. apply negb_true_iff in Hd.
  rewrite Ascii.eqb_sym in Hd.
  destruct (isLineTerminator d); cbn -[lit] in *.
  - by rewrite (lit_first_differs _ _ _ _ _ Hd).
  - rewrite (IH H). by rewrite (lit_first_differs _ _ _ _ _ Hd).
Qed.

(** The greedy star keeps everything up to the last closing character of
    the line. *)
Lemma dotStarGreedy_last_closing (q : ascii) (v t : string) :
  singleLine v = true -> lineLacks q t = true ->
  dotStarGreedy (lit (String q EmptyString) accept) (v +:+ String q t)
  = Some (v, ([], t)).
Proof.
  intros Hv Ht. induction v as [|c v IH].
  - rewrite app_nil_l. cbn -[lit].
    rewrite (dotStarGreedy_lineLacks q t Ht).
    assert (Hk : lit (String q EmptyString) accept (String q t) = Some ([], t)).
    { cbn. by rewrite Ascii.eqb_refl. }
    rewrite Hk. by destruct (isLineTerminator q).
  - cbn in Hv. apply andb_true_iff in Hv as [Hc Hv].
    rewrite app_cons. cbn -[lit]. apply negb_true_iff in Hc. rewrite Hc.
    by rewrite (IH Hv).
Qed.

(** The lazy star stops at the first position where the continuation
    succeeds; on a line it reaches every position. *)
Lemma dotStarLazy_first (k : matcher) (v t : string) (r : result) :
  singleLine v = true ->
  (forall a c b, v = a +:+ String c b -> k (String c (b +:+ t)) = None) ->
  k t = Some r ->
  dotStarLazy k (v +:+ t) = Some (v, r).
Proof.
  intros Hv Hfail Ht. induction v as [|c v IH].
  - rewrite app_nil_l. destruct t; cbn; by rewrite Ht.
  - cbn in Hv. apply andb_true_iff in Hv as [Hc Hv]. apply negb_true_iff in Hc.
    rewrite app_cons. cbn.
    rewrite (Hfail EmptyString c v eq_refl), Hc.
    rewrite IH; [done|done|].
    intros a d b ->. apply (Hfail (String c a) d b). done.
Qed.

Lemma dotStarLazy_reaches (k : matcher) (v t : string) (r : result) :
  singleLine v = true -> k t = Some r ->
  is_Some (dotStarLazy k (v +:+ t)).
Proof.
  intros Hv Ht. induction v as [|c v IH].
  - rewrite app_nil_l. destruct t; cbn; rewrite Ht; by eexists.
  - cbn in Hv. apply andb_true_iff in Hv as [Hc Hv]. apply negb_true_iff in Hc.
    rewrite app_cons. cbn. destruct (k (String c (v +:+ t))); [by eexists|].
    rewrite Hc. destruct (IH Hv) as [[kept r'] ->]. by eexists.
Qed.

(** The search passes over a text in which no match can start. *)
Lemma search_skip (m : matcher) (pre t : string) :
  (forall a c b, pre = a +:+ String c b -> m (String c (b +:+ t)) = None) ->
  search m (pre +:+ t) =
    match search m t with
    | Some (before, at_, r) => Some (pre +:+ before, at_, r)
    | None => None
    end.
Proof.
  induction pre as [|c pre IH]; intros H.
  - rewrite app_nil_l. by destruct (search m t) as [[[? ?] ?]|].
  - rewrite app_cons. cbn. rewrite (H EmptyString c pre eq_refl).
    rewrite IH by (intros a d b ->; by apply (H (String c a) d b)).
    by destruct (search m t) as [[[? ?] ?]|].
Qed.

Lemma lacks_split (c : ascii) (s a b : string) (d : ascii) :
  lacks c s = true -> s = a +:+ String d b -> Ascii.eqb c d = false.
Proof.
  revert s. induction a as [|e a IH]; intros s H ->.
  - rewrite app_nil_l in H. cbn in H. apply andb_true_iff in H as [H _].
    apply negb_true_iff in H. by rewrite Ascii.eqb_sym.
  - rewrite app_cons in H. cbn in H. apply andb_true_iff in H as [_ H].
    by apply (IH _ H).
Qed.

Lemma lacksLetter_split (c : ascii) (s a b : string) (d : ascii) :
  lacksLetter c s = true -> s = a +:+ String d b ->
  Ascii.eqb (canonicalize c) (canonicalize d) = false.
Proof.
  revert s. induction a as [|e a IH]; intros s H ->.
  - rewrite app_nil_l in H. cbn in H. apply andb_true_iff in H as [H _].
    by apply negb_true_iff in H.
  - rewrite app_cons in H. cbn in H. apply andb_true_iff in H as [_ H].
    by apply (IH _ H).
Qed.

Lemma litI_sameLetters (p kw : string) (k : matcher) (s : string) :
  sameLetters kw p = true -> litI p k (kw +:+ s) = k s.
Proof.
  revert kw. induction p as [|c p IH]; intros [|d kw] H; try done.
  cbn in H. apply andb_true_iff in H as [Hc H].
  rewrite app_cons. cbn. rewrite Hc. by apply IH.
Qed.

Lemma lacks_singleLine_app (c : ascii) (s t : string) :
  lacks c (s +:+ t) = lacks c s && lacks c t.
Proof.
  induction s as [|d s IH]; [done|].
  rewrite app_cons. cbn. rewrite IH. by rewrite andb_assoc.
Qed.

End PatternFacts.

(** ** The two filter patterns and the quotes of the id *)

Section FilterProperties.
Import JsString RegExp Js Spec Shape.

(** X1.  The exact-match pattern ignores case and takes the name up to the
    last quote of its line.  For every filter made of a text without the
    letter t, the keyword [tolower(Id) eq] with its opening quote in any
    case, a value of one line, a quote, and a rest with no quote on its first
    line, the pattern captures exactly the value, quotes inside it
    included. *)
Theorem exact_filter_name_to_last_quote (pre kw v tail : string) :
  lacksLetter "t" pre = true ->
  sameLetters kw "tolower(Id) eq '" = true ->
  singleLine v = true ->
  lineLacks "'" tail = true ->
  matchOnePackage (pre +:+ kw +:+ v +:+ "'" +:+ tail) = Some v.
Proof.
  intros Hpre Hkw Hv Htail.
  unfold matchOnePackage, firstGroup, exec.
  rewrite search_skip.
  - assert (Hm : reOnePackage (kw +:+ v +:+ "'" +:+ tail) = Some ([v], tail)).
    { unfold reOnePackage. rewrite litI_sameLetters by done. unfold group.
      change ("'" +:+ tail) with (String "'" tail).
      by rewrite dotStarGreedy_last_closing. }
    by rewrite (search_here _ _ _ Hm).
  - intros a c b E. pose proof (lacksLetter_split _ _ _ _ _ Hpre E) as Hc.
    unfold reOnePackage. cbn -[canonicalize]. by rewrite Hc.
Qed.

Lemma exact_filter_name_to_last_quote_witness :
  matchOnePackage
    ("(" +:+ "TOLOWER(ID) EQ '" +:+ "it's" +:+ "'" +:+ ") and IsLatestVersion")
  = Some "it's".
Proof.
  apply (exact_filter_name_to_last_quote "(" "TOLOWER(ID) EQ '" "it's"
           ") and IsLatestVersion"); vm_compute; reflexivity.
Defined.

(** X2.  The search pattern takes the operand of the first [substringof]
    call.  For every filter made of a text without the letter s, the call
    with a quoted operand and [tolower] of a field, and any rest, where the
    operand has one line and no quote and the field name has one line, the
    pattern captures exactly the operand. *)
Theorem search_filter_operand (pre s field tail : string) :
  lacks "s" pre = true ->
  singleLine s = true -> lacks "'" s = true ->
  singleLine field = true ->
  matchManyPackages
    (pre +:+ "substringof('" +:+ s +:+ "',tolower(" +:+ field +:+ "))" +:+ tail)
  = Some s.
Proof.
  intros Hpre Hs Hq Hfield.
  unfold matchManyPackages, firstGroup, exec.
  rewrite search_skip.
  - assert (Hm : exists caps rest,
               reManyPackages
                 ("substringof('" +:+ s +:+ "',tolower(" +:+ field +:+ "))"
                    +:+ tail)
               = Some (s :: caps, rest)).
    { unfold reManyPackages. rewrite lit_app. unfold group.
      destruct (dotStarLazy_reaches (lit "))" accept) field ("))" +:+ tail)
                  ([], tail) Hfield (lit_app _ _ _)) as [[kept [caps rest]] Hlazy].
      exists caps, rest.
      rewrite (dotStarLazy_first _ s _ (caps, rest)); [done|done| |].
      - intros a c b E. pose proof (lacks_split _ _ _ _ _ Hq E) as Hc.
        exact (lit_first_differs _ _ _ _ _ Hc).
      - rewrite lit_app. unfold nogroup. by rewrite Hlazy. }
    destruct Hm as (caps & rest & Hm). by rewrite (search_here _ _ _ Hm).
  - intros a c b E. pose proof (lacks_split _ _ _ _ _ Hpre E) as Hc.
    exact (lit_first_differs _ _ _ _ _ Hc).
Qed.

Lemma search_filter_operand_witness :
  matchManyPackages (Example.searchFilter "foo bar") = Some "foo bar".
Proof.
  apply (search_filter_operand "(((Id ne null) and " "foo bar" "Id"
           (") or ((Description ne null) and substringof('foo bar',"
            +:+ "tolower(Description)))) or ((Tags ne null) and "
            +:+ "substringof(' foo bar ',tolower(Tags)))"));
    vm_compute; reflexivity.
Defined.

Lemma stripQuotes_no_quote (s : string) :
  lacks "'" s = true -> stripQuotes s = s.
Proof.
  intros Hs. unfold stripQuotes, replaceFirst.
  pose proof (search_skip reQuoted s EmptyString) as H.
  rewrite app_nil_r in H. rewrite H; [done|].
  intros a c b E. pose proof (lacks_split _ _ _ _ _ Hs E) as Hc.
  exact (lit_first_differs _ _ _ _ _ Hc).
Qed.

(** X3.  The id parameter loses one pair of quotes only: the first quote
    and the last quote of the same line.  For every text without quote
    followed by a quoted value of one line and a rest with no quote on its
    first line, the result is the three texts without the two quotes; quotes
    inside the value stay. *)
Theorem stripQuotes_outermost_pair (a v b : string) :
  lacks "'" a = true -> singleLine v = true -> lineLacks "'" b = true ->
  stripQuotes (a +:+ "'" +:+ v +:+ "'" +:+ b) = a +:+ v +:+ b.
Proof.
  intros Ha Hv Hb. unfold stripQuotes, replaceFirst.
  rewrite search_skip.
  - assert (Hm : reQuoted ("'" +:+ v +:+ "'" +:+ b) = Some ([v], b)).
    { unfold reQuoted. rewrite lit_app. unfold group.
      change ("'" +:+ b) with (String "'" b).
      by rewrite dotStarGreedy_last_closing. }
    rewrite (search_here _ _ _ Hm). cbn.
    change (isDigit "1") with true. change (digitValue "1") with 1. cbn.
    by rewrite !app_nil_r.
  - intros x c y E. pose proof (lacks_split _ _ _ _ _ Ha E) as Hc.
    exact (lit_first_differs _ _ _ _ _ Hc).
Qed.

Lemma stripQuotes_outermost_pair_witness :
  stripQuotes ("id:" +:+ "'" +:+ "a'b" +:+ "'" +:+ ";") = "id:" +:+ "a'b" +:+ ";".
Proof.
  apply (stripQuotes_outermost_pair "id:" "a'b" ";"); vm_compute; reflexivity.
Defined.

End FilterProperties.

(** ** The routes *)

Section RouteProperties.
Import JsString RegExp Js Express Spec Shape.

Variable static : StaticFiles.
Variable Buffer_toString : list Byte.byte -> string.
Variable packageMetadataList : list PackageMetadata.

(** The package query on a string filter: the three branches. *)
Lemma packagesHandler_branches (req : request) (filter : string) :
  query req !! "$filter" = Some (QString filter) ->
  serve static Buffer_toString packageMetadataList Packages req =
    if truthyString (matchOnePackage filter) then
      selectionOutcome
        (fun matchedPackages =>
           formatPackages static Buffer_toString matchedPackages req)
        (filterThrowing
           (fun entry =>
              looseEq (fields entry !! "id")
                (default EmptyString (matchOnePackage filter)))
           packageMetadataList)
    else if truthyString (matchManyPackages filter) then
      selectionOutcome
        (fun matchedPackages =>
           formatPackages static Buffer_toString matchedPackages req)
        (filterThrowing
           (searchCallback (default EmptyString (matchManyPackages filter)))
           packageMetadataList)
    else errorFeedResponse (errorAtom static).
Proof.
  intros H. rewrite <- !get_selection.
  unfold serve, get, packagesHandler, filterForOnePackage,
    filterForManyPackages.
  rewrite H. unfold stringReceiver, mbind, Res_bind, mret, Res_ret.
  destruct (truthyString (matchOnePackage filter)); [done|].
  by destruct (truthyString (matchManyPackages filter)).
Qed.

(** Find-packages-by-id on a string parameter: the selection by the
    parameter without its quotes. *)
Lemma findPackagesById_selection (req : request) (raw : string) :
  idParameter (query req !! "id") = Some (QString raw) ->
  serve static Buffer_toString packageMetadataList FindPackagesById req =
    if forallb idPrintable packageMetadataList then
      feedOutcome
        (formatPackages static Buffer_toString
           (List.filter (idEquals (stripQuotes raw)) packageMetadataList) req)
    else exceptionResponse.
Proof.
  intros H.
  transitivity
    (selectionOutcome
       (fun matchedPackages =>
          formatPackages static Buffer_toString matchedPackages req)
       (filterThrowing
          (fun entry => looseEq (fields entry !! "id") (stripQuotes raw))
          packageMetadataList)).
  - rewrite <- get_selection.
    unfold serve, get, findPackagesByIdHandler. rewrite H.
    by unfold stringReceiver, mbind, Res_bind, mret, Res_ret.
  - rewrite selection_by_id.
    by destruct (forallb idPrintable packageMetadataList).
Qed.

(** X4.  For every filter from which the exact-match pattern captures a
    non-empty name: when the id of some record of the list cannot be
    converted to a string, the comparison throws and the package query
    answers the status 500 before any header is set; otherwise it selects
    exactly the records whose id is loosely equal to the name, in list
    order, and answers the feed rendered from them, or the status 500 with
    the feed content type when rendering one of them throws. *)
Theorem exact_filter_outcome (req : request) (filter name : string) :
  query req !! "$filter" = Some (QString filter) ->
  matchOnePackage filter = Some name -> name <> EmptyString ->
  serve static Buffer_toString packageMetadataList Packages req =
    if forallb idPrintable packageMetadataList then
      feedOutcome
        (formatPackages static Buffer_toString
           (List.filter (idEquals name) packageMetadataList) req)
    else exceptionResponse.
Proof.
  intros H Hname Hne. rewrite (packagesHandler_branches req filter H).
  rewrite Hname. destruct name as [|c name]; [done|].
  cbn [truthyString default from_option id]. rewrite selection_by_id.
  by destruct (forallb idPrintable packageMetadataList).
Qed.

(** X5.  For every request whose filter is a text, the package query
    answers the status 400 exactly when neither pattern captures a non-empty
    text, and every answer with the status 400 is the error feed. *)
Theorem bad_request_iff_no_operand (req : request) (filter : string) :
  query req !! "$filter" = Some (QString filter) ->
  (status (serve static Buffer_toString packageMetadataList Packages req) = 400
   <-> truthyString (matchOnePackage filter) = false /\
       truthyString (matchManyPackages filter) = false) /\
  (status (serve static Buffer_toString packageMetadataList Packages req) = 400
   -> serve static Buffer_toString packageMetadataList Packages req
      = errorFeedResponse (errorAtom static)).
Proof.
  intros H. rewrite (packagesHandler_branches req filter H).
  assert (Hsel : forall selected,
            status
              (selectionOutcome
                 (fun matchedPackages =>
                    formatPackages static Buffer_toString matchedPackages req)
                 selected) <> 400).
  { intros [matchedPackages|]; cbn; [|done].
    by destruct (formatPackages _ _ _ _). }
  destruct (truthyString (matchOnePackage filter)).
  { split; [split; [by intros ?%Hsel|by intros []]|by intros ?%Hsel]. }
  destruct (truthyString (matchManyPackages filter)).
  { split; [split; [by intros ?%Hsel|by intros []]|by intros ?%Hsel]. }
  done.
Qed.

(** X6.  Every route answers every request with a body, and the answer is
    one of five: the status 200 with the feed content type or, for a
    download only, the binary content type; the error feed with the status
    400, from the package query only; the answer 404, from the download
    route only; the wrapper's answer 500 without header, from any route but
    the two static ones; the wrapper's answer 500 with the feed content
    type (the rendering threw), from the package query or
    find-packages-by-id only.  The service root and the metadata document
    never fail. *)
Theorem route_response_shape (r : route) (req : request) :
  is_Some (body (serve static Buffer_toString packageMetadataList r req)) /\
  (status (serve static Buffer_toString packageMetadataList r req) = 200 /\
     (headers (serve static Buffer_toString packageMetadataList r req)
        = {[CONTENT_TYPE := ATOM_MIME_TYPE]} \/
      headers (serve static Buffer_toString packageMetadataList r req)
        = {[CONTENT_TYPE := BINARY_MIME_TYPE]} /\ r = Download)
   \/ serve static Buffer_toString packageMetadataList r req
        = errorFeedResponse (errorAtom static) /\ r = Packages
   \/ serve static Buffer_toString packageMetadataList r req
        = notFoundResponse /\ r = Download
   \/ serve static Buffer_toString packageMetadataList r req
        = exceptionResponse /\
      (r = Packages \/ r = FindPackagesById \/ r = Download)
   \/ serve static Buffer_toString packageMetadataList r req
        = renderingExceptionResponse /\
      (r = Packages \/ r = FindPackagesById)).
Proof.
  assert (Hsel : forall selected (r' : route),
            r' = Packages \/ r' = FindPackagesById ->
            let res :=
              selectionOutcome
                (fun matchedPackages =>
                   formatPackages static Buffer_toString matchedPackages req)
                selected in
            is_Some (body res) /\
            (status res = 200 /\
               (headers res = {[CONTENT_TYPE := ATOM_MIME_TYPE]} \/
                headers res = {[CONTENT_TYPE := BINARY_MIME_TYPE]} /\
                r' = Download)
             \/ res = errorFeedResponse (errorAtom static) /\ r' = Packages
             \/ res = notFoundResponse /\ r' = Download
             \/ res = exceptionResponse /\
                (r' = Packages \/ r' = FindPackagesById \/ r' = Download)
             \/ res = renderingExceptionResponse /\
                (r' = Packages \/ r' = FindPackagesById))).
  { intros [matchedPackages|] r' Hr; cbn.
    - destruct (formatPackages _ _ _ _); cbn.
      + split; [by eexists|]. left. split; [done|]. by left.
      + split; [by eexists|]. do 4 right. done.
    - split; [by eexists|]. do 3 right. left. split; [done|].
      destruct Hr as [->| ->]; [by left|right; by left]. }
  destruct r.
  - cbn. split; [by eexists|]. left. split; [done|]. by left.
  - cbn. split; [by eexists|]. left. split; [done|]. by left.
  - destruct (query req !! "$filter") as [[filter|]|] eqn:Hq.
    + rewrite (packagesHandler_branches req filter Hq).
      destruct (truthyString (matchOnePackage filter));
        [apply Hsel; by left|].
      destruct (truthyString (matchManyPackages filter));
        [apply Hsel; by left|].
      split; [by eexists|]. right; left. done.
    + unfold serve, get, packagesHandler, filterForOnePackage. rewrite Hq.
      cbn. split; [by eexists|]. do 3 right. left. split; [done|by left].
    + unfold serve, get, packagesHandler, filterForOnePackage. rewrite Hq.
      cbn. split; [by eexists|]. do 3 right. left. split; [done|by left].
  - destruct (idParameter (query req !! "id")) as [[raw|]|] eqn:Hq.
    + rewrite (findPackagesById_selection req raw Hq).
      destruct (forallb idPrintable packageMetadataList).
      * apply (Hsel (Some _)). by right.
      * apply (Hsel None). by right.
    + unfold serve, get, findPackagesByIdHandler. rewrite Hq.
      cbn. split; [by eexists|]. do 3 right. left.
      split; [done|right; by left].
    + unfold idParameter in Hq. by destruct (query req !! "id") as [[[|]|]|].
  - unfold serve, get, downloadHandler, mbind, Res_bind, orThrow, mret,
      Res_ret, throw.
    destruct (findThrowing _ _) as [[matchedPackage|]|]; cbn.
    + split; [by eexists|]. left. split; [done|]. by right.
    + split; [by eexists|]. right; right; left. done.
    + split; [by eexists|]. do 3 right. left. split; [done|]. by do 2 right.
Qed.

(** X7.  When the id of a record is loosely equal to the requested name and
    the id of every record before it compares unequal, the download route
    serves that record, whatever follows it in the list; a record without
    archive bytes is answered with the status 200, the binary content type
    and an empty body, not with 404. *)
Theorem download_serves_first_match (req : request) (name : string)
    (earlier later : list PackageMetadata) (entry : PackageMetadata) :
  params req !! "name" = Some name ->
  packageMetadataList = earlier ++ entry :: later ->
  (forall other, In other earlier ->
     looseEq (fields other !! "id") name = Some false) ->
  looseEq (fields entry !! "id") name = Some true ->
  serve static Buffer_toString packageMetadataList Download req =
    mkResponse 200 {[CONTENT_TYPE := BINARY_MIME_TYPE]}
      (Some (match nupkgData entry with
             | Some bytes => Binary bytes
             | None => Empty
             end)).
Proof.
  intros Hname -> Hearlier Hentry.
  unfold serve, get, downloadHandler. rewrite Hname.
  unfold mbind, Res_bind, orThrow, mret, Res_ret.
  rewrite (Express_findThrowing_first _ earlier later entry); [done| |done].
  intros y Hy. cbn. by apply Hearlier.
Qed.

(** X8.  For an id parameter without quote, and for a request without id
    parameter (the id is then the empty text), find-packages-by-id compares
    the parameter as it is: when the id of some record of the list cannot
    be converted to a string it answers the status 500 before any header is
    set; otherwise it selects exactly the records whose id is loosely equal
    to the parameter and answers the feed rendered from them, or the status
    500 with the feed content type when rendering one of them throws. *)
Theorem find_by_unquoted_id (req : request) (id : string) :
  query req !! "id" = Some (QString id) \/
    (query req !! "id" = None /\ id = EmptyString) ->
  lacks "'" id = true ->
  serve static Buffer_toString packageMetadataList FindPackagesById req =
    if forallb idPrintable packageMetadataList then
      feedOutcome
        (formatPackages static Buffer_toString
           (List.filter (idEquals id) packageMetadataList) req)
    else exceptionResponse.
Proof.
  intros Hq Hid.
  rewrite (findPackagesById_selection req id).
  - by rewrite (stripQuotes_no_quote id Hid).
  - destruct Hq as [-> | [-> ->]]; [by destruct id|done].
Qed.

(** X26.  For an id parameter made of a quote, a value without line
    terminator and a quote, find-packages-by-id compares the value without
    its quotes: when the id of some record of the list cannot be converted
    to a string it answers the status 500 before any header is set;
    otherwise it selects exactly the records whose id is loosely equal to
    the value and answers the feed rendered from them, or the status 500
    with the feed content type when rendering one of them throws. *)
Theorem find_by_quoted_id (req : request) (v : string) :
  query req !! "id" = Some (QString ("'" +:+ v +:+ "'")) ->
  singleLine v = true ->
  serve static Buffer_toString packageMetadataList FindPackagesById req =
    if forallb idPrintable packageMetadataList then
      feedOutcome
        (formatPackages static Buffer_toString
           (List.filter (idEquals v) packageMetadataList) req)
    else exceptionResponse.
Proof.
  intros Hq Hv.
  rewrite (findPackagesById_selection req ("'" +:+ v +:+ "'")).
  - by rewrite (stripQuotes_quoted v Hv).
  - by rewrite Hq.
Qed.

End RouteProperties.

Section RoutePropertyExamples.
Import JsString RegExp Js Express Spec.

(** The example packages, and the same list after a record whose id has an
    attribute named [toString]. *)
Lemma exact_filter_outcome_witness :
  serve Example.static Example.Buffer_toString Example.localPackages Packages
    (Example.localhost {["$filter" := QString (Example.exactFilter "bar")]} ∅)
  = feedOutcome
      (formatPackages Example.static Example.Buffer_toString
         (List.filter (idEquals "bar") Example.localPackages)
         (Example.localhost
            {["$filter" := QString (Example.exactFilter "bar")]} ∅)) /\
  serve Example.static Example.Buffer_toString
    (Samples.oddId :: Example.localPackages) Packages
    (Example.localhost {["$filter" := QString (Example.exactFilter "bar")]} ∅)
  = exceptionResponse.
Proof.
  assert (Hq : query (Example.localhost
                        {["$filter" := QString (Example.exactFilter "bar")]} ∅)
                 !! "$filter" = Some (QString (Example.exactFilter "bar")))
    by (vm_compute; reflexivity).
  assert (Hm : matchOnePackage (Example.exactFilter "bar") = Some "bar")
    by (vm_compute; reflexivity).
  assert (Hp : forallb idPrintable Example.localPackages = true)
    by (vm_compute; reflexivity).
  assert (Hp' : forallb idPrintable (Samples.oddId :: Example.localPackages)
                = false)
    by (vm_compute; reflexivity).
  split.
  - rewrite (exact_filter_outcome Example.static Example.Buffer_toString
               Example.localPackages _ _ "bar" Hq Hm ltac:(discriminate)).
    by rewrite Hp.
  - rewrite (exact_filter_outcome Example.static Example.Buffer_toString
               (Samples.oddId :: Example.localPackages) _ _ "bar" Hq Hm
               ltac:(discriminate)).
    by rewrite Hp'.
Defined.

Lemma bad_request_iff_no_operand_witness :
  status (serve Example.static Example.Buffer_toString Example.localPackages
            Packages
            (Example.localhost {["$filter" := QString "Id eq 'foo'"]} ∅))
  = 400.
Proof.
  assert (H : query (Example.localhost
                       {["$filter" := QString "Id eq 'foo'"]} ∅) !! "$filter"
              = Some (QString "Id eq 'foo'")) by (vm_compute; reflexivity).
  apply (proj1 (bad_request_iff_no_operand Example.static
                  Example.Buffer_toString Example.localPackages _ _ H)).
  vm_compute. split; reflexivity.
Defined.

Lemma download_serves_first_match_witness :
  serve Example.static Example.Buffer_toString
    [Example.bare; Samples.fooNormalized] Download
    (Example.downloadRequest "foo")
  = mkResponse 200 {[CONTENT_TYPE := BINARY_MIME_TYPE]} (Some Empty).
Proof.
  apply (download_serves_first_match Example.static Example.Buffer_toString
           [Example.bare; Samples.fooNormalized]
           (Example.downloadRequest "foo") "foo" []
           [Samples.fooNormalized] Example.bare).
  - reflexivity.
  - reflexivity.
  - intros other [].
  - vm_compute. reflexivity.
Defined.

Lemma find_by_unquoted_id_witness :
  serve Example.static Example.Buffer_toString Example.localPackages
    FindPackagesById (Example.byIdRequest "bar")
  = feedOutcome
      (formatPackages Example.static Example.Buffer_toString
         (List.filter (idEquals "bar") Example.localPackages)
         (Example.byIdRequest "bar")).
Proof.
  assert (Hp : forallb idPrintable Example.localPackages = true)
    by (vm_compute; reflexivity).
  rewrite (find_by_unquoted_id Example.static Example.Buffer_toString
             Example.localPackages (Example.byIdRequest "bar") "bar").
  - by rewrite Hp.
  - left. vm_compute. reflexivity.
  - vm_compute. reflexivity.
Defined.

Lemma find_by_quoted_id_witness :
  serve Example.static Example.Buffer_toString Example.localPackages
    FindPackagesById (Example.byIdRequest "'bar'")
  = feedOutcome
      (formatPackages Example.static Example.Buffer_toString
         [Example.barNormalized] (Example.byIdRequest "'bar'")).
Proof.
  assert (Hp : forallb idPrintable Example.localPackages = true)
    by (vm_compute; reflexivity).
  assert (Hf : List.filter (idEquals "bar") Example.localPackages
               = [Example.barNormalized])
    by (vm_compute; reflexivity).
  rewrite (find_by_quoted_id Example.static Example.Buffer_toString
             Example.localPackages (Example.byIdRequest "'bar'") "bar").
  - by rewrite Hp, Hf.
  - vm_compute. reflexivity.
  - vm_compute. reflexivity.
Defined.

End RoutePropertyExamples.

(** ** Normalisation *)

Section NormalizerProperties.
Import JsString Js Normalizer Spec Shape.

Lemma startsWith_app_l (s t p : string) :
  startsWith s p = true -> startsWith (s +:+ t) p = true.
Proof.
  intros H. apply startsWith_inv in H as [u ->].
  rewrite app_assoc. apply startsWith_app.
Qed.

Lemma endsWith_app (s p : string) : endsWith (s +:+ p) p = true.
Proof.
  induction s as [|c s IH].
  - rewrite app_nil_l. destruct p; cbn; rewrite ?Ascii.eqb_refl, ?String.eqb_refl; done.
  - rewrite app_cons. cbn. rewrite IH. apply orb_true_r.
Qed.

(** X9.  The prefix the routes are registered under starts and ends with a
    slash, whatever prefix is given; normalising it again changes nothing,
    and a prefix that starts and ends with a slash is kept as it is. *)
Theorem normalizePrefix_slashes (prefix : string) :
  startsWith (normalizePrefix prefix) "/" = true /\
  endsWith (normalizePrefix prefix) "/" = true /\
  normalizePrefix (normalizePrefix prefix) = normalizePrefix prefix /\
  (startsWith prefix "/" = true -> endsWith prefix "/" = true ->
   normalizePrefix prefix = prefix).
Proof.
  assert (Hfix : forall p, startsWith p "/" = true -> endsWith p "/" = true ->
                           normalizePrefix p = p).
  { intros p H1 H2. unfold normalizePrefix. by rewrite H1, H2. }
  assert (Hs : startsWith (normalizePrefix prefix) "/" = true).
  { unfold normalizePrefix.
    destruct (startsWith prefix "/") eqn:E.
    - destruct (endsWith prefix "/"); [done|]. by apply startsWith_app_l.
    - destruct (endsWith ("/" +:+ prefix) "/"); [done|]. done. }
  assert (He : endsWith (normalizePrefix prefix) "/" = true).
  { unfold normalizePrefix.
    set (prefix1 := if startsWith prefix "/" then prefix else "/" +:+ prefix).
    cbv zeta. destruct (endsWith prefix1 "/") eqn:E; [done|].
    apply endsWith_app. }
  split; [done|]. split; [done|]. split; [by apply Hfix|apply Hfix].
Qed.

Lemma setField_id (key : string) (v : value) (entry : PackageMetadata) :
  fields entry !! key = Some v -> setField key v entry = entry.
Proof.
  intros H. destruct entry as [f d]. unfold setField. cbn in *.
  by rewrite insert_id.
Qed.

Lemma preprocessEntry_url (prefix : string) (entry entry' : PackageMetadata) :
  preprocessEntry prefix entry = Some entry' ->
  match nupkgData entry with
  | Some _ =>
      exists id,
        toStringField (fields entry !! "id") = Some id /\
        fields entry' !! "url" =
          Some (VText ("{EXPRESS_URL_ROOT}" +:+ prefix +:+ "download/"
                         +:+ id))
  | None => fields entry' !! "url" = fields entry !! "url"
  end.
Proof.
  unfold preprocessEntry. destruct (flatDeps entry) as [flat_deps|]; [|done].
  cbn. destruct (flatTags _) as [flat_tags|]; [|done]. cbn.
  destruct (nupkgData entry) eqn:Hdata; cbn.
  - unfold downloadUrl. cbn. rewrite !lookup_insert_ne by done.
    destruct (toStringField (fields entry !! "id")) as [id|]; [|done]. cbn.
    intros [= <-]. exists id. split; [done|]. cbn.
    by rewrite lookup_insert_eq.
  - intros [= <-]. cbn. by rewrite !lookup_insert_ne by done.
Qed.

Lemma preprocessEntry_idempotent (prefix : string)
    (entry entry' : PackageMetadata) :
  preprocessEntry prefix entry = Some entry' ->
  preprocessEntry prefix entry' = Some entry'.
Proof.
  intros H. pose proof (preprocessEntry_url _ _ _ H) as Hurl.
  apply preprocessEntry_Some in H
    as (fd & ft & Hfd & Hft & Hdeps & Htags & Hdata & Hother).
  assert (Hfd' : flatDeps entry' = Some fd).
  { unfold flatDeps in *. by rewrite (Hother "dependencies"). }
  assert (Hft' : forall e, fields e !! "tags" = fields entry !! "tags" ->
                           flatTags e = Some ft).
  { intros e He. unfold flatTags in *. by rewrite He. }
  unfold preprocessEntry. rewrite Hfd'. cbn.
  rewrite (setField_id "_flat_deps" _ entry' Hdeps).
  rewrite (Hft' entry') by by rewrite (Hother "tags").
  cbn. rewrite (setField_id "_flat_tags" _ entry' Htags).
  rewrite Hdata. destruct (nupkgData entry); [|done].
  destruct Hurl as (id & Hid & Hurl).
  unfold downloadUrl. rewrite (Hother "id"), Hid by done. cbn.
  by rewrite (setField_id "url" _ entry' Hurl).
Qed.

(** X10.  Normalising, with the same prefix, a list that normalisation
    returned gives the same list: configuring routes a second time over the
    same records changes none of them. *)
Theorem normalisation_idempotent (prefix : string)
    (packageMetadataList normalized : list PackageMetadata) :
  preprocessPackageMetadata prefix packageMetadataList = Some normalized ->
  preprocessPackageMetadata prefix normalized = Some normalized.
Proof.
  unfold preprocessPackageMetadata. intros H. apply mapM_Some in H.
  apply mapM_Some. induction H as [|x y l k Hxy _ IH]; constructor; [|done].
  by apply (preprocessEntry_idempotent prefix x y).
Qed.

Lemma preprocessEntry_None (prefix : string) (entry : PackageMetadata) :
  preprocessEntry prefix entry = None <-> normalizable entry = false.
Proof.
  pose proof (preprocessEntry_normalizable prefix entry) as H.
  destruct (preprocessEntry prefix entry) as [entry'|];
    destruct (normalizable entry); split; try done.
  - intros _. by pose proof (proj1 H (ex_intro _ entry' eq_refl)).
  - intros _. by destruct (proj2 H eq_refl).
Qed.

(** The three ways in which a record is not normalizable. *)
Lemma normalizable_false (entry : PackageMetadata) :
  normalizable entry = false <->
  (exists c s, fields entry !! "dependencies" = Some (VText (String c s))) \/
  printable (fields entry !! "tags") = false \/
  (is_Some (nupkgData entry) /\ printable (fields entry !! "id") = false).
Proof.
  unfold normalizable, dependenciesMappable.
  destruct (fields entry !! "dependencies") as [[[|c s]|deps]|]; cbn;
    destruct (printable (fields entry !! "tags")); cbn;
    destruct (nupkgData entry) as [bytes|]; cbn;
    destruct (printable (fields entry !! "id")); cbn;
    split; try done; try (intros _; by eauto);
    intros [(? & ? & ?)|[?|[[? ?] ?]]]; done.
Qed.

Lemma preprocessPackageMetadata_None (prefix : string)
    (packageMetadataList : list PackageMetadata) :
  preprocessPackageMetadata prefix packageMetadataList = None <->
  exists entry, In entry packageMetadataList /\ normalizable entry = false.
Proof.
  unfold preprocessPackageMetadata.
  induction packageMetadataList as [|x l IH].
  - split; [done|]. by intros (? & [] & ?).
  - cbn. destruct (preprocessEntry prefix x) as [y|] eqn:Ex; cbn.
    + destruct (mapM (preprocessEntry prefix) l) as [k|]; cbn.
      * split; [done|]. intros (entry & [<-|Hin] & Hn).
        -- apply (preprocessEntry_None prefix) in Hn. by rewrite Hn in Ex.
        -- assert (Some k = None) as E; [|done].
           apply IH. by exists entry.
      * split; [|done]. intros _.
        destruct (proj1 IH eq_refl) as (entry & Hin & Hn).
        exists entry. split; [by right|done].
    + split; [|done]. intros _.
      apply preprocessEntry_None in Ex.
      exists x. split; [by left|done].
Qed.

Lemma configureRoutes_None (static : StaticFiles)
    (Buffer_toString : list Byte.byte -> string) (prefix : string)
    (packageMetadataList : list PackageMetadata) :
  configureRoutes static Buffer_toString prefix packageMetadataList = None <->
  preprocessPackageMetadata (normalizePrefix prefix) packageMetadataList = None.
Proof.
  unfold configureRoutes. by destruct (preprocessPackageMetadata _ _).
Qed.

(** X11.  Given the static files, [configureRoutes] throws exactly when
    some record of the list has a non-empty text under [dependencies], or
    tags that cannot be converted to a string, or archive bytes together
    with an id that cannot be converted to a string (a list that holds an
    element with an attribute named [toString]); every other list is
    accepted. *)
Theorem normalisation_throws_iff (static : StaticFiles)
    (Buffer_toString : list Byte.byte -> string) (prefix : string)
    (packageMetadataList : list PackageMetadata) :
  configureRoutes static Buffer_toString prefix packageMetadataList = None <->
  exists entry,
    In entry packageMetadataList /\
    ((exists c s,
        fields entry !! "dependencies" = Some (VText (String c s))) \/
     printable (fields entry !! "tags") = false \/
     (is_Some (nupkgData entry) /\
      printable (fields entry !! "id") = false)).
Proof.
  rewrite configureRoutes_None, preprocessPackageMetadata_None.
  split; intros (entry & Hin & H); exists entry; (split; [done|]);
    by apply normalizable_false.
Qed.

(** X12.  Normalisation keeps the number and the order of the records and,
    in each record, the archive bytes and every field other than
    [_flat_deps], [_flat_tags] and [url]; after it every record has a text
    under [_flat_deps] and under [_flat_tags]. *)
Theorem normalisation_keeps_records (prefix : string)
    (packageMetadataList normalized : list PackageMetadata) :
  preprocessPackageMetadata prefix packageMetadataList = Some normalized ->
  length normalized = length packageMetadataList /\
  forall i entry', normalized !! i = Some entry' ->
    exists entry,
      packageMetadataList !! i = Some entry /\
      nupkgData entry' = nupkgData entry /\
      (forall key, key <> "_flat_deps" -> key <> "_flat_tags" -> key <> "url" ->
         fields entry' !! key = fields entry !! key) /\
      is_Some (textField "_flat_deps" entry') /\
      is_Some (textField "_flat_tags" entry').
Proof.
  unfold preprocessPackageMetadata. intros H. apply mapM_Some in H.
  split; [symmetry; by eapply Forall2_length|].
  intros i entry' Hi.
  destruct (Forall2_lookup_r _ _ _ _ _ H Hi) as (entry & Hentry & Hpre).
  exists entry. split; [done|].
  apply preprocessEntry_Some in Hpre
    as (fd & ft & _ & _ & Hdeps & Htags & Hdata & Hother).
  unfold textField. rewrite Hdeps, Htags. by eauto.
Qed.

(** X13.  After normalisation the [url] of a record with archive bytes is
    the root placeholder, the prefix, [download/] and the record's id as a
    template literal prints it, whatever url the record had; the [url] of a
    record without archive bytes is untouched. *)
Theorem normalisation_download_url (prefix : string)
    (packageMetadataList normalized : list PackageMetadata)
    (i : nat) (entry entry' : PackageMetadata) :
  preprocessPackageMetadata prefix packageMetadataList = Some normalized ->
  packageMetadataList !! i = Some entry ->
  normalized !! i = Some entry' ->
  match nupkgData entry with
  | Some _ =>
      exists id,
        toStringField (fields entry !! "id") = Some id /\
        fields entry' !! "url" =
          Some (VText ("{EXPRESS_URL_ROOT}" +:+ prefix +:+ "download/"
                         +:+ id))
  | None => fields entry' !! "url" = fields entry !! "url"
  end.
Proof.
  unfold preprocessPackageMetadata. intros H Hi Hi'. apply mapM_Some in H.
  destruct (Forall2_lookup_l _ _ _ _ _ H Hi) as (y & Hy & Hpre).
  rewrite Hi' in Hy. injection Hy as <-.
  by apply preprocessEntry_url.
Qed.

Lemma tag_in_padded_tags (s : string) (tokens : list string) :
  In s tokens ->
  occursIn (" " +:+ s +:+ " ") (" " +:+ join " " tokens +:+ " ").
Proof.
  induction tokens as [|t rest IH]; [done|].
  destruct rest as [|t' rest].
  - intros [->|[]]. rewrite join_one. exists EmptyString, EmptyString.
    by rewrite app_nil_l, !app_assoc, app_nil_r.
  - rewrite join_cons_cons. intros [->|Hin].
    + exists EmptyString, (join " " (t' :: rest) +:+ " ").
      by rewrite app_nil_l, !app_assoc.
    + destruct (IH Hin) as (x & y & E).
      exists (" " +:+ t +:+ x), y.
      replace (" " +:+ (t +:+ " " +:+ join " " (t' :: rest)) +:+ " ")
        with ((" " +:+ t) +:+ (" " +:+ join " " (t' :: rest) +:+ " "))
        by (by rewrite !app_assoc).
      rewrite E. by rewrite !app_assoc.
Qed.

(** X14.  A normalised record with a text id and a text summary whose tags
    are tokens joined by single spaces is matched by the search callback for
    each of its non-empty tokens, whatever the two texts are. *)
Theorem whole_tag_is_found (prefix : string) (entry entry' : PackageMetadata)
    (tokens : list string) (s : string) :
  preprocessEntry prefix entry = Some entry' ->
  fields entry !! "tags" = Some (VText (join " " tokens)) ->
  In s tokens -> s <> EmptyString ->
  is_Some (textField "id" entry) ->
  is_Some (textField "summary" entry) ->
  searchCallback s entry' = Some true.
Proof.
  intros Hpre Htags Hin Hs [id Hid] [summary Hsum].
  apply preprocessEntry_Some in Hpre
    as (fd & ft & _ & Hft & _ & Hflat & _ & Hother).
  pose proof (tag_in_padded_tags s tokens Hin) as Hocc.
  assert (Hne : join " " tokens <> EmptyString).
  { intros E. rewrite E in Hocc. destruct Hocc as (x & y & Hxy).
    apply (f_equal len) in Hxy. rewrite !len_app in Hxy.
    destruct s; [done|]. unfold len in Hxy. cbn in Hxy. lia. }
  assert (Hflat' : fields entry' !! "_flat_tags"
                   = Some (VText (" " +:+ join " " tokens +:+ " "))).
  { rewrite Hflat. unfold flatTags in Hft. rewrite Htags in Hft.
    destruct (join " " tokens); [done|]. cbn in Hft. by injection Hft as <-. }
  unfold textField in Hid, Hsum. unfold searchCallback.
  rewrite (Hother "id"), (Hother "summary") by done. rewrite Hflat'.
  destruct (fields entry !! "id") as [[?|?]|]; try done.
  destruct (fields entry !! "summary") as [[?|?]|]; try done.
  cbn. destruct (includes _ s); [done|]. cbn. destruct (includes _ s); [done|].
  cbn. apply includes_correct in Hocc. by rewrite Hocc.
Qed.

End NormalizerProperties.

Section NormalizerPropertyExamples.
Import JsString Js Normalizer Spec.

Lemma normalizePrefix_slashes_witness :
  normalizePrefix "/choco/" = "/choco/".
Proof.
  apply (proj2 (proj2 (proj2 (normalizePrefix_slashes "/choco/"))));
    vm_compute; reflexivity.
Defined.

Lemma normalisation_idempotent_witness :
  preprocessPackageMetadata "/" Example.localPackages
  = Some Example.localPackages.
Proof.
  apply (normalisation_idempotent "/" [Example.foo; Example.bar]).
  vm_compute. reflexivity.
Defined.

(** A record with text dependencies, and a record whose tags have an
    attribute named [toString]. *)
Lemma normalisation_throws_iff_witness :
  configureRoutes Example.static Example.Buffer_toString "/"
    [Example.foo; Samples.textDependencies]
  = None /\
  configureRoutes Example.static Example.Buffer_toString "/"
    [Example.foo; Samples.oddTags]
  = None.
Proof.
  split.
  - apply (proj2 (normalisation_throws_iff Example.static
                    Example.Buffer_toString "/"
                    [Example.foo; Samples.textDependencies])).
    exists Samples.textDependencies.
    split; [right; left; reflexivity|].
    left. exists "n"%char, "one". vm_compute. reflexivity.
  - apply (proj2 (normalisation_throws_iff Example.static
                    Example.Buffer_toString "/"
                    [Example.foo; Samples.oddTags])).
    exists Samples.oddTags.
    split; [right; left; reflexivity|].
    right. left. vm_compute. reflexivity.
Defined.

Lemma normalisation_keeps_records_witness :
  length Example.localPackages = 2.
Proof.
  apply (proj1 (normalisation_keeps_records "/" [Example.foo; Example.bar]
                  Example.localPackages ltac:(vm_compute; reflexivity))).
Defined.

Lemma normalisation_download_url_witness :
  exists id,
    toStringField (fields Example.bar !! "id") = Some id /\
    fields Example.barNormalized !! "url"
    = Some (VText ("{EXPRESS_URL_ROOT}" +:+ "/" +:+ "download/" +:+ id)).
Proof.
  apply (normalisation_download_url "/" [Example.foo; Example.bar]
           Example.localPackages 1 Example.bar Example.barNormalized);
    vm_compute; reflexivity.
Defined.

Lemma whole_tag_is_found_witness :
  searchCallback "tools" Samples.fooNormalized = Some true.
Proof.
  apply (whole_tag_is_found "/" Example.foo Samples.fooNormalized
           ["cli"; "tools"] "tools").
  - vm_compute. reflexivity.
  - vm_compute. reflexivity.
  - right. left. reflexivity.
  - discriminate.
  - exists "foo". vm_compute. reflexivity.
  - exists "a tool". vm_compute. reflexivity.
Defined.

End NormalizerPropertyExamples.

(** ** Rendering *)

Section GlobalReplaceFacts.
Import JsString RegExp Js Express Spec Shape.

(** The global pass copies a text in which no match can start. *)
Lemma replaceAllFrom_copy (m : matcher) (r : replacement) (str x t : string)
    (position : nat) :
  (forall a c b, x = a +:+ String c b -> m (String c (b +:+ t)) = None) ->
  replaceAllFrom m r str 0 position (x +:+ t)
  = x +:+ replaceAllFrom m r str 0 (position + len x) t.
Proof.
  revert position. induction x as [|c x IH]; intros position H.
  - rewrite !app_nil_l. unfold len. cbn. by rewrite Nat.add_0_r.
  - rewrite !app_cons. cbn [replaceAllFrom].
    rewrite (H EmptyString c x eq_refl).
    rewrite IH by (intros a d b ->; by apply (H (String c a) d b)).
    unfold len. cbn. by rewrite Nat.add_succ_r.
Qed.

(** It passes over the text of a match. *)
Lemma replaceAllFrom_skip (m : matcher) (r : replacement) (str x t : string)
    (position : nat) :
  replaceAllFrom m r str (len x) position (x +:+ t)
  = replaceAllFrom m r str 0 (position + len x) t.
Proof.
  revert position. induction x as [|c x IH]; intros position.
  - rewrite app_nil_l. unfold len. cbn. by rewrite Nat.add_0_r.
  - rewrite app_cons. unfold len in *. cbn. rewrite IH.
    by rewrite Nat.add_succ_r.
Qed.

(** The same two facts for a replacer function. *)
Lemma replaceAllWithFrom_copy (m : matcher) (f : replacer) (x t : string) :
  (forall a c b, x = a +:+ String c b -> m (String c (b +:+ t)) = None) ->
  replaceAllWithFrom m f 0 (x +:+ t)
  = (fun rest => x +:+ rest) <$> replaceAllWithFrom m f 0 t.
Proof.
  induction x as [|c x IH]; intros H.
  - rewrite !app_nil_l. by destruct (replaceAllWithFrom m f 0 t).
  - rewrite !app_cons. cbn [replaceAllWithFrom].
    rewrite (H EmptyString c x eq_refl).
    rewrite IH by (intros a d b ->; by apply (H (String c a) d b)).
    by destruct (replaceAllWithFrom m f 0 t).
Qed.

Lemma replaceAllWithFrom_skip (m : matcher) (f : replacer) (x t : string) :
  replaceAllWithFrom m f (len x) (x +:+ t) = replaceAllWithFrom m f 0 t.
Proof.
  induction x as [|c x IH].
  - by rewrite app_nil_l.
  - rewrite app_cons. unfold len in *. cbn. by rewrite IH.
Qed.

Lemma replaceAllWithFrom_copy_all (m : matcher) (f : replacer) (x : string) :
  (forall a c b, x = a +:+ String c b -> m (String c b) = None) ->
  m EmptyString = None ->
  replaceAllWithFrom m f 0 x = Some x.
Proof.
  intros H Hm. pose proof (replaceAllWithFrom_copy m f x EmptyString) as E.
  rewrite app_nil_r in E. rewrite E.
  - cbn. rewrite Hm. cbn. by rewrite app_nil_r.
  - intros a c b Hx. rewrite app_nil_r. by apply (H a c b).
Qed.

Variable Buffer_toString : list Byte.byte -> string.

(** A pass whose replacer never throws returns. *)
Lemma replaceAllWithFrom_is_Some (m : matcher) (f : replacer) (s : string)
    (skip : nat) :
  (forall matched captures, is_Some (f matched captures)) ->
  is_Some (replaceAllWithFrom m f skip s).
Proof.
  intros Hf. revert skip. induction s as [|c s IH]; intros skip.
  - destruct skip; [|by eexists]. cbn [replaceAllWithFrom].
    destruct (m EmptyString) as [[caps rest]|]; [|by eexists]. cbv zeta.
    destruct (Hf (take (len EmptyString - len rest) EmptyString) caps)
      as [value ->].
    by eexists.
  - destruct skip as [|skip]; cbn [replaceAllWithFrom]; [|apply IH].
    destruct (m (String c s)) as [[caps rest]|].
    + cbv zeta.
      destruct (Hf (take (len (String c s) - len rest) (String c s)) caps)
        as [value ->].
      cbn [mbind option_bind].
      destruct (len (String c s) - len rest) as [|n].
      * destruct (IH 0) as [following ->]. by eexists.
      * destruct (IH n) as [following ->]. by eexists.
    + destruct (IH 0) as [following ->]. by eexists.
Qed.

Lemma fieldReplacer_key (entry : PackageMetadata) (matched key : string) :
  fieldReplacer Buffer_toString entry matched [key]
  = propertyText Buffer_toString entry key.
Proof. reflexivity. Qed.

Lemma substituteFields_no_brace (t : string) (entry : PackageMetadata) :
  lacks "{" t = true -> substituteFields Buffer_toString t entry = Some t.
Proof.
  intros Ht. unfold substituteFields, replaceAllWith.
  apply replaceAllWithFrom_copy_all; [|done].
  intros a c b E. pose proof (lacks_split _ _ _ _ _ Ht E) as Hc.
  exact (lit_first_differs _ _ _ _ _ Hc).
Qed.

(** The first placeholder of a template: what is before it is copied, the
    placeholder becomes the property's text, and the pass goes on after the
    closing brace; an exception of either ends the pass. *)
Lemma substituteFields_first_hole (pre key rest : string)
    (entry : PackageMetadata) :
  lacks "{" pre = true -> singleLine key = true -> lineLacks "}" rest = true ->
  substituteFields Buffer_toString (pre +:+ "{" +:+ key +:+ "}" +:+ rest) entry
  = text ← propertyText Buffer_toString entry key;
    rendered ← substituteFields Buffer_toString rest entry;
    Some (pre +:+ text +:+ rendered).
Proof.
  intros Hpre Hkey Hrest. unfold substituteFields, replaceAllWith.
  rewrite replaceAllWithFrom_copy.
  2:{ intros a c b E. pose proof (lacks_split _ _ _ _ _ Hpre E) as Hc.
      exact (lit_first_differs _ _ _ _ _ Hc). }
  assert (Hm : reField (String "{" (key +:+ String "}" rest))
               = Some ([key], rest)).
  { unfold reField.
    change (String "{" (key +:+ String "}" rest))
      with ("{" +:+ key +:+ String "}" rest).
    rewrite lit_app. unfold group.
    by rewrite (dotStarGreedy_last_closing "}" key rest Hkey Hrest). }
  change ("{" +:+ key +:+ "}" +:+ rest)
    with (String "{" (key +:+ String "}" rest)).
  cbn [replaceAllWithFrom]. rewrite Hm.
  assert (Hn : len (String "{" (key +:+ String "}" rest)) - len rest
               = S (len (key +:+ "}"))).
  { change (String "{" (key +:+ String "}" rest))
      with ("{" +:+ key +:+ "}" +:+ rest).
    rewrite !len_app. unfold len. cbn. lia. }
  rewrite Hn. cbv beta iota zeta.
  change (key +:+ String "}" rest) with (key +:+ "}" +:+ rest).
  rewrite <- app_assoc, replaceAllWithFrom_skip.
  rewrite fieldReplacer_key.
  destruct (propertyText Buffer_toString entry key) as [text|];
    cbn [mbind option_bind fmap option_fmap option_map]; [|done].
  destruct (replaceAllWithFrom reField (fieldReplacer Buffer_toString entry)
              0 rest) as [rendered|];
    cbn [mbind option_bind fmap option_fmap option_map]; done.
Qed.

(** X15.  Rendering a template that is cut at its placeholders as the field
    pattern cuts it replaces every placeholder by the text of the record's
    property under the captured key, or by nothing when the property is
    falsy, and copies the text in between unchanged; it throws when one of
    these properties cannot be converted to a string.  The example cuts the
    repository's entry template into its 22 placeholders. *)
Theorem substituteFields_holes (holes : list (string * string)) (tail : string)
    (entry : PackageMetadata) :
  holesShaped holes tail = true ->
  substituteFields Buffer_toString (holesSource holes tail) entry
  = holesRendered (propertyText Buffer_toString entry) holes tail.
Proof.
  induction holes as [|[pre key] holes IH];
    cbn [holesSource holesRendered holesShaped].
  - apply substituteFields_no_brace.
  - intros H. apply andb_true_iff in H as [H Hshaped].
    apply andb_true_iff in H as [H Hrest].
    apply andb_true_iff in H as [Hpre Hkey].
    rewrite substituteFields_first_hole by done. by rewrite IH.
Qed.

End GlobalReplaceFacts.

Section HolesWitness.
Import JsString RegExp Js Express Spec Shape.

(** The entry template, rendered for a record with text fields and for a
    record whose authors cannot be converted to a string. *)
Lemma substituteFields_holes_witness :
  holesSource entryTemplateHoles entryTemplateTail = entryTemplateAtom /\
  substituteFields Example.Buffer_toString entryTemplateAtom Example.foo
  = holesRendered (propertyText Example.Buffer_toString Example.foo)
      entryTemplateHoles entryTemplateTail /\
  substituteFields Example.Buffer_toString entryTemplateAtom Samples.oddAuthors
  = None.
Proof.
  assert (E : holesSource entryTemplateHoles entryTemplateTail = entryTemplateAtom)
    by (vm_compute; reflexivity).
  split; [exact E|]. rewrite <- E. split.
  - apply (substituteFields_holes Example.Buffer_toString entryTemplateHoles
             entryTemplateTail Example.foo).
    vm_compute. reflexivity.
  - rewrite (substituteFields_holes Example.Buffer_toString entryTemplateHoles
               entryTemplateTail Samples.oddAuthors)
      by (vm_compute; reflexivity).
    vm_compute. reflexivity.
Defined.

End HolesWitness.

Section LiteralPatternFacts.
Import JsString RegExp Js Express Spec Shape.

Lemma lit_accept_startsWith (p s : string) :
  startsWith s p = false -> lit p accept s = None.
Proof.
  revert s. induction p as [|c p IH]; intros s; [done|].
  destruct s as [|d s]; [done|]. cbn.
  destruct (Ascii.eqb c d); [apply IH|done].
Qed.

Lemma includes_false_inv (s p : string) :
  includes s p = false ->
  startsWith s p = false /\
  match s with String _ s' => includes s' p = false | EmptyString => True end.
Proof.
  destruct s; cbn; intros H; apply orb_false_iff in H as [? ?]; done.
Qed.

Lemma take_app_len (p t : string) : take (len p) (p +:+ t) = p.
Proof.
  induction p as [|c p IH]; [by destruct t|].
  rewrite app_cons. unfold len in *. cbn. by rewrite IH.
Qed.

(** A pattern whose first character does not come back in it cannot
    overlap a later occurrence of itself. *)
Lemma no_overlap (c : ascii) (p t x w : string) :
  lacks c p = true -> p +:+ t = x +:+ String c w -> len p <= len x.
Proof.
  revert x. induction p as [|e p IH]; intros x Hp H; [unfold len; cbn; lia|].
  cbn in Hp. apply andb_true_iff in Hp as [He Hp]. apply negb_true_iff in He.
  destruct x as [|d x].
  - rewrite app_nil_l, app_cons in H. injection H as -> _.
    by rewrite Ascii.eqb_refl in He.
  - rewrite !app_cons in H. injection H as _ H.
    pose proof (IH x Hp H). unfold len in *. cbn. lia.
Qed.

(** Before the first occurrence of such a pattern no match starts. *)
Lemma lit_fails_before (c : ascii) (p a b : string) :
  lacks c p = true -> includes a (String c p) = false ->
  forall a1 d a2, a = a1 +:+ String d a2 ->
    lit (String c p) accept (String d (a2 +:+ String c p +:+ b)) = None.
Proof.
  intros Hp. induction a as [|e a IH]; intros Ha a1 d a2 E.
  - by destruct a1.
  - apply includes_false_inv in Ha as [Hstart Ha].
    destruct a1 as [|e1 a1].
    + rewrite app_nil_l in E. injection E as <- <-.
      destruct (lit (String c p) accept (String e (a +:+ String c p +:+ b)))
        as [r|] eqn:Hm; [|done].
      apply lit_inv in Hm as (t & Ht & _).
      rewrite app_cons in Ht. injection Ht as -> Ht.
      symmetry in Ht.
      pose proof (no_overlap c p t a (p +:+ b) Hp Ht) as Hle.
      assert (Hle' : len (String c p) <= len (String c a))
        by (unfold len in *; cbn; lia).
      assert (Hcut : String c p +:+ t = String c a +:+ (String c p +:+ b)).
      { rewrite !app_cons. by rewrite Ht. }
      destruct (app_eq_app_le _ _ _ _ Hcut Hle') as (z & Hz & _).
      rewrite Hz, startsWith_app in Hstart. done.
    + rewrite app_cons in E. injection E as _ ->. by apply (IH Ha a1 d a2).
Qed.

Lemma search_first_lit (c : ascii) (p a b : string) :
  lacks c p = true -> includes a (String c p) = false ->
  search (lit (String c p) accept) (a +:+ String c p +:+ b)
  = Some (a, String c p +:+ b, ([], b)).
Proof.
  intros Hp Ha. rewrite search_skip.
  - rewrite (search_here _ _ ([], b)) by apply lit_app. by rewrite app_nil_r.
  - intros a1 d a2 E. by apply (lit_fails_before c p a b Hp Ha a1 d a2).
Qed.

Lemma search_none_lit (p s : string) :
  includes s p = false -> search (lit p accept) s = None.
Proof.
  induction s as [|d s IH]; intros H; apply includes_false_inv in H as [H1 H2].
  - cbn. by rewrite (lit_accept_startsWith _ _ H1).
  - cbn. rewrite (lit_accept_startsWith _ _ H1). by rewrite (IH H2).
Qed.

Lemma replaceFirst_none (p : string) (r : replacement) (s : string) :
  includes s p = false -> replaceFirst (lit p accept) r s = s.
Proof. intros H. unfold replaceFirst. by rewrite (search_none_lit _ _ H). Qed.

Lemma replaceFirst_first (c : ascii) (p : string) (r : replacement) (a b : string) :
  lacks c p = true -> includes a (String c p) = false ->
  replaceFirst (lit (String c p) accept) r (a +:+ String c p +:+ b)
  = a +:+ replaceValue r (String c p) (a +:+ String c p +:+ b) (len a) []
      +:+ b.
Proof.
  intros Hp Ha. unfold replaceFirst. rewrite (search_first_lit c p a b Hp Ha).
  unfold matchedText. rewrite len_app.
  replace (len (String c p) + len b - len b) with (len (String c p)) by lia.
  by rewrite take_app_len.
Qed.

Lemma replaceAllFrom_none (p : string) (r : replacement) (str s : string)
    (position : nat) :
  includes s p = false ->
  replaceAllFrom (lit p accept) r str 0 position s = s.
Proof.
  revert position. induction s as [|d s IH]; intros position H;
    apply includes_false_inv in H as [H1 H2]; cbn.
  - by rewrite (lit_accept_startsWith _ _ H1).
  - rewrite (lit_accept_startsWith _ _ H1). by rewrite (IH _ H2).
Qed.

(** The global pass on a subject that holds the pattern once. *)
Lemma replaceAll_single (c : ascii) (p : string) (r : replacement)
    (pre post : string) :
  lacks c p = true ->
  includes pre (String c p) = false -> includes post (String c p) = false ->
  replaceAll (lit (String c p) accept) r (pre +:+ String c p +:+ post)
  = pre +:+ replaceValue r (String c p) (pre +:+ String c p +:+ post)
              (len pre) []
        +:+ post.
Proof.
  intros Hp Hpre Hpost. unfold replaceAll.
  rewrite replaceAllFrom_copy
    by (intros a1 d a2 E; by apply (lit_fails_before c p pre post Hp Hpre a1 d a2)).
  f_equal. rewrite app_cons. cbn [replaceAllFrom].
  change (String c (p +:+ post)) with (String c p +:+ post).
  rewrite lit_app. unfold accept. cbv beta iota. rewrite len_app.
  replace (len (String c p) + len post - len post) with (len (String c p))
    by lia.
  rewrite take_app_len. change (0 + len pre) with (len pre).
  f_equal. change (len (String c p)) with (S (len p)). cbv beta iota.
  rewrite replaceAllFrom_skip. by apply replaceAllFrom_none.
Qed.

End LiteralPatternFacts.

Section FeedProperties.
Import JsString RegExp Js Express Spec Shape.

Lemma getSubstitution_app_plain (matched str : string) (position : nat)
    (captures : list string) (x r : string) :
  plain x = true ->
  getSubstitution matched str position captures (x +:+ r)
  = x +:+ getSubstitution matched str position captures r.
Proof.
  induction x as [|c x IH]; [done|]. cbn [plain].
  intros H. apply andb_true_iff in H as [Hc Hx].
  rewrite !app_cons. cbn [getSubstitution]. rewrite Hc. by rewrite (IH Hx).
Qed.

Variable static : StaticFiles.
Variable Buffer_toString : list Byte.byte -> string.

(** The feed, for a packages template that holds [{entries}] and a line
    feed once and entries that render: the entries, expanded as a
    replacement string, stand where the placeholder line was, and the first
    [{EXPRESS_URL_ROOT}] of the result is then replaced. *)
Lemma formatPackages_single_entries_line (pre post : string)
    (matchedPackages : list PackageMetadata) (req : request)
    (entries : list string) :
  packagesTemplate static = pre +:+ ("{entries}" +:+ LF) +:+ post ->
  includes pre ("{entries}" +:+ LF) = false ->
  includes post ("{entries}" +:+ LF) = false ->
  mapM (substituteFields Buffer_toString (entryTemplate static))
    matchedPackages = Some entries ->
  formatPackages static Buffer_toString matchedPackages req
  = Some (replaceFirst reUrlRoot (ReplaceString (urlRoot req))
            (pre +:+ getSubstitution ("{entries}" +:+ LF)
                       (pre +:+ ("{entries}" +:+ LF) +:+ post) (len pre) []
                       (join EmptyString entries)
                 +:+ post)).
Proof.
  intros Ht Hpre Hpost Hentries. unfold formatPackages.
  rewrite Hentries, Ht. cbn [mbind option_bind]. do 2 f_equal.
  unfold reEntries.
  change ("{entries}" +:+ LF) with (String "{" ("entries}" +:+ LF)) in *.
  by rewrite (replaceAll_single "{" ("entries}" +:+ LF) _ pre post eq_refl
                Hpre Hpost).
Qed.

(** X16.  For a collection template that holds the entries line once and no
    root placeholder, the feed of an empty list of matches is the template
    without the entries line. *)
Theorem no_match_renders_wrapper (pre post : string) (req : request) :
  packagesTemplate static = pre +:+ ("{entries}" +:+ LF) +:+ post ->
  includes pre ("{entries}" +:+ LF) = false ->
  includes post ("{entries}" +:+ LF) = false ->
  includes (pre +:+ post) "{EXPRESS_URL_ROOT}" = false ->
  formatPackages static Buffer_toString [] req = Some (pre +:+ post).
Proof.
  intros Ht Hpre Hpost Hroot.
  rewrite (formatPackages_single_entries_line pre post [] req []
             Ht Hpre Hpost eq_refl).
  rewrite join_nil. cbn [getSubstitution]. rewrite app_nil_l.
  f_equal. by apply replaceFirst_none.
Qed.

(** X17.  For a collection template that holds the entries line once: when
    the rendered entries hold a root placeholder, no root placeholder comes
    before it, and neither the entries around it nor the request's root hold
    a dollar sign, the feed is the template with the entries in place of the
    entries line and the request's protocol and host in place of that
    placeholder. *)
Theorem first_placeholder_resolved (pre post x y : string)
    (matchedPackages : list PackageMetadata) (req : request)
    (entries : list string) :
  packagesTemplate static = pre +:+ ("{entries}" +:+ LF) +:+ post ->
  includes pre ("{entries}" +:+ LF) = false ->
  includes post ("{entries}" +:+ LF) = false ->
  mapM (substituteFields Buffer_toString (entryTemplate static))
    matchedPackages = Some entries ->
  join EmptyString entries = x +:+ "{EXPRESS_URL_ROOT}" +:+ y ->
  plain x = true -> plain y = true ->
  includes (pre +:+ x) "{EXPRESS_URL_ROOT}" = false ->
  plain (urlRoot req) = true ->
  formatPackages static Buffer_toString matchedPackages req
  = Some (pre +:+ x +:+ urlRoot req +:+ y +:+ post).
Proof.
  intros Ht Hpre Hpost Hentries HR Hx Hy Hfirst Hroot.
  rewrite (formatPackages_single_entries_line pre post _ req entries
             Ht Hpre Hpost Hentries).
  f_equal. rewrite HR. rewrite getSubstitution_plain.
  2:{ rewrite <- (app_nil_r y).
      assert (forall a b, plain a = true -> plain b = true ->
                          plain (a +:+ b) = true) as Happ.
      { intros a b Ha Hb. induction a as [|c a IH]; [done|].
        rewrite app_cons. cbn in *. apply andb_true_iff in Ha as [-> Ha].
        by apply IH. }
      apply Happ; [done|]. apply Happ; [done|]. by rewrite app_nil_r. }
  replace (pre +:+ (x +:+ "{EXPRESS_URL_ROOT}" +:+ y) +:+ post)
    with ((pre +:+ x) +:+ "{EXPRESS_URL_ROOT}" +:+ (y +:+ post))
    by (by rewrite !app_assoc).
  unfold reUrlRoot.
  change "{EXPRESS_URL_ROOT}" with (String "{" "EXPRESS_URL_ROOT}") in *.
  rewrite (replaceFirst_first "{" "EXPRESS_URL_ROOT}" _ (pre +:+ x) (y +:+ post)
             eq_refl Hfirst).
  cbn [replaceValue]. rewrite getSubstitution_plain by done.
  by rewrite !app_assoc.
Qed.

(** X18.  The rendered entries are used as a replacement string.  For a
    collection template that holds the entries line once: when the rendered
    entries hold two dollar signs in a row and no other dollar sign, and the
    result holds no root placeholder, the feed holds the entries with one
    dollar sign in place of the two. *)
Theorem double_dollar_is_halved (pre post x y : string)
    (matchedPackages : list PackageMetadata) (req : request)
    (entries : list string) :
  packagesTemplate static = pre +:+ ("{entries}" +:+ LF) +:+ post ->
  includes pre ("{entries}" +:+ LF) = false ->
  includes post ("{entries}" +:+ LF) = false ->
  mapM (substituteFields Buffer_toString (entryTemplate static))
    matchedPackages = Some entries ->
  join EmptyString entries = x +:+ "$$" +:+ y ->
  plain x = true -> plain y = true ->
  includes (pre +:+ x +:+ "$" +:+ y +:+ post) "{EXPRESS_URL_ROOT}" = false ->
  formatPackages static Buffer_toString matchedPackages req
  = Some (pre +:+ x +:+ "$" +:+ y +:+ post).
Proof.
  intros Ht Hpre Hpost Hentries HR Hx Hy Hroot.
  rewrite (formatPackages_single_entries_line pre post _ req entries
             Ht Hpre Hpost Hentries).
  f_equal. rewrite HR. rewrite getSubstitution_app_plain by done.
  change ("$$" +:+ y) with (String "$" (String "$" y)).
  cbn [getSubstitution]. cbn [Ascii.eqb Bool.eqb negb].
  rewrite getSubstitution_plain by done. unfold reUrlRoot.
  replace (pre +:+ (x +:+ String "$" y) +:+ post)
    with (pre +:+ x +:+ "$" +:+ y +:+ post)
    by (by rewrite (app_assoc x)).
  by rewrite replaceFirst_none.
Qed.

(** X27.  For every template and every request, the feed of records in
    which every field can be converted to a string is rendered: rendering
    throws only for a record with a list field that holds an element with
    an attribute named [toString]. *)
Theorem printable_records_render (matchedPackages : list PackageMetadata)
    (req : request) :
  (forall entry key, In entry matchedPackages ->
     printable (fields entry !! key) = true) ->
  is_Some (formatPackages static Buffer_toString matchedPackages req).
Proof.
  intros H. unfold formatPackages.
  assert (Hall : is_Some
            (mapM (substituteFields Buffer_toString (entryTemplate static))
               matchedPackages)).
  { apply mapM_is_Some, Forall_forall. intros entry Hin.
    apply list_elem_of_In in Hin. cbn. unfold substituteFields, replaceAllWith.
    apply replaceAllWithFrom_is_Some. intros matched captures.
    unfold fieldReplacer.
    set (key := default "undefined" (head captures)).
    destruct (truthy (getProperty entry key)); [|by eexists].
    pose proof (H entry key Hin) as Hp. unfold getProperty.
    destruct (String.eqb key "nupkgData").
    { destruct (nupkgData entry); by eexists. }
    destruct (fields entry !! key) as [[t|children]|]; cbn.
    - by eexists.
    - by apply toStringArray_printable.
    - destruct (objectPrototype key); by eexists. }
  destruct Hall as [entries ->]. by eexists.
Qed.

End FeedProperties.

Section FeedPropertyExamples.
Import JsString RegExp Js Express Spec.

Lemma no_match_renders_wrapper_witness :
  formatPackages Example.static Example.Buffer_toString []
    (Example.byIdRequest "none")
  = Some (("<feed>" +:+ LF) +:+ ("</feed>" +:+ LF)).
Proof.
  apply (no_match_renders_wrapper Example.static Example.Buffer_toString
           ("<feed>" +:+ LF) ("</feed>" +:+ LF) (Example.byIdRequest "none"));
    vm_compute; reflexivity.
Defined.

Lemma first_placeholder_resolved_witness :
  formatPackages (Samples.static "<e>{url}</e>") Example.Buffer_toString
    [Samples.fooNormalized] (Example.byIdRequest "foo")
  = Some (("<feed>" +:+ LF) +:+ "<e>" +:+ "http://localhost:8000"
          +:+ "/download/foo</e>" +:+ ("</feed>" +:+ LF)).
Proof.
  apply (first_placeholder_resolved (Samples.static "<e>{url}</e>")
           Example.Buffer_toString ("<feed>" +:+ LF) ("</feed>" +:+ LF)
           "<e>" "/download/foo</e>" [Samples.fooNormalized]
           (Example.byIdRequest "foo")
           ["<e>{EXPRESS_URL_ROOT}/download/foo</e>"]);
    vm_compute; reflexivity.
Defined.

Lemma double_dollar_is_halved_witness :
  formatPackages (Samples.static "<s>{summary}</s>") Example.Buffer_toString
    [Samples.priced] (Example.byIdRequest "priced")
  = Some (("<feed>" +:+ LF) +:+ "<s>costs " +:+ "$" +:+ "5</s>"
          +:+ ("</feed>" +:+ LF)).
Proof.
  apply (double_dollar_is_halved (Samples.static "<s>{summary}</s>")
           Example.Buffer_toString ("<feed>" +:+ LF) ("</feed>" +:+ LF)
           "<s>costs " "5</s>" [Samples.priced]
           (Example.byIdRequest "priced") ["<s>costs $$5</s>"]);
    vm_compute; reflexivity.
Defined.

Lemma printable_records_render_witness :
  is_Some
    (formatPackages Example.static Example.Buffer_toString
       Example.localPackages (Example.byIdRequest "bar")).
Proof.
  apply (printable_records_render Example.static Example.Buffer_toString
           Example.localPackages (Example.byIdRequest "bar")).
  assert (HF : Forall (fun e => map_Forall (fun _ v => printableValue v = true)
                                  (fields e)) Example.localPackages).
  { apply (bool_decide_unpack _). vm_compute. exact I. }
  intros entry key Hin. apply list_elem_of_In in Hin.
  rewrite Forall_forall in HF. specialize (HF entry Hin).
  destruct (fields entry !! key) as [v|] eqn:E; [|done].
  exact (HF key v E).
Defined.
End FeedPropertyExamples.

(** ** Reading an archive, and the standalone server *)

Section ExtractorFacts.
Import JsString RegExp Js Normalizer Spec Shape Extractor.

Lemma findThrowing_first {A : Type} (f : A -> outcome bool)
    (earlier later : list A) (x : A) :
  (forall y, In y earlier -> f y = Return false) ->
  findThrowing f (earlier ++ x :: later) =
    match f x with
    | Return true => Return (Some x)
    | Return false => findThrowing f later
    | Throw e => Throw e
    end.
Proof.
  intros H. induction earlier as [|y earlier IH]; cbn.
  - by destruct (f x) as [[|]|].
  - rewrite (H y) by (by left). cbn. apply IH. intros z Hz. apply H. by right.
Qed.

Lemma findThrowing_none {A : Type} (f : A -> outcome bool) (xs : list A) :
  (forall y, In y xs -> f y = Return false) ->
  findThrowing f xs = Return None.
Proof.
  intros H. induction xs as [|y xs IH]; [done|]. cbn.
  rewrite (H y) by (by left). cbn. apply IH. intros z Hz. apply H. by right.
Qed.

(** The last element of the list that has the given name. *)
Lemma convertMetadata_fold (key : string) (elements : list XmlElement)
    (metadata : gmap string value) :
  key <> "__proto__" ->
  fold_left
    (fun metadata element =>
       assign (name element) (convertElement element) metadata)
    elements metadata !! key
  = match last (List.filter (fun e => String.eqb (name e) key) elements) with
    | Some e => Some (convertElement e)
    | None => metadata !! key
    end.
Proof.
  intros Hkey. revert metadata.
  induction elements as [|e elements IH]; intros metadata; [done|].
  cbn [fold_left List.filter]. rewrite IH. unfold assign.
  destruct (String.eqb_spec (name e) key) as [E|E].
  - destruct (String.eqb_spec (name e) "__proto__") as [E'|E']; [congruence|].
    destruct (List.filter _ elements) as [|e' l] eqn:Hl; cbn.
    + by rewrite E, lookup_insert_eq.
    + destruct (last (e' :: l)) eqn:E1; [done|]. by apply last_None in E1.
  - destruct (last (List.filter _ elements)); [done|].
    destruct (String.eqb (name e) "__proto__"); [done|].
    by rewrite lookup_insert_ne.
Qed.

Lemma replaceAtStart_slash (target : string) :
  replaceAtStart (lit "/" accept) (ReplaceString EmptyString) target
  = match target with
    | String "/" rest => rest
    | _ => target
    end.
Proof.
  destruct target as [|c rest]; [done|]. unfold replaceAtStart. cbn.
  destruct (Ascii.eqb_spec "/" c) as [<-|Hc]; [done|].
  destruct c as [[] [] [] [] [] [] [] []]; done.
Qed.

End ExtractorFacts.

Section ExtractorProperties.
Import JsString RegExp Js Normalizer Spec Shape Extractor.

Variable AdmZip : string -> option Archive.
Variable XmlDocument : string -> option XmlElement.
Variable childrenNamed : XmlElement -> string -> list XmlElement.
Variable childNamed : XmlElement -> string -> option XmlElement.

Lemma isManifest_typed (e : XmlElement) (t : string) :
  attr e !! "Type" = Some t -> isManifest e = Return (endsWith t "/manifest").
Proof. intros H. unfold isManifest. by rewrite H. Qed.

(** X19.  When the archive opens, its relationships parse, and every
    Relationship has a Type that does not end with [/manifest], reading the
    archive throws the Error whose message is the fixed text followed by the
    path. *)
Theorem manifest_not_found (path : string) (zip : Archive) (relDoc : XmlElement) :
  AdmZip path = Some zip ->
  XmlDocument (readAsText zip "_rels/.rels") = Some relDoc ->
  (forall e, In e (childrenNamed relDoc "Relationship") ->
     exists t, attr e !! "Type" = Some t /\ endsWith t "/manifest" = false) ->
  readPackageMetadata AdmZip XmlDocument childrenNamed childNamed path
  = Throw (Error ("Unable to locate nupkg manifest in " +:+ path)).
Proof.
  intros Hzip Hrel Hall. unfold readPackageMetadata. rewrite Hzip. cbn.
  rewrite Hrel. cbn. rewrite findThrowing_none; [done|].
  intros e He. destruct (Hall e He) as (t & Ht & Hend).
  by rewrite (isManifest_typed e t Ht), Hend.
Qed.

(** X20.  When a Relationship without Type comes before every manifest
    relationship, reading the archive throws a TypeError, even if a manifest
    relationship follows. *)
Theorem relationship_without_type (path : string) (zip : Archive)
    (relDoc : XmlElement) (earlier later : list XmlElement) (e : XmlElement) :
  AdmZip path = Some zip ->
  XmlDocument (readAsText zip "_rels/.rels") = Some relDoc ->
  childrenNamed relDoc "Relationship" = earlier ++ e :: later ->
  (forall y, In y earlier ->
     exists t, attr y !! "Type" = Some t /\ endsWith t "/manifest" = false) ->
  attr e !! "Type" = None ->
  readPackageMetadata AdmZip XmlDocument childrenNamed childNamed path
  = Throw TypeError.
Proof.
  intros Hzip Hrel Hlist Hearlier He. unfold readPackageMetadata.
  rewrite Hzip. cbn. rewrite Hrel. cbn. rewrite Hlist.
  rewrite findThrowing_first.
  - unfold isManifest. by rewrite He.
  - intros y Hy. destruct (Hearlier y Hy) as (t & Ht & Hend).
    by rewrite (isManifest_typed y t Ht), Hend.
Qed.

(** X21.  When the first Relationship whose Type ends with [/manifest] has
    a Target, and the entry at the Target without its leading slash parses
    and has a metadata child, reading returns a record that holds the
    archive's bytes, and under every name other than [nupkgData] and
    [__proto__] the conversion of the last element child of the metadata
    with that name (its text or, when it has element children, their
    attribute maps), and nothing when no element child has the name. *)
Theorem read_returns_last_elements (path : string) (zip : Archive)
    (relDoc nuspecDoc metadataElement manifest : XmlElement)
    (earlier later : list XmlElement) (type target nuspecPath : string) :
  AdmZip path = Some zip ->
  XmlDocument (readAsText zip "_rels/.rels") = Some relDoc ->
  childrenNamed relDoc "Relationship" = earlier ++ manifest :: later ->
  (forall y, In y earlier ->
     exists t, attr y !! "Type" = Some t /\ endsWith t "/manifest" = false) ->
  attr manifest !! "Type" = Some type -> endsWith type "/manifest" = true ->
  attr manifest !! "Target" = Some target ->
  target = "/" +:+ nuspecPath \/
    (startsWith target "/" = false /\ target = nuspecPath) ->
  XmlDocument (readAsText zip nuspecPath) = Some nuspecDoc ->
  childNamed nuspecDoc "metadata" = Some metadataElement ->
  exists metadata,
    readPackageMetadata AdmZip XmlDocument childrenNamed childNamed path
      = Return metadata /\
    nupkgData metadata = Some (toBuffer zip) /\
    forall key, key <> "nupkgData" -> key <> "__proto__" ->
      fields metadata !! key =
        convertElement <$>
          last (List.filter (fun e => String.eqb (name e) key)
                  (elementsOf (children metadataElement))).
Proof.
  intros Hzip Hrel Hlist Hearlier Htype Hend Htarget Hpath Hnuspec Hmeta.
  assert (Hstrip : replaceAtStart (lit "/" accept) (ReplaceString EmptyString)
                     target = nuspecPath).
  { rewrite replaceAtStart_slash. destruct Hpath as [->|[Hs ->]]; [done|].
    destruct nuspecPath as [|c rest]; [done|]. cbn in Hs.
    destruct (Ascii.eqb_spec "/" c) as [<-|Hc]; [done|].
    destruct c as [[] [] [] [] [] [] [] []]; done. }
  eexists. split; [|split].
  - unfold readPackageMetadata. rewrite Hzip. cbn -[replaceAtStart lit].
    rewrite Hrel. cbn -[replaceAtStart lit].
    rewrite Hlist, findThrowing_first.
    + rewrite (isManifest_typed manifest type Htype), Hend.
      cbn -[replaceAtStart lit]. rewrite Htarget. cbn -[replaceAtStart lit].
      rewrite Hstrip, Hnuspec. cbn. rewrite Hmeta. cbn. reflexivity.
    + intros y Hy. destruct (Hearlier y Hy) as (t & Ht & Hend').
      by rewrite (isManifest_typed y t Ht), Hend'.
  - done.
  - intros key Hdata Hproto. cbn. rewrite lookup_delete_ne by done.
    unfold convertMetadata. rewrite convertMetadata_fold by done.
    by destruct (last _).
Qed.

(** What a read that returns has done. *)
Lemma readPackageMetadata_Return (path : string) (metadata : PackageMetadata) :
  readPackageMetadata AdmZip XmlDocument childrenNamed childNamed path
    = Return metadata ->
  exists zip metadataElements,
    AdmZip path = Some zip /\
    metadata = mkPackageMetadata
                 (delete "nupkgData" (convertMetadata metadataElements))
                 (Some (toBuffer zip)).
Proof.
  unfold readPackageMetadata.
  destruct (AdmZip path) as [zip|]; [|done]. cbn.
  destruct (XmlDocument _) as [relDoc|]; [|done]. cbn.
  destruct (findThrowing _ _) as [[manifest|]|]; [|done..]. cbn.
  destruct (attr manifest !! "Target") as [target|]; [|done]. cbn.
  destruct (XmlDocument _) as [nuspecDoc|]; [|done]. cbn.
  destruct (childNamed _ _) as [metadataElement|]; [|done]. cbn.
  intros [= <-]. by eexists _, _.
Qed.

(** X22.  Every record read from an archive has, once normalised, the
    download address under the prefix for its id as [url], whatever url the
    nuspec gives, and still holds the bytes of the archive. *)
Theorem read_then_normalise_sets_download_url (path prefix : string)
    (metadata metadata' : PackageMetadata) :
  readPackageMetadata AdmZip XmlDocument childrenNamed childNamed path
    = Return metadata ->
  preprocessEntry prefix metadata = Some metadata' ->
  (exists id,
     toStringField (fields metadata !! "id") = Some id /\
     fields metadata' !! "url" =
       Some (VText ("{EXPRESS_URL_ROOT}" +:+ prefix +:+ "download/"
                      +:+ id))) /\
  exists zip, AdmZip path = Some zip /\
              nupkgData metadata' = Some (toBuffer zip).
Proof.
  intros Hread Hpre.
  apply readPackageMetadata_Return in Hread as (zip & elements & Hzip & ->).
  pose proof (preprocessEntry_url _ _ _ Hpre) as Hurl. cbn in Hurl.
  split; [done|]. exists zip. split; [done|].
  by apply preprocessEntry_Some in Hpre as (? & ? & _ & _ & _ & _ & -> & _).
Qed.

(** X23.  Metadata whose last [dependencies] element has a non-empty text
    and no element child is converted to a record on which normalisation
    throws. *)
Theorem text_dependencies_break_normalisation (prefix : string)
    (metadataElements : list XmlNode) (e : XmlElement) (c : ascii) (s : string)
    (data : option (list Byte.byte)) :
  last (List.filter (fun e => String.eqb (name e) "dependencies")
          (elementsOf metadataElements)) = Some e ->
  elementsOf (children e) = [] ->
  val e = String c s ->
  preprocessEntry prefix
    (mkPackageMetadata (delete "nupkgData" (convertMetadata metadataElements))
       data)
  = None.
Proof.
  intros Hlast Hchildren Hval. apply preprocessEntry_None.
  apply normalizable_false. left. exists c, s. cbn.
  rewrite lookup_delete_ne by done.
  unfold convertMetadata. rewrite convertMetadata_fold by done.
  rewrite Hlast. unfold convertElement. by rewrite Hchildren, Hval.
Qed.

End ExtractorProperties.

Section StandaloneProperties.
Import Js Normalizer Spec Extractor Cli.

Variable AdmZip : string -> option Archive.
Variable XmlDocument : string -> option XmlElement.
Variable childrenNamed : XmlElement -> string -> list XmlElement.
Variable childNamed : XmlElement -> string -> option XmlElement.
Variable static : StaticFiles.
Variable Buffer_toString : list Byte.byte -> string.
Variable env : gmap string string.


Lemma readAll_Return (paths : list string) (l : list PackageMetadata) :
  readAll AdmZip XmlDocument childrenNamed childNamed paths = Return l <->
  Forall2
    (fun path metadata =>
       readPackageMetadata AdmZip XmlDocument childrenNamed childNamed path
       = Return metadata)
    paths l.
Proof.
  revert l. induction paths as [|path paths IH]; intros l; cbn.
  - split; [intros [= <-]; constructor|by inversion 1].
  - destruct (readPackageMetadata AdmZip XmlDocument childrenNamed childNamed
                path) as [metadata|e] eqn:E; cbn.
    + destruct (readAll AdmZip XmlDocument childrenNamed childNamed paths)
        as [rest|e] eqn:E'; cbn.
      * split.
        -- intros [= <-]. constructor; [done|]. by apply IH.
        -- inversion 1 as [|? y ? k Hy Hk]; subst.
           rewrite E in Hy. injection Hy as <-.
           apply IH in Hk. by injection Hk as <-.
      * split; [done|]. inversion 1 as [|? y ? k Hy Hk]; subst.
        by apply IH in Hk.
    + split; [done|]. inversion 1 as [|? y ? k Hy Hk]; subst.
      by rewrite E in Hy.
Qed.


Lemma Express_findThrowing_index {A : Type} (f : A -> option bool)
    (l : list A) (i : nat) (x : A) :
  l !! i = Some x -> f x = Some true ->
  (forall j y, j <> i -> l !! j = Some y -> f y = Some false) ->
  Express.findThrowing f l = Some (Some x).
Proof.
  revert i. induction l as [|y l IH]; intros i Hi Hx Hother; [done|].
  destruct i as [|i]; cbn in *.
  - injection Hi as ->. by rewrite Hx.
  - rewrite (Hother 0 y) by done. cbn. apply (IH i); [done..|].
    intros j z Hj Hz. apply (Hother (S j)); [lia|done].
Qed.

(** The id of a normalised record that holds its archive can be compared:
    the template literal of its url has converted it already. *)
Lemma normalised_id_comparable (prefix : string)
    (entry entry' : PackageMetadata) (name : string) :
  preprocessEntry prefix entry = Some entry' ->
  is_Some (nupkgData entry) ->
  is_Some (looseEq (fields entry !! "id") name).
Proof.
  intros Hpre [bytes Hdata]. apply looseEq_printable, toStringField_printable.
  apply preprocessEntry_url in Hpre. rewrite Hdata in Hpre.
  destruct Hpre as (id & Hid & _). by eexists.
Qed.


(** X25.  Once the standalone server listens, a download request for the
    id of a loaded archive is answered with that archive's bytes, provided
    no other loaded archive has a loosely equal id. *)
Theorem standalone_serves_archive (argv : list string) (port : portValue)
    (routes : route -> request -> response) (i : nat) (path id : string)
    (zip : Archive) (metadata : PackageMetadata) (req : request) :
  main AdmZip XmlDocument childrenNamed childNamed static
     Buffer_toString env argv = Listening port routes ->
  drop 2 argv !! i = Some path ->
  AdmZip path = Some zip ->
  readPackageMetadata AdmZip XmlDocument childrenNamed childNamed path
    = Return metadata ->
  looseEq (fields metadata !! "id") id = Some true ->
  (forall j path' metadata', j <> i ->
     drop 2 argv !! j = Some path' ->
     readPackageMetadata AdmZip XmlDocument childrenNamed childNamed path'
       = Return metadata' ->
     looseEq (fields metadata' !! "id") id <> Some true) ->
  params req !! "name" = Some id ->
  routes Download req = archiveResponse (toBuffer zip).
Proof.
  unfold Cli.main. cbv zeta. intros Hmain Hi Hzip Hread Hid Hother Hname.
  destruct (drop 2 argv) as [|p paths] eqn:Hdrop; [done|].
  set (l := p :: paths) in *.
  destruct (readAll AdmZip XmlDocument childrenNamed childNamed l)
    as [list|e] eqn:E; [|done].
  destruct (configureRoutes static Buffer_toString "/" list)
    as [routes'|] eqn:Ec; [|done].
  injection Hmain as _ <-.
  apply configureRoutes_Some in Ec as (normalized & Hnorm & ->).
  apply readAll_Return in E.
  unfold preprocessPackageMetadata in Hnorm. apply mapM_Some in Hnorm.
  destruct (Forall2_lookup_l _ _ _ _ _ E Hi) as (m & Hm & Hread').
  rewrite Hread in Hread'. injection Hread' as <-.
  destruct (Forall2_lookup_l _ _ _ _ _ Hnorm Hm) as (m' & Hm' & Hpre).
  pose proof Hpre as Hpre'.
  apply preprocessEntry_Some in Hpre'
    as (fd & ft & _ & _ & _ & _ & Hdata & Hkeys).
  apply readPackageMetadata_Return in Hread
    as (zip' & elements & Hzip' & Hmeta).
  rewrite Hzip in Hzip'. injection Hzip' as <-.
  unfold serve, get, downloadHandler. rewrite Hname.
  unfold mbind, Res_bind, Express.orThrow, mret, Res_ret.
  rewrite (Express_findThrowing_index _ normalized i m' Hm').
  - rewrite Hdata, Hmeta. done.
  - cbn. by rewrite (Hkeys "id").
  - intros j y Hj Hy. cbn.
    destruct (Forall2_lookup_r _ _ _ _ _ Hnorm Hy) as (x & Hx & Hprex).
    destruct (Forall2_lookup_r _ _ _ _ _ E Hx) as (path' & Hpath' & Hread').
    pose proof (Hother j path' x Hj Hpath' Hread') as Hne.
    apply readPackageMetadata_Return in Hread' as (zip' & ? & _ & Hx').
    destruct (normalised_id_comparable "/" x y id Hprex) as [b Hb].
    { rewrite Hx'. by eexists. }
    apply preprocessEntry_Some in Hprex
      as (? & ? & _ & _ & _ & _ & _ & Hkeys').
    rewrite (Hkeys' "id") by done. rewrite Hb in Hne |- *.
    by destruct b.
Qed.

End StandaloneProperties.

Section ExtractorPropertyExamples.
Import JsString Js Normalizer Spec Extractor ExampleArchive.

Lemma manifest_not_found_witness :
  read "plain.zip"
  = Throw (Error ("Unable to locate nupkg manifest in " +:+ "plain.zip")).
Proof.
  apply (manifest_not_found AdmZip XmlDocument childrenNamed childNamed
           "plain.zip" (archive "no manifest") (relationships [coreProperties]));
    [reflexivity | reflexivity |].
  intros e [<-|[]]. eexists. split; vm_compute; reflexivity.
Defined.

Lemma relationship_without_type_witness :
  read "untyped.zip" = Throw TypeError.
Proof.
  apply (relationship_without_type AdmZip XmlDocument childrenNamed childNamed
           "untyped.zip" (archive "untyped")
           (relationships [coreProperties; untyped; manifest])
           [coreProperties] [manifest] untyped);
    [reflexivity | reflexivity | reflexivity | | reflexivity].
  intros e [<-|[]]. eexists. split; vm_compute; reflexivity.
Defined.

Lemma read_returns_last_elements_witness :
  exists metadata,
    read "foo.1.1.nupkg" = Return metadata /\
    nupkgData metadata = Some [Byte.x50; Byte.x4b; Byte.x03; Byte.x04] /\
    fields metadata !! "version" = Some (VText "1.1") /\
    fields metadata !! "dependencies"
      = Some (VList [ {["id" := "baz"; "version" := "2.0"]} ]).
Proof.
  destruct (read_returns_last_elements AdmZip XmlDocument childrenNamed
              childNamed "foo.1.1.nupkg" (archive "rels")
              (relationships [coreProperties; manifest]) nuspec
              metadataElement manifest [coreProperties] []
              "http://schemas.microsoft.com/packaging/2010/07/manifest"
              "/foo.nuspec" "foo.nuspec")
    as (metadata & Hread & Hdata & Hkeys);
    try reflexivity.
  - intros e [<-|[]]. eexists. split; vm_compute; reflexivity.
  - left. reflexivity.
  - exists metadata. split; [exact Hread|]. split; [exact Hdata|].
    split.
    + rewrite (Hkeys "version"); [reflexivity | discriminate..].
    + rewrite (Hkeys "dependencies"); [reflexivity | discriminate..].
Defined.

Lemma read_then_normalise_sets_download_url_witness :
  exists id,
    toStringField (fields fooMetadata !! "id") = Some id /\
    fields (default fooMetadata (preprocessEntry "/choco/" fooMetadata))
      !! "url"
    = Some (VText ("{EXPRESS_URL_ROOT}" +:+ "/choco/" +:+ "download/"
                     +:+ id)).
Proof.
  assert (Hread : readPackageMetadata AdmZip XmlDocument childrenNamed
                    childNamed "foo.1.1.nupkg" = Return fooMetadata)
    by (vm_compute; reflexivity).
  assert (Hpre : preprocessEntry "/choco/" fooMetadata
                 = Some (default fooMetadata
                           (preprocessEntry "/choco/" fooMetadata)))
    by (vm_compute; reflexivity).
  apply (proj1 (read_then_normalise_sets_download_url AdmZip XmlDocument
                  childrenNamed childNamed "foo.1.1.nupkg" "/choco/"
                  fooMetadata _ Hread Hpre)).
Defined.

Lemma text_dependencies_break_normalisation_witness :
  preprocessEntry "/"
    (mkPackageMetadata
       (delete "nupkgData" (convertMetadata textDependencies)) None)
  = None.
Proof.
  apply (text_dependencies_break_normalisation "/" textDependencies
           (mkXmlElement "dependencies" ∅ "none" [XmlTextNode "none"])
           "n"%char "one" None);
    vm_compute; reflexivity.
Defined.


Lemma standalone_serves_archive_witness :
  exists routes,
    main argv = Listening (PortNumber 8000) routes /\
    routes Download (Example.downloadRequest "foo")
    = archiveResponse [Byte.x50; Byte.x4b; Byte.x03; Byte.x04].
Proof.
  assert (Hread : readPackageMetadata AdmZip XmlDocument childrenNamed
                    childNamed "foo.1.1.nupkg" = Return fooMetadata)
    by (vm_compute; reflexivity).
  assert (Hnorm : preprocessPackageMetadata (normalizePrefix "/") [fooMetadata]
                  = Some (Example.normalized [fooMetadata]))
    by (vm_compute; reflexivity).
  assert (E : main argv
              = Listening (PortNumber 8000)
                  (serve Example.static Example.Buffer_toString
                     (Example.normalized [fooMetadata]))).
  { unfold main, Cli.main, argv. cbn [drop skipn Cli.readAll].
    rewrite Hread. cbn [mbind outcome_bind].
    unfold configureRoutes. rewrite Hnorm. reflexivity. }
  eexists. split; [exact E|].
  apply (standalone_serves_archive AdmZip XmlDocument childrenNamed childNamed
           Example.static Example.Buffer_toString ∅ argv (PortNumber 8000) _ 0
           "foo.1.1.nupkg" "foo" (archive "rels") fooMetadata
           (Example.downloadRequest "foo") E);
    try (vm_compute; reflexivity).
  intros [|j] path' metadata' Hj Hpath; [done|]. destruct j; discriminate Hpath.
Defined.

End ExtractorPropertyExamples.
